(** * DataSet: configuration store and date-based split

    A shallow embedding of [tcn_sequence_models/data_processing/dataset.py]
    (class [DataSet]) together with the properties of its configuration
    round trip, of its error behaviour and of its date-based split.

    Python values are modelled by the inductive [PyVal]; a [DataSet]
    instance is its attribute dictionary (a finite map from attribute names
    to values); exceptions are results of an error monad, and a method that
    assigns attributes threads the attribute dictionary, so that the
    assignments made before an exception stay visible afterwards, as they do
    in Python. *)

From Stdlib Require Import ZArith QArith Qround List String Ascii Bool Lia.
From Stdlib Require Import DecimalString.
From stdpp Require Import base option gmap strings list fin_maps.

Import ListNotations.
Local Open Scope string_scope.
Local Open Scope list_scope.
Local Open Scope Z_scope.

(* ===================================================================== *)
(** * 1. Python values *)
(* ===================================================================== *)

(** [datetime.date]: compared field by field, most significant first. *)
Record date := mkDate { year : Z; month : Z; day : Z }.

(** A [datetime64] cell: its calendar date and the seconds past midnight. *)
Record Timestamp := mkTs { ts_date : date; ts_secs : Z }.

(** [d1 < d2] on [datetime.date]. *)
Definition date_ltb (d1 d2 : date) : bool :=
  (year d1 <? year d2)
  || ((year d1 =? year d2)
      && ((month d1 <? month d2)
          || ((month d1 =? month d2) && (day d1 <? day d2)))).

(** A pandas column: a datetime column (the only dtype with a [.dt]
    accessor), a float column, or an object column of strings. *)
Inductive Column :=
| ColDatetime (ts : list Timestamp)
| ColFloat (xs : list Q)
| ColObject (xs : list string).

(** A [pandas.DataFrame]: integer row labels and named columns. *)
Record DataFrame := mkDF {
  df_index : list Z;
  df_columns : list (string * Column)
}.

(** Keys of a Python [dict]: strings and integers. *)
Inductive PyKey := KStr (s : string) | KInt (z : Z).

(** The values that flow through [DataSet].  A float is modelled by the
    rational it denotes; the only float operation of the module is the true
    division [i_split / shape[0]].  An [ndarray] is the list of its entries
    along axis 0.  [PInst] is an instance of a class (a fitted
    transformer): its class name and its state. *)
#[warnings="-register-all"]
Inductive PyVal :=
| PNone
| PBool (b : bool)
| PInt (z : Z)
| PFloat (q : Q)
| PStr (s : string)
| PList (l : list PyVal)
| PTuple (l : list PyVal)
| PDict (kvs : list (PyKey * PyVal))
| PDate (d : date)
| PFrame (df : DataFrame)
| PArray (rows : list PyVal)
| PInst (cls : string) (state : PyVal).

(** Induction over [PyVal] that reaches the values nested in lists,
    tuples, dictionaries and arrays. *)
Section PyVal_induction.
Variable P : PyVal -> Prop.
Hypothesis HNone : P PNone.
Hypothesis HBool : forall b, P (PBool b).
Hypothesis HInt : forall z, P (PInt z).
Hypothesis HFloat : forall q, P (PFloat q).
Hypothesis HStr : forall s, P (PStr s).
Hypothesis HList : forall l, Forall P l -> P (PList l).
Hypothesis HTuple : forall l, Forall P l -> P (PTuple l).
Hypothesis HDict : forall kvs, Forall (fun kv => P (snd kv)) kvs -> P (PDict kvs).
Hypothesis HDate : forall d, P (PDate d).
Hypothesis HFrame : forall df, P (PFrame df).
Hypothesis HArray : forall rows, Forall P rows -> P (PArray rows).
Hypothesis HInst : forall cls st, P st -> P (PInst cls st).

Fixpoint PyVal_nested_ind (v : PyVal) : P v :=
  let fix go (l : list PyVal) : Forall P l :=
    match l with
    | [] => @List.Forall_nil _ P
    | x :: r => @List.Forall_cons _ P x _ (PyVal_nested_ind x) (go r)
    end in
  let fix go_kv (l : list (PyKey * PyVal)) : Forall (fun kv => P (snd kv)) l :=
    match l with
    | [] => @List.Forall_nil _ _
    | kv :: r => @List.Forall_cons _ (fun kv => P (snd kv)) kv _ (PyVal_nested_ind (snd kv)) (go_kv r)
    end in
  match v with
  | PNone => HNone
  | PBool b => HBool b
  | PInt z => HInt z
  | PFloat q => HFloat q
  | PStr s => HStr s
  | PList l => HList l (go l)
  | PTuple l => HTuple l (go l)
  | PDict kvs => HDict kvs (go_kv kvs)
  | PDate d => HDate d
  | PFrame df => HFrame df
  | PArray rows => HArray rows (go rows)
  | PInst cls st => HInst cls st (PyVal_nested_ind st)
  end.
End PyVal_induction.

(* ===================================================================== *)
(** * 2. Exceptions and the two monads *)
(* ===================================================================== *)

(** A raised exception: the name of its class and its argument (the key of
    a [KeyError], the path of a [FileNotFoundError], a message otherwise). *)
Record exn := mkExn { exn_class : string; exn_arg : string }.

Inductive result (A : Type) :=
| Ok (a : A)
| Raise (e : exn).
Arguments Ok {A} a.
Arguments Raise {A} e.

Definition raise {A} (cls arg : string) : result A := Raise (mkExn cls arg).

#[export] Instance result_ret : MRet result := fun A a => Ok a.
#[export] Instance result_bind : MBind result := fun A B f m =>
  match m with
  | Ok a => f a
  | Raise e => Raise e
  end.

#[export] Instance result_fmap : FMap result := fun A B f m =>
  match m with
  | Ok a => Ok (f a)
  | Raise e => Raise e
  end.

(** A method of an object whose state has type [S]: it returns a value or
    raises, and in both cases leaves a state behind. *)
Definition M (S A : Type) : Type := S -> result A * S.

#[export] Instance M_ret {S} : MRet (M S) := fun A a s => (Ok a, s).
#[export] Instance M_bind {S} : MBind (M S) := fun A B f m s =>
  match m s with
  | (Ok a, s') => f a s'
  | (Raise e, s') => (Raise e, s')
  end.

(** An expression that may raise but does not touch the state. *)
Definition lift {S A} (r : result A) : M S A := fun s => (r, s).


(* ===================================================================== *)
(** * 3. The Python operations the class uses *)
(* ===================================================================== *)

Definition PyKey_eqb (k1 k2 : PyKey) : bool :=
  match k1, k2 with
  | KStr a, KStr b => String.eqb a b
  | KInt a, KInt b => a =? b
  | _, _ => false
  end.

(** [d[k]] on the items of a dictionary. *)
Fixpoint dict_get (k : PyKey) (kvs : list (PyKey * PyVal)) : option PyVal :=
  match kvs with
  | [] => None
  | (k', v) :: r => if PyKey_eqb k k' then Some v else dict_get k r
  end.

(** [d[k] = v]: an existing key keeps its position, a new key goes last. *)
Fixpoint dict_set (k : PyKey) (v : PyVal) (kvs : list (PyKey * PyVal))
  : list (PyKey * PyVal) :=
  match kvs with
  | [] => [(k, v)]
  | (k', v') :: r =>
      if PyKey_eqb k k' then (k', v) :: r else (k', v') :: dict_set k v r
  end.

(** [l[i]] on a sequence of length [n]: a negative [i] counts from the end;
    [None] when [i] is out of range. *)
Definition seq_index {A} (l : list A) (i : Z) : option A :=
  let n := Z.of_nat (length l) in
  if (0 <=? i) && (i <? n) then l !! Z.to_nat i
  else if (- n <=? i) && (i <? 0) then l !! Z.to_nat (n + i)
  else None.

Definition key_repr (k : PyKey) : string :=
  match k with
  | KStr s => s
  | KInt z => NilZero.string_of_int (Z.to_int z)
  end.

(** [container[key]]. *)
Definition py_getitem (container key : PyVal) : result PyVal :=
  match container with
  | PDict kvs =>
      match key with
      | PStr s =>
          match dict_get (KStr s) kvs with
          | Some v => Ok v
          | None => raise "KeyError" s
          end
      | PInt z =>
          match dict_get (KInt z) kvs with
          | Some v => Ok v
          | None => raise "KeyError" (key_repr (KInt z))
          end
      | _ => raise "KeyError" "key"
      end
  | PList l =>
      match key with
      | PInt i =>
          match seq_index l i with
          | Some v => Ok v
          | None => raise "IndexError" "list index out of range"
          end
      | _ => raise "TypeError" "list indices must be integers or slices"
      end
  | PTuple l =>
      match key with
      | PInt i =>
          match seq_index l i with
          | Some v => Ok v
          | None => raise "IndexError" "tuple index out of range"
          end
      | _ => raise "TypeError" "tuple indices must be integers or slices"
      end
  | PArray rows =>
      match key with
      | PInt i =>
          match seq_index rows i with
          | Some v => Ok v
          | None => raise "IndexError" "index is out of bounds for axis 0"
          end
      | _ => raise "IndexError" "only integers are valid indices"
      end
  | PStr s =>
      match key with
      | PInt i =>
          match seq_index (list_ascii_of_string s) i with
          | Some c => Ok (PStr (String c EmptyString))
          | None => raise "IndexError" "string index out of range"
          end
      | _ => raise "TypeError" "string indices must be integers"
      end
  | _ => raise "TypeError" "object is not subscriptable"
  end.

(** The items a [for] loop visits. *)
Definition py_iter (v : PyVal) : result (list PyVal) :=
  match v with
  | PList l | PTuple l | PArray l => Ok l
  | PDict kvs =>
      Ok (map (fun kv => match fst kv with KStr s => PStr s | KInt z => PInt z end) kvs)
  | PStr s => Ok (map (fun c => PStr (String c EmptyString)) (list_ascii_of_string s))
  | _ => raise "TypeError" "object is not iterable"
  end.

(** The bound method [lst.append]: looking it up fails on a value that is
    not a list; applied to [x] it gives the list after the call. *)
Definition py_append (lst : PyVal) : result (PyVal -> PyVal) :=
  match lst with
  | PList l => Ok (fun x => PList (l ++ [x]))
  | _ => raise "AttributeError" "append"
  end.

(** ["literal" + v]. *)
Definition py_str_add (s : string) (v : PyVal) : result PyVal :=
  match v with
  | PStr t => Ok (PStr (s +:+ t))
  | _ => raise "TypeError" "can only concatenate str to str"
  end.

(** The truth value tested by [if v:]. *)
Definition py_truth (v : PyVal) : result bool :=
  match v with
  | PNone => Ok false
  | PBool b => Ok b
  | PInt z => Ok (negb (z =? 0))
  | PFloat q => Ok (negb (Qeq_bool q 0))
  | PStr s => Ok (negb (String.eqb s ""))
  | PList l | PTuple l => Ok (negb (Nat.eqb (length l) 0))
  | PDict kvs => Ok (negb (Nat.eqb (length kvs) 0))
  | PDate _ | PInst _ _ => Ok true
  | PArray rows =>
      match rows with
      | [] => Ok false
      | [x] => Ok true
      | _ => raise "ValueError" "the truth value of an array is ambiguous"
      end
  | PFrame _ => raise "ValueError" "the truth value of a DataFrame is ambiguous"
  end.

(** [a, b, ... = v] with [n] names on the left. *)
Definition py_unpack (n : nat) (v : PyVal) : result (list PyVal) :=
  match py_iter v with
  | Ok l =>
      if Nat.ltb n (length l) then raise "ValueError" "too many values to unpack"
      else if Nat.ltb (length l) n then raise "ValueError" "not enough values to unpack"
      else Ok l
  | Raise _ => raise "TypeError" "cannot unpack non-iterable object"
  end.

(** [arr.shape[0]]. *)
Definition shape0 (v : PyVal) : result Z :=
  match v with
  | PArray rows => Ok (Z.of_nat (length rows))
  | PFrame df => Ok (Z.of_nat (length (df_index df)))
  | _ => raise "AttributeError" "shape"
  end.

(** [os.path.join(a, name)] (POSIX) for a [name] that is not absolute. *)
Definition ends_with_sep (a : string) : bool :=
  match last (list_ascii_of_string a) with
  | Some c => Ascii.eqb c "/"%char
  | None => false
  end.

Definition os_path_join (a name : string) : string :=
  if String.eqb a "" || ends_with_sep a then a +:+ name
  else a +:+ "/" +:+ name.

(* ===================================================================== *)
(** * 4. JSON documents and the [json] module *)
(* ===================================================================== *)

#[warnings="-register-all"]
Inductive json :=
| JNull
| JBool (b : bool)
| JInt (z : Z)
| JFloat (q : Q)
| JStr (s : string)
| JArr (l : list json)
| JObj (kvs : list (string * json)).

(** [json.dumps]: tuples and lists both become arrays, dictionary keys
    become strings, and a value of any other kind is not serialisable
    ([None] stands for the [TypeError]). *)
Fixpoint json_encode (v : PyVal) : option json :=
  match v with
  | PNone => Some JNull
  | PBool b => Some (JBool b)
  | PInt z => Some (JInt z)
  | PFloat q => Some (JFloat q)
  | PStr s => Some (JStr s)
  | PList l | PTuple l =>
      JArr <$> (fix go (l : list PyVal) : option (list json) :=
                  match l with
                  | [] => Some []
                  | x :: r =>
                      match json_encode x, go r with
                      | Some j, Some js => Some (j :: js)
                      | _, _ => None
                      end
                  end) l
  | PDict kvs =>
      JObj <$> (fix go (l : list (PyKey * PyVal)) : option (list (string * json)) :=
                  match l with
                  | [] => Some []
                  | (k, x) :: r =>
                      match json_encode x, go r with
                      | Some j, Some js => Some ((key_repr k, j) :: js)
                      | _, _ => None
                      end
                  end) kvs
  | PDate _ | PFrame _ | PArray _ | PInst _ _ => None
  end.

(** [json.loads]: arrays become lists, objects become dictionaries with
    string keys; of a repeated key the last value is kept. *)
Fixpoint json_decode (j : json) : PyVal :=
  match j with
  | JNull => PNone
  | JBool b => PBool b
  | JInt z => PInt z
  | JFloat q => PFloat q
  | JStr s => PStr s
  | JArr l => PList (map json_decode l)
  | JObj kvs =>
      PDict (fold_left (fun acc kv => dict_set (KStr (fst kv)) (snd kv) acc)
                       (map (fun kv => (fst kv, json_decode (snd kv))) kvs) [])
  end.

(* ===================================================================== *)
(** * 5. The file system *)
(* ===================================================================== *)

(** What a file holds: a JSON document, the pickle of a value, nothing, or
    bytes that are neither. *)
Inductive File :=
| FJson (j : json)
| FPickle (v : PyVal)
| FEmpty
| FGarbage.

(** The files by path, and the paths that can be opened for writing (their
    directory exists and is writable). *)
Record FS := mkFS {
  fs_files : gmap string File;
  fs_writable : string -> bool
}.

Definition fs_put (path : string) (f : File) : M FS unit := fun fs =>
  (Ok tt, mkFS (<[path := f]> (fs_files fs)) (fs_writable fs)).

(** [open(path, "w")] and [open(path, "wb")]: the file is created or
    truncated. *)
Definition open_w (path : string) : M FS unit := fun fs =>
  if fs_writable fs path then fs_put path FEmpty fs
  else (raise "FileNotFoundError" path, fs).

(** [json.dump(v, open(path, "w"))]: a value that is not serialisable
    leaves the text written so far in the file. *)
Definition json_dump (v : PyVal) (path : string) : M FS unit :=
  open_w path;;
  match json_encode v with
  | Some j => fs_put path (FJson j)
  | None => fs_put path FGarbage;; lift (raise "TypeError" "Object is not JSON serializable")
  end.

(** [pickle.dump(v, f, pickle.HIGHEST_PROTOCOL)] on the file [f] that was
    opened at [path]. *)
Definition pickle_dump (v : PyVal) (path : string) : M FS unit :=
  fs_put path (FPickle v).

(** [json.load(open(path))]. *)
Definition json_load (fs : FS) (path : string) : result PyVal :=
  match fs_files fs !! path with
  | None => raise "FileNotFoundError" path
  | Some (FJson j) => Ok (json_decode j)
  | Some (FPickle _) => raise "UnicodeDecodeError" "invalid start byte"
  | Some FEmpty | Some FGarbage => raise "JSONDecodeError" "Expecting value"
  end.

(** [with open(path, "rb") as f: pickle.load(f)]. *)
Definition pickle_load (fs : FS) (path : string) : result PyVal :=
  match fs_files fs !! path with
  | None => raise "FileNotFoundError" path
  | Some (FPickle v) => Ok v
  | Some FEmpty => raise "EOFError" "Ran out of input"
  | Some (FJson _) | Some FGarbage => raise "UnpicklingError" "invalid load key"
  end.

(* ===================================================================== *)
(** * 6. The [DataSet] object and its configuration store *)
(* ===================================================================== *)

(** A [DataSet] instance is its attribute dictionary. *)
Abbreviation Obj := (gmap string PyVal).

(** [self.name]. *)
Definition attr (self : Obj) (name : string) : result PyVal :=
  match self !! name with
  | Some v => Ok v
  | None => raise "AttributeError" name
  end.

Definition getattr (name : string) : M Obj PyVal := fun self => (attr self name, self).

(** [self.name = v]. *)
Definition setattr (name : string) (v : PyVal) : M Obj unit := fun self =>
  (Ok tt, <[name := v]> self).

(** [DataSet.__init__]. *)
Definition DataSet (df : PyVal) : Obj :=
  <["one_hot_encoder" := PNone]>
  (<["nan_handler" := PNone]>
  (<["autoregressive" := PBool false]>
  (<["y" := PNone]>
  (<["X" := PNone]>
  (<["scaler_y" := PNone]>
  (<["scaler_X" := PNone]>
  (<["temporal_encodings" := PList []]>
  (<["output_seq_len" := PNone]>
  (<["input_seq_len" := PNone]>
  (<["feature_target" := PNone]>
  (<["features_input_decoder" := PNone]>
  (<["features_input_encoder" := PNone]>
  (<["df_processed" := PNone]>
  (<["df_raw" := df]> ∅)))))))))))))).

(** [DataSet.save_dataset_config]. *)
Definition save_dataset_config (self : Obj) (save_path : string) : M FS unit :=
  let config_file_dir := os_path_join save_path "dataset_config.json" in
  features_input_encoder ← lift (attr self "features_input_encoder");
  features_input_decoder ← lift (attr self "features_input_decoder");
  feature_target ← lift (attr self "feature_target");
  temporal_encodings ← lift (attr self "temporal_encodings");
  autoregressive ← lift (attr self "autoregressive");
  input_seq_len ← lift (attr self "input_seq_len");
  output_seq_len ← lift (attr self "output_seq_len");
  let config_dict :=
    PDict [ (KStr "features_input_encoder", features_input_encoder);
            (KStr "features_input_decoder", features_input_decoder);
            (KStr "feature_target", feature_target);
            (KStr "temporal_encoding", temporal_encodings);
            (KStr "autoregressive", autoregressive);
            (KStr "input_seq_len", input_seq_len);
            (KStr "output_seq_len", output_seq_len) ] in
  json_dump config_dict config_file_dir;;
  (* Save NaNHandler *)
  let nan_handler_dir := os_path_join save_path "NaNHandler.pkl" in
  open_w nan_handler_dir;;
  nan_handler ← lift (attr self "nan_handler");
  pickle_dump nan_handler nan_handler_dir;;
  (* Save OneHotEncoder *)
  let ohe_dir := os_path_join save_path "OneHotEncoder.pkl" in
  open_w ohe_dir;;
  one_hot_encoder ← lift (attr self "one_hot_encoder");
  pickle_dump one_hot_encoder ohe_dir;;
  (* Save scalers *)
  let scaler_X_dir := os_path_join save_path "scaler_X.pkl" in
  open_w scaler_X_dir;;
  scaler_X ← lift (attr self "scaler_X");
  pickle_dump scaler_X scaler_X_dir;;
  let scaler_y_dir := os_path_join save_path "scaler_y.pkl" in
  open_w scaler_y_dir;;
  scaler_y ← lift (attr self "scaler_y");
  pickle_dump scaler_y scaler_y_dir.

(** [DataSet.load_dataset_config]. *)
Definition load_dataset_config (fs : FS) (load_path : string) : M Obj unit :=
  let config_file_dir := os_path_join load_path "dataset_config.json" in
  config_dict ← lift (json_load fs config_file_dir);
  v ← lift (py_getitem config_dict (PStr "features_input_encoder"));
  setattr "features_input_encoder" v;;
  v ← lift (py_getitem config_dict (PStr "features_input_decoder"));
  setattr "features_input_decoder" v;;
  v ← lift (py_getitem config_dict (PStr "feature_target"));
  setattr "feature_target" v;;
  v ← lift (py_getitem config_dict (PStr "temporal_encoding"));
  setattr "temporal_encodings" v;;
  v ← lift (py_getitem config_dict (PStr "autoregressive"));
  setattr "autoregressive" v;;
  v ← lift (py_getitem config_dict (PStr "input_seq_len"));
  setattr "input_seq_len" v;;
  v ← lift (py_getitem config_dict (PStr "output_seq_len"));
  setattr "output_seq_len" v;;
  let nan_handler_dir := os_path_join load_path "NaNHandler.pkl" in
  v ← lift (pickle_load fs nan_handler_dir);
  setattr "nan_handler" v;;
  let ohe_dir := os_path_join load_path "OneHotEncoder.pkl" in
  v ← lift (pickle_load fs ohe_dir);
  setattr "one_hot_encoder" v;;
  let scaler_X_dir := os_path_join load_path "scaler_X.pkl" in
  let scaler_y_dir := os_path_join load_path "scaler_y.pkl" in
  v ← lift (pickle_load fs scaler_X_dir);
  setattr "scaler_X" v;;
  v ← lift (pickle_load fs scaler_y_dir);
  setattr "scaler_y" v.

(* ===================================================================== *)
(** * 7. The pandas and numpy operations the class uses *)
(* ===================================================================== *)

Fixpoint frame_column (name : string) (cols : list (string * Column)) : option Column :=
  match cols with
  | [] => None
  | (n, c) :: r => if String.eqb name n then Some c else frame_column name r
  end.

(** [df[col]] for a column label [col]; [df] holds a DataFrame or [None]. *)
Definition frame_getitem (df : PyVal) (col : string) : result Column :=
  match df with
  | PFrame f =>
      match frame_column col (df_columns f) with
      | Some c => Ok c
      | None => raise "KeyError" col
      end
  | _ => raise "TypeError" "object is not subscriptable"
  end.

(** [series.dt]. *)
Definition dt (c : Column) : result (list Timestamp) :=
  match c with
  | ColDatetime ts => Ok ts
  | _ => raise "AttributeError" "Can only use .dt accessor with datetimelike values"
  end.

(** [df[mask].index]: the labels of the rows the boolean mask selects. *)
Fixpoint mask_index (mask : list bool) (index : list Z) : list Z :=
  match mask, index with
  | b :: m, i :: r => if b then i :: mask_index m r else mask_index m r
  | _, _ => []
  end.

Definition frame_index (df : PyVal) : result (list Z) :=
  match df with
  | PFrame f => Ok (df_index f)
  | _ => raise "TypeError" "object is not subscriptable"
  end.

(** [index[-1]]. *)
Definition index_last (idx : list Z) : result Z :=
  match last idx with
  | Some i => Ok i
  | None => raise "IndexError" "index -1 is out of bounds for axis 0 with size 0"
  end.

(** [d < v] for one date of the column [series.dt.date], which holds
    Python objects: a missing value compares false, and a value that is
    not a date is not ordered with a date. *)
Definition date_lt (t : Timestamp) (v : PyVal) : result bool :=
  match v with
  | PDate d => Ok (date_ltb (ts_date t) d)
  | PNone => Ok false
  | _ => raise "TypeError" "'<' not supported between instances of 'datetime.date' and this value"
  end.

(** The comparison with a list or an array, item by item. *)
Fixpoint date_lt_items (ts : list Timestamp) (vs : list PyVal) : result (list bool) :=
  match ts, vs with
  | t :: ts', v :: vs' =>
      b ← date_lt t v;
      bs ← date_lt_items ts' vs';
      Ok (b :: bs)
  | _, _ => Ok []
  end.

(** The item of an array entry and the number of axes it adds: [numpy]
    turns a sequence into a further axis of the array, which keeps one
    item per row only when the sequence has one item. *)
Fixpoint np_item (v : PyVal) : option (nat * PyVal) :=
  match v with
  | PList [x] | PTuple [x] | PArray [x] =>
      match np_item x with
      | Some (k, y) => Some (S k, y)
      | None => None
      end
  | PList _ | PTuple _ | PArray _ => None
  | _ => Some (0%nat, v)
  end.

(** The items of [np.asarray(vs).ravel()] when the array has one item per
    entry of [vs]: every entry adds the same number of axes. *)
Fixpoint np_items (vs : list PyVal) : option (list (nat * PyVal)) :=
  match vs with
  | [] => Some []
  | v :: r =>
      match np_item v, np_items r with
      | Some kx, Some l => Some (kx :: l)
      | _, _ => None
      end
  end.

Definition same_axes (l : list (nat * PyVal)) : bool :=
  match l with
  | [] => true
  | (k, _) :: r => forallb (fun kx => Nat.eqb (fst kx) k) r
  end.

(** [df[df[col].dt.date < split_date].index[-1]].  The comparison
    [series < split_date] of pandas: with a date, row by row; with [None],
    false on every row; with a list or an array, item by item when it has
    one item per row, and a [ValueError] otherwise; with any other value,
    the [TypeError] of the first row, if there is one. *)
Definition date_split_index (df : PyVal) (col : string) (split_date : PyVal) : result Z :=
  c ← frame_getitem df col;
  ts ← dt c;
  mask ← match split_date with
         | PDate d => Ok (map (fun t => date_ltb (ts_date t) d) ts)
         | PNone => Ok (map (fun _ => false) ts)
         | PList vs | PArray vs =>
             match np_items vs with
             | Some items =>
                 if negb (same_axes items)
                 then raise "ValueError" "inhomogeneous shape"
                 else if Nat.eqb (length vs) (length ts)
                 then date_lt_items ts (map snd items)
                 else raise "ValueError" "Lengths must match to compare"
             | None => raise "ValueError" "Arrays were different lengths"
             end
         | _ =>
             match ts with
             | [] => Ok []
             | _ => raise "TypeError" "'<' not supported between instances of 'datetime.date' and this value"
             end
         end;
  idx ← frame_index df;
  index_last (mask_index mask idx).

(** [df[df[col].dt.month.isin(months)].index]. *)
Definition month_index (df : PyVal) (col : string) (months : list Z) : result (list Z) :=
  c ← frame_getitem df col;
  ts ← dt c;
  idx ← frame_index df;
  Ok (mask_index (map (fun t => existsb (Z.eqb (month (ts_date t))) months) ts) idx).

(** [a / b] on integers. *)
Definition py_truediv (a b : Z) : result Q :=
  if b =? 0 then raise "ZeroDivisionError" "division by zero"
  else Ok (inject_Z a / inject_Z b)%Q.

(** [i_split = df[df[col].dt.date < split_date].index[-1]] followed by
    [split_ratio = i_split / df.shape[0]] (lines 132 to 135 and 418 to 421). *)
Definition date_split_ratio (df : PyVal) (col : string) (split_date : PyVal) : result Q :=
  i_split ← date_split_index df col split_date;
  n ← shape0 df;
  py_truediv i_split n.

(** [df.reset_index(drop=True)]. *)
Definition reset_index (df : PyVal) : result PyVal :=
  match df with
  | PFrame f =>
      Ok (PFrame (mkDF (map Z.of_nat (seq 0 (length (df_index f)))) (df_columns f)))
  | _ => raise "AttributeError" "reset_index"
  end.

(** [df.copy()]. *)
Definition py_copy (v : PyVal) : result PyVal :=
  match v with
  | PFrame _ | PList _ | PDict _ | PArray _ => Ok v
  | _ => raise "AttributeError" "copy"
  end.

(** The index arrays of the month filter: [i_months[i_months < n_train]]
    (line 434) and [i_months[i_months >= i_last] - n_train] (line 435). *)
Definition train_indices (i_months : list Z) (n_train : Z) : list Z :=
  filter (fun i => i <? n_train) i_months.

Definition test_indices (i_months : list Z) (i_last n_train : Z) : list Z :=
  map (fun i => i - n_train) (filter (fun i => i_last <=? i) i_months).

(** [arr[idx]] for an integer index array [idx]. *)
Definition take_rows (arr : PyVal) (idx : list Z) : result PyVal :=
  match arr with
  | PArray rows =>
      PArray <$> mapM (fun i =>
                         match seq_index rows i with
                         | Some r => Ok r
                         | None => raise "IndexError" "index is out of bounds for axis 0"
                         end) idx
  | _ => raise "TypeError" "indices must be integers or slices"
  end.

Definition unpack2 (v : PyVal) : result (PyVal * PyVal) :=
  l ← py_unpack 2 v;
  match l with
  | [a; b] => Ok (a, b)
  | _ => raise "ValueError" "unpack"
  end.

Definition unpack4 (v : PyVal) : result (PyVal * PyVal * PyVal * PyVal) :=
  l ← py_unpack 4 v;
  match l with
  | [a; b; c; d] => Ok (a, b, c, d)
  | _ => raise "ValueError" "unpack"
  end.

Definition unpack5 (v : PyVal) : result (PyVal * PyVal * PyVal * PyVal * PyVal) :=
  l ← py_unpack 5 v;
  match l with
  | [a; b; c; d; e] => Ok (a, b, c, d, e)
  | _ => raise "ValueError" "unpack"
  end.

Definition is_none (v : PyVal) : bool :=
  match v with PNone => true | _ => false end.

(* ===================================================================== *)
(** * 8. The collaborators *)
(* ===================================================================== *)

(** The modules [preprocessing], [utils.scaling] and [gen_sequences] are
    not part of the sources: [DataSet] is verified against every
    implementation of them.  An optional argument is [None] when the call
    does not pass it.  A method that may change its receiver or an argument
    in place returns the object after the call. *)
Class Collaborators := {
  (** [preprocessing.add_temporal_encoding(df, time_col, split_ratio,
      feature=, mode=, encoding=)]: returns [(df, encoding)]. *)
  add_temporal_encoding :
    PyVal -> option PyVal -> option PyVal -> option PyVal -> PyVal -> option PyVal
    -> result PyVal;
  (** [NaNHandler(min_rel_non_nan=)]. *)
  NaNHandler : PyVal -> result PyVal;
  (** [handler.fit(df)]: the handler after the call. *)
  NaNHandler_fit : PyVal -> PyVal -> result PyVal;
  (** [handler.transform(df, inplace=)]: the frame [df] after the call. *)
  NaNHandler_transform : PyVal -> PyVal -> option PyVal -> result PyVal;
  (** [OneHotEncoder(min_rel_occurrence=)], [fit] and [transform]. *)
  OneHotEncoder : PyVal -> result PyVal;
  OneHotEncoder_fit : PyVal -> PyVal -> result PyVal;
  OneHotEncoder_transform : PyVal -> PyVal -> option PyVal -> result PyVal;
  (** [utils.scaling.scale_input_data(df, enc, dec, target, train_ratio=,
      scaler=)]: returns [(df, scaler)]. *)
  scale_input_data :
    PyVal -> PyVal -> PyVal -> PyVal -> option PyVal -> option PyVal -> result PyVal;
  (** [utils.scaling.scale_target_data(df, features, train_ratio=,
      scaler=)]: returns [(df, scaler)]. *)
  scale_target_data :
    PyVal -> PyVal -> option PyVal -> option PyVal -> result PyVal;
  (** [gen_sequences.extract_sequences_encoder_decoder(df, enc, dec, target,
      input_seq_len, output_seq_len, downsampling_ratio_encoder=,
      downsampling_ratio_decoder=)]: returns a tuple of arrays. *)
  extract_sequences_encoder_decoder :
    PyVal -> PyVal -> PyVal -> PyVal -> PyVal -> PyVal -> PyVal -> PyVal -> result PyVal;
  (** [gen_sequences.train_test_split(X, y, split_ratio)]: returns
      [(X_train, y_train, X_test, y_test)]. *)
  gen_train_test_split : PyVal -> PyVal -> PyVal -> result PyVal
}.

Section DataSet_methods.
Context {C : Collaborators}.

(** [obj.fit(df)], dispatched on the class of [obj]. *)
Definition call_fit (obj df : PyVal) : result PyVal :=
  match obj with
  | PInst cls _ =>
      if String.eqb cls "NaNHandler" then NaNHandler_fit obj df
      else if String.eqb cls "OneHotEncoder" then OneHotEncoder_fit obj df
      else raise "AttributeError" "fit"
  | _ => raise "AttributeError" "fit"
  end.

(** [obj.transform(df, inplace=)], dispatched on the class of [obj]. *)
Definition call_transform (obj df : PyVal) (inplace : option PyVal) : result PyVal :=
  match obj with
  | PInst cls _ =>
      if String.eqb cls "NaNHandler" then NaNHandler_transform obj df inplace
      else if String.eqb cls "OneHotEncoder" then OneHotEncoder_transform obj df inplace
      else raise "AttributeError" "transform"
  | _ => raise "AttributeError" "transform"
  end.

Definition py_strs (l : list string) : PyVal := PList (map PStr l).

(** The loop [for temp_enc in temporal_encoding_modes] of [process]; the
    local lists [features_input_encoder] and [features_input_decoder] are
    rebound at each turn.  ([print(temp_enc)] writes to the standard
    output only.) *)
Fixpoint process_temporal (modes : list string) (split_ratio : PyVal)
    (feature_target : string) (features_input_encoder features_input_decoder : list string)
  : M Obj (list string * list string) :=
  match modes with
  | [] => mret (features_input_encoder, features_input_decoder)
  | temp_enc :: rest =>
      df ← getattr "df_processed";
      time_col ← getattr "time_col";
      r ← lift (add_temporal_encoding df (Some time_col) (Some split_ratio)
                  (Some (PStr feature_target)) (PStr temp_enc) None);
      '(df', temporal_encoding) ← lift (unpack2 r);
      setattr "df_processed" df';;
      let features_input_encoder :=
        features_input_encoder ++ ["temporal_encoding_" +:+ temp_enc] in
      let features_input_decoder :=
        features_input_decoder ++ ["temporal_encoding_" +:+ temp_enc] in
      encodings ← getattr "temporal_encodings";
      append ← lift (py_append encodings);
      setattr "temporal_encodings" (append (PTuple [PStr temp_enc; temporal_encoding]));;
      process_temporal rest split_ratio feature_target
        features_input_encoder features_input_decoder
  end.

(** Lines 185 and 197 to 207 of [process]: the five arrays of the
    extractor are unpacked and stored. *)
Definition process_store (r : PyVal) : M Obj unit :=
  '(X_encoder, X_decoder, y, y_shifted, y_last) ← lift (unpack5 r);
  setattr "X" (PList [X_encoder; X_decoder; y_last; y_shifted]);;
  setattr "X_encoder" X_encoder;;
  setattr "X_decoder" X_decoder;;
  setattr "y_last" y_last;;
  setattr "y_shifted" y_shifted;;
  setattr "X" (PList [X_encoder; X_decoder; y_shifted; y_last]);;
  setattr "y" y.

(** Lines 120 to 128 of [process]: the arguments are stored. *)
Definition process_init
    (time_col : string)
    (features_input_encoder features_input_decoder : list string)
    (feature_target : string)
    (input_seq_len output_seq_len : Z)
    (min_rel_occurrence : PyVal)
    (autoregressiive : bool) : M Obj unit :=
  setattr "time_col" (PStr time_col);;
  df_raw ← getattr "df_raw";
  df ← lift (py_copy df_raw);
  setattr "df_processed" df;;
  setattr "autoregressive" (PBool autoregressiive);;
  setattr "features_input_encoder" (py_strs features_input_encoder);;
  setattr "features_input_decoder" (py_strs features_input_decoder);;
  setattr "feature_target" (PStr feature_target);;
  setattr "input_seq_len" (PInt input_seq_len);;
  setattr "output_seq_len" (PInt output_seq_len);;
  setattr "min_rel_occurrence" min_rel_occurrence.

(** Lines 130 to 135 of [process]: compute split ratio if from
    split_date. *)
Definition process_split_ratio (split_ratio split_date : PyVal) : M Obj PyVal :=
  if is_none split_date then mret split_ratio
  else
    df ← getattr "df_processed";
    q ← lift (date_split_ratio df "date / time" split_date);
    mret (PFloat q).

(** Lines 137 to 195 of [process]: from the temporal encodings to the call
    of the extractor, whose result is returned. *)
Definition process_transform
    (features_input_encoder features_input_decoder : list string)
    (feature_target : string)
    (input_seq_len output_seq_len : Z)
    (split_ratio : PyVal)
    (temporal_encoding_modes : option (list string))
    (min_rel_occurrence min_rel_non_nan : PyVal) : M Obj PyVal :=
  (* Add temporal encoding *)
  let temporal_encoding_modes := default [] temporal_encoding_modes in
  '(features_input_encoder, features_input_decoder) ←
    process_temporal temporal_encoding_modes split_ratio feature_target
      features_input_encoder features_input_decoder;
  (* NaN handling *)
  h ← lift (NaNHandler min_rel_non_nan);
  setattr "nan_handler" h;;
  h ← getattr "nan_handler";
  df ← getattr "df_processed";
  h' ← lift (call_fit h df);
  setattr "nan_handler" h';;
  h ← getattr "nan_handler";
  df ← getattr "df_processed";
  df' ← lift (call_transform h df (Some (PBool true)));
  setattr "df_processed" df';;
  (* One-hot-encoding *)
  e ← lift (OneHotEncoder min_rel_occurrence);
  setattr "one_hot_encoder" e;;
  e ← getattr "one_hot_encoder";
  df ← getattr "df_processed";
  e' ← lift (call_fit e df);
  setattr "one_hot_encoder" e';;
  e ← getattr "one_hot_encoder";
  df ← getattr "df_processed";
  df' ← lift (call_transform e df (Some (PBool true)));
  setattr "df_processed" df';;
  (* scale X-features *)
  df ← getattr "df_processed";
  r ← lift (scale_input_data df (py_strs features_input_encoder)
              (py_strs features_input_decoder) (PStr feature_target)
              (Some split_ratio) None);
  '(df', scaler_X) ← lift (unpack2 r);
  setattr "df_processed" df';;
  setattr "scaler_X" scaler_X;;
  (* scale target *)
  df ← getattr "df_processed";
  r ← lift (scale_target_data df (py_strs [feature_target]) (Some split_ratio) None);
  '(df', scaler_y) ← lift (unpack2 r);
  setattr "df_processed" df';;
  setattr "scaler_y" scaler_y;;
  (* Reset index *)
  df ← getattr "df_processed";
  df' ← lift (reset_index df);
  setattr "df_processed" df';;
  (* Create sequences *)
  df ← getattr "df_processed";
  lift (extract_sequences_encoder_decoder df
          (py_strs features_input_encoder) (py_strs features_input_decoder)
          (PStr feature_target) (PInt input_seq_len) (PInt output_seq_len)
          (PInt 1) (PInt 1)).

(** Lines 120 to 195 of [process]. *)
Definition process_steps
    (time_col : string)
    (features_input_encoder features_input_decoder : list string)
    (feature_target : string)
    (input_seq_len output_seq_len : Z)
    (split_ratio split_date : PyVal)
    (temporal_encoding_modes : option (list string))
    (min_rel_occurrence min_rel_non_nan : PyVal)
    (autoregressiive : bool) : M Obj PyVal :=
  process_init time_col features_input_encoder features_input_decoder feature_target
    input_seq_len output_seq_len min_rel_occurrence autoregressiive;;
  split_ratio ← process_split_ratio split_ratio split_date;
  process_transform features_input_encoder features_input_decoder feature_target
    input_seq_len output_seq_len split_ratio temporal_encoding_modes
    min_rel_occurrence min_rel_non_nan.

(** [DataSet.process]. *)
Definition process
    (time_col : string)
    (features_input_encoder features_input_decoder : list string)
    (feature_target : string)
    (input_seq_len output_seq_len : Z)
    (split_ratio split_date : PyVal)
    (temporal_encoding_modes : option (list string))
    (min_rel_occurrence min_rel_non_nan : PyVal)
    (autoregressiive : bool) : M Obj unit :=
  if is_none split_ratio && is_none split_date
  then lift (raise "AssertionError" "split_ratio or split_date must be not None ")
  else
    r ← process_steps time_col features_input_encoder features_input_decoder
          feature_target input_seq_len output_seq_len split_ratio split_date
          temporal_encoding_modes min_rel_occurrence min_rel_non_nan autoregressiive;
    process_store r.

(** One turn of the loop [for temp_enc in self.temporal_encodings] of
    [process_from_config]. *)
Definition replay_temporal (temp_enc : PyVal) : M Obj unit :=
  df ← getattr "df_processed";
  mode ← lift (py_getitem temp_enc (PInt 0));
  encoding ← lift (py_getitem temp_enc (PInt 1));
  r ← lift (add_temporal_encoding df None None None mode (Some encoding));
  '(df', _) ← lift (unpack2 r);
  setattr "df_processed" df';;
  features ← getattr "features_input_encoder";
  append ← lift (py_append features);
  mode ← lift (py_getitem temp_enc (PInt 0));
  name ← lift (py_str_add "temporal_encoding_" mode);
  setattr "features_input_encoder" (append name);;
  features ← getattr "features_input_decoder";
  append ← lift (py_append features);
  mode ← lift (py_getitem temp_enc (PInt 0));
  name ← lift (py_str_add "temporal_encoding_" mode);
  setattr "features_input_decoder" (append name).

Fixpoint for_each {A} (body : A -> M Obj unit) (items : list A) : M Obj unit :=
  match items with
  | [] => mret tt
  | x :: rest => body x;; for_each body rest
  end.

(** Lines 278 and 289 to 294 of [process_from_config]: the four arrays of
    the extractor are unpacked and stored. *)
Definition replay_store (r : PyVal) : M Obj unit :=
  '(X_encoder, X_decoder, y, y_last) ← lift (unpack4 r);
  autoregressive ← getattr "autoregressive";
  b ← lift (py_truth autoregressive);
  (if b : bool
   then setattr "X" (PList [X_encoder; X_decoder; y_last])
   else setattr "X" (PList [X_encoder; X_decoder]));;
  setattr "y" y.

(** Lines 253 to 287 of [process_from_config]: from the NaN handling to
    the call of the extractor, whose result is returned. *)
Definition replay_scale_extract : M Obj PyVal :=
  (* NaN handling *)
  h ← getattr "nan_handler";
  df ← getattr "df_processed";
  df' ← lift (call_transform h df None);
  setattr "df_processed" df';;
  (* one-hot-encoding *)
  e ← getattr "one_hot_encoder";
  df ← getattr "df_processed";
  df' ← lift (call_transform e df None);
  setattr "df_processed" df';;
  (* scale X-features *)
  df ← getattr "df_processed";
  fe ← getattr "features_input_encoder";
  fd ← getattr "features_input_decoder";
  target ← getattr "feature_target";
  scaler_X ← getattr "scaler_X";
  r ← lift (scale_input_data df fe fd target None (Some scaler_X));
  '(df', _) ← lift (unpack2 r);
  setattr "df_processed" df';;
  (* scale target *)
  df ← getattr "df_processed";
  target ← getattr "feature_target";
  scaler_y ← getattr "scaler_y";
  r ← lift (scale_target_data df (PList [target]) None (Some scaler_y));
  '(df', _) ← lift (unpack2 r);
  setattr "df_processed" df';;
  (* Reset index *)
  df ← getattr "df_processed";
  df' ← lift (reset_index df);
  setattr "df_processed" df';;
  df ← getattr "df_processed";
  fe ← getattr "features_input_encoder";
  fd ← getattr "features_input_decoder";
  target ← getattr "feature_target";
  input_seq_len ← getattr "input_seq_len";
  output_seq_len ← getattr "output_seq_len";
  lift (extract_sequences_encoder_decoder df fe fd target
          input_seq_len output_seq_len (PInt 1) (PInt 1)).

(** The transform steps of [process_from_config], after the configuration
    is loaded (lines 242 to 294). *)
Definition replay_transforms : M Obj unit :=
  (* Add temporal encoding *)
  encodings ← getattr "temporal_encodings";
  items ← lift (py_iter encodings);
  for_each replay_temporal items;;
  r ← replay_scale_extract;
  replay_store r.

(** [DataSet.process_from_config]. *)
Definition process_from_config (fs : FS) (config_path : string)
    (input_seq_len output_seq_len : PyVal) : M Obj unit :=
  (if is_none input_seq_len then mret tt
   else setattr "input_seq_len" input_seq_len);;
  (if is_none output_seq_len then mret tt
   else setattr "output_seq_len" output_seq_len);;
  (* Load config *)
  load_dataset_config fs config_path;;
  replay_transforms.

(** [DataSet.train_test_split]. *)
Definition train_test_split (self : Obj) (split_ratio : PyVal) : result PyVal :=
  X ← attr self "X";
  y ← attr self "y";
  gen_train_test_split X y split_ratio.

(** Lines 427 to 446 of [train_test_split_date]: the month filter applied
    to the four parts of the ratio split. *)
Definition month_filter (df : PyVal) (date_col : string) (considered_months : list Z)
    (X_train y_train X_test y_test : PyVal) : result PyVal :=
  i_months ← month_index df date_col considered_months;
  (* remove indexes that are too large *)
  x ← py_getitem X_train (PInt 0);
  n_train ← shape0 x;
  x ← py_getitem X_test (PInt 0);
  n_test ← shape0 x;
  let i_months := filter (fun i => i <? n_train + n_test) i_months in
  x ← py_getitem X_train (PInt 0);
  n_train ← shape0 x;
  let i_train := train_indices i_months n_train in
  i_last ← index_last i_train;
  x ← py_getitem X_train (PInt 0);
  n_train ← shape0 x;
  let i_test := test_indices i_months i_last n_train in
  y_train_months ← take_rows y_train i_train;
  y_test_months ← take_rows y_test i_test;
  xs ← py_iter X_train;
  X_train_months ← mapM (fun x => take_rows x i_train) xs;
  xs ← py_iter X_test;
  X_test_months ← mapM (fun x => take_rows x i_test) xs;
  Ok (PTuple [PList X_train_months; y_train_months; PList X_test_months; y_test_months]).

(** [DataSet.train_test_split_date]. *)
Definition train_test_split_date (self : Obj) (date_col : string)
    (split_date : PyVal) (considered_months : option (list Z)) : result PyVal :=
  let considered_months :=
    default (map Z.of_nat (seq 1 12)) considered_months in
  df ← attr self "df_processed";
  split_ratio ← date_split_ratio df date_col split_date;
  X ← attr self "X";
  y ← attr self "y";
  r ← gen_train_test_split X y (PFloat split_ratio);
  '(X_train, y_train, X_test, y_test) ← unpack4 r;
  df ← attr self "df_processed";
  month_filter df date_col considered_months X_train y_train X_test y_test.

End DataSet_methods.

(* ===================================================================== *)
(** * 9. Notions used in the statements *)
(* ===================================================================== *)

Fixpoint key_mem (k : PyKey) (kvs : list (PyKey * PyVal)) : bool :=
  match kvs with
  | [] => false
  | (k', _) :: r => PyKey_eqb k k' || key_mem k r
  end.

Fixpoint keys_distinct (kvs : list (PyKey * PyVal)) : bool :=
  match kvs with
  | [] => true
  | (k, _) :: r => negb (key_mem k r) && keys_distinct r
  end.

(** An item of a JSON object as an item of a dictionary. *)
Definition tag_key (kv : string * PyVal) : PyKey * PyVal := (KStr (fst kv), snd kv).

(** The values JSON represents as they are: [None], booleans, numbers,
    strings, lists of such values and dictionaries of such values under
    distinct string keys. *)
Fixpoint json_native (v : PyVal) : bool :=
  match v with
  | PNone | PBool _ | PInt _ | PFloat _ | PStr _ => true
  | PList l => forallb json_native l
  | PDict kvs =>
      forallb (fun kv => match fst kv with
                         | KStr _ => json_native (snd kv)
                         | KInt _ => false
                         end) kvs
      && keys_distinct kvs
  | PTuple _ | PDate _ | PFrame _ | PArray _ | PInst _ _ => false
  end.

(** A [(mode, encoding)] pair as [process] appends it (a tuple) or as
    [load_dataset_config] reads it back (a list of two items). *)
Definition encoding_pair (p : PyVal) : bool :=
  match p with
  | PTuple [mode; encoding] | PList [mode; encoding] =>
      json_native mode && json_native encoding
  | _ => false
  end.

Definition encoding_pairs (v : PyVal) : bool :=
  match v with
  | PList l => forallb encoding_pair l
  | _ => false
  end.

(** The same pairs, each as a list of two items. *)
Definition pair_as_list (p : PyVal) : PyVal :=
  match p with
  | PTuple xs => PList xs
  | _ => p
  end.

Definition pairs_as_lists (v : PyVal) : PyVal :=
  match v with
  | PList l => PList (map pair_as_list l)
  | _ => v
  end.

Definition attr_is (P : PyVal -> bool) (self : Obj) (name : string) : bool :=
  match self !! name with
  | Some v => P v
  | None => false
  end.

(** A fitted configuration: the feature lists, the target, the flag and
    the window lengths are JSON values, the temporal encodings are pairs
    of JSON values, and the four transformers are set. *)
Definition fitted_config (self : Obj) : bool :=
  attr_is json_native self "features_input_encoder"
  && attr_is json_native self "features_input_decoder"
  && attr_is json_native self "feature_target"
  && attr_is encoding_pairs self "temporal_encodings"
  && attr_is json_native self "autoregressive"
  && attr_is json_native self "input_seq_len"
  && attr_is json_native self "output_seq_len"
  && attr_is (fun _ => true) self "nan_handler"
  && attr_is (fun _ => true) self "one_hot_encoder"
  && attr_is (fun _ => true) self "scaler_X"
  && attr_is (fun _ => true) self "scaler_y".

(** The attributes [save_dataset_config] persists, the temporal encodings
    apart. *)
Definition config_attrs : list string :=
  [ "features_input_encoder"; "features_input_decoder"; "feature_target";
    "autoregressive"; "input_seq_len"; "output_seq_len";
    "nan_handler"; "one_hot_encoder"; "scaler_X"; "scaler_y" ].

(** The five files of a saved configuration. *)
Definition config_files (path : string) : list string :=
  map (os_path_join path)
      [ "dataset_config.json"; "NaNHandler.pkl"; "OneHotEncoder.pkl";
        "scaler_X.pkl"; "scaler_y.pkl" ].

(** The object after the seven assignments from the metadata document. *)
Definition with_metadata (fe fd ft te ar il ol : PyVal) (self : Obj) : Obj :=
  <["output_seq_len" := ol]>
  (<["input_seq_len" := il]>
  (<["autoregressive" := ar]>
  (<["temporal_encodings" := te]>
  (<["feature_target" := ft]>
  (<["features_input_decoder" := fd]>
  (<["features_input_encoder" := fe]> self)))))).

(** The object after the four assignments of the transformers. *)
Definition with_transformers (nh oh sx sy : PyVal) (self : Obj) : Obj :=
  <["scaler_y" := sy]>
  (<["scaler_X" := sx]>
  (<["one_hot_encoder" := oh]>
  (<["nan_handler" := nh]> self))).

(** What a successful dump leaves on the file system. *)
Definition dumped (f : File) (p : string) (fs fs' : FS) : Prop :=
  fs_writable fs' = fs_writable fs
  /\ fs_files fs' !! p = Some f
  /\ forall q, q <> p -> fs_files fs' !! q = fs_files fs !! q.

(** Two objects that differ at most at the attribute [name]. *)
Definition eq_except (name : string) (s1 s2 : Obj) : Prop :=
  forall n, n <> name -> s1 !! n = s2 !! n.

(** Two methods that do the same on objects that differ at most at the
    attribute [name]. *)
Definition related {A} (name : string) (m1 m2 : M Obj A) : Prop :=
  forall s1 s2, eq_except name s1 s2 ->
    fst (m1 s1) = fst (m2 s2) /\ eq_except name (snd (m1 s1)) (snd (m2 s2)).

(** A method that neither reads nor depends on the attribute [name]. *)
Definition ignores {A} (name : string) (m : M Obj A) : Prop := related name m m.

(** Two outcomes of a method agree up to the attribute [name]: the same
    value or exception, and final states that differ at most at [name]. *)
Definition agree_up_to {A} (name : string) (o1 o2 : result A * Obj) : Prop :=
  fst o1 = fst o2 /\ forall n, n <> name -> snd o1 !! n = snd o2 !! n.

(** [i] is the label of the last row dated strictly before [d]. *)
Definition last_preceding (idx : list Z) (ts : list Timestamp) (d : date) (i : Z) : Prop :=
  exists (k : nat) (t : Timestamp),
    idx !! k = Some i /\ ts !! k = Some t /\ date_ltb (ts_date t) d = true
    /\ forall (k' : nat) (t' : Timestamp),
         (k < k')%nat -> ts !! k' = Some t' -> date_ltb (ts_date t') d = false.

(** [len(v)] of a list. *)
Definition py_len (v : PyVal) : option nat :=
  match v with
  | PList l | PTuple l | PArray l => Some (length l)
  | _ => None
  end.

(* ===================================================================== *)
(** * 10. Stand-ins for the collaborators *)
(* ===================================================================== *)

(** [round(q)]: to the nearest integer, a tie to the even one. *)
Definition py_round (q : Q) : Z :=
  let f := Qfloor q in
  match Qcompare (q - inject_Z f)%Q (1 # 2)%Q with
  | Lt => f
  | Gt => f + 1
  | Eq => if Z.even f then f else f + 1
  end.

Definition split_rows (k : nat) (arr : PyVal) : result (PyVal * PyVal) :=
  match arr with
  | PArray rows => Ok (PArray (take k rows), PArray (drop k rows))
  | _ => raise "TypeError" "object is not subscriptable"
  end.

(** Modelled from the spec: [gen_sequences.train_test_split] is not part of
    the sources.  Section 4.2: the first [round(split_ratio * window_count)]
    windows go to train, the remainder to test, in order. *)
Definition spec_train_test_split (X y split_ratio : PyVal) : result PyVal :=
  match split_ratio with
  | PFloat q =>
      xs ← py_iter X;
      x0 ← py_getitem X (PInt 0);
      n ← shape0 x0;
      let k := Z.to_nat (py_round (q * inject_Z n)%Q) in
      parts ← mapM (split_rows k) xs;
      '(y_train, y_test) ← split_rows k y;
      Ok (PTuple [PList (map fst parts); y_train; PList (map snd parts); y_test])
  | _ => raise "TypeError" "unsupported operand"
  end.

(** The windows of a table of [n] rows: one per start row [t] with
    [t + Li + Lo <= n]; [f t] stands for the window that starts at [t]. *)
Definition windows (n Li Lo : Z) (f : Z -> Z) : PyVal :=
  PArray (map (fun t => PInt (f (Z.of_nat t))) (seq 0 (Z.to_nat (n - Li - Lo + 1)))).

(** Modelled from the spec:
    [gen_sequences.extract_sequences_encoder_decoder] is not part of the
    sources.  Section 4.1: [table_length - Li - Lo + 1] windows, or an
    [InsufficientDataError] when that is not positive; a window is
    represented here by the row it refers to first (the encoder window by
    [t], the decoder and target windows by [t + Li], [y_last] and
    [y_shifted] by [t + Li - 1]).  The arrays come in the order in which
    [process] unpacks them. *)
Definition spec_extract (df enc dec target input_seq_len output_seq_len r1 r2 : PyVal)
  : result PyVal :=
  match input_seq_len, output_seq_len with
  | PInt Li, PInt Lo =>
      n ← shape0 df;
      if n - Li - Lo + 1 <=? 0 then raise "InsufficientDataError" "table too short"
      else Ok (PTuple [ windows n Li Lo (fun t => t);
                        windows n Li Lo (fun t => t + Li);
                        windows n Li Lo (fun t => t + Li);
                        windows n Li Lo (fun t => t + Li - 1);
                        windows n Li Lo (fun t => t + Li - 1) ])
  | _, _ => raise "TypeError" "unsupported operand"
  end.

(** Modelled from the spec: the same absent extractor, returning the four
    arrays that [process_from_config] unpacks (section 9: it drops the
    [y_shifted] output): the windows of [spec_extract] without
    [y_shifted]. *)
Definition replay_extract (df enc dec target input_seq_len output_seq_len r1 r2 : PyVal)
  : result PyVal :=
  match input_seq_len, output_seq_len with
  | PInt Li, PInt Lo =>
      n ← shape0 df;
      if n - Li - Lo + 1 <=? 0 then raise "InsufficientDataError" "table too short"
      else Ok (PTuple [ windows n Li Lo (fun t => t);
                        windows n Li Lo (fun t => t + Li);
                        windows n Li Lo (fun t => t + Li);
                        windows n Li Lo (fun t => t + Li - 1) ])
  | _, _ => raise "TypeError" "unsupported operand"
  end.

(** Modelled from the spec: [preprocessing] and [utils.scaling] are not
    part of the sources.  Sections 2 and 6 treat the imputer, the
    categorical encoder, the scalers and the temporal encoding as black
    boxes that are fitted once and then transform a table; the stand-ins
    here leave the table as it is (their statistics are outside of what is
    verified) and are used to run the methods on concrete inputs only. *)
Definition plain_collaborators
    (extract : PyVal -> PyVal -> PyVal -> PyVal -> PyVal -> PyVal -> PyVal -> PyVal
               -> result PyVal) : Collaborators := {|
  add_temporal_encoding := fun df _ _ _ mode encoding =>
    Ok (PTuple [df; default (PDict []) encoding]);
  NaNHandler := fun m => Ok (PInst "NaNHandler" m);
  NaNHandler_fit := fun h _ => Ok h;
  NaNHandler_transform := fun _ df _ => Ok df;
  OneHotEncoder := fun m => Ok (PInst "OneHotEncoder" m);
  OneHotEncoder_fit := fun h _ => Ok h;
  OneHotEncoder_transform := fun _ df _ => Ok df;
  scale_input_data := fun df _ _ _ _ scaler =>
    Ok (PTuple [df; default (PInst "StandardScaler" PNone) scaler]);
  scale_target_data := fun df _ _ scaler =>
    Ok (PTuple [df; default (PInst "StandardScaler" PNone) scaler]);
  extract_sequences_encoder_decoder := extract;
  gen_train_test_split := spec_train_test_split
|}.

Definition spec_collaborators : Collaborators := plain_collaborators spec_extract.
Definition replay_collaborators : Collaborators := plain_collaborators replay_extract.

(* ===================================================================== *)
(** * 11. Concrete tables, objects and file systems *)
(* ===================================================================== *)

Definition midnight (y m d : Z) : Timestamp := mkTs (mkDate y m d) 0.

Definition days_of (y m : Z) (first count : nat) : list Timestamp :=
  map (fun d => midnight y m (Z.of_nat d)) (seq first count).

Definition range (n : nat) : list Z := map Z.of_nat (seq 0 n).

(** One row per day from 2020-01-01 to 2020-04-09: 100 rows, labelled
    0 to 99; row 49 is 2020-02-19 and row 50 is 2020-02-20. *)
Definition table100 : DataFrame :=
  mkDF (range 100)
       [ ("date / time",
          ColDatetime (days_of 2020 1 1 31 ++ days_of 2020 2 1 29
                       ++ days_of 2020 3 1 31 ++ days_of 2020 4 1 9));
         ("load", ColFloat (map (fun i => inject_Z i) (range 100))) ].

(** One row per day from 2020-01-30 to 2020-02-08: 10 rows, labelled 0 to
    9; rows 0 and 1 are in January. *)
Definition dates10 : list Timestamp := days_of 2020 1 30 2 ++ days_of 2020 2 1 8.

Definition table10 : DataFrame :=
  mkDF (range 10)
       [ ("date / time", ColDatetime dates10);
         ("load", ColFloat (map (fun i => inject_Z i) (range 10))) ].

(** The same rows with the timestamps in a column named [timestamp]. *)
Definition table10_timestamp : DataFrame :=
  mkDF (range 10)
       [ ("timestamp", ColDatetime dates10);
         ("load", ColFloat (map (fun i => inject_Z i) (range 10))) ].

(** [ds = DataSet(table10); ds.process("date / time", ["load"], ["load"],
    "load", 3, 2, split_date=date(2020, 2, 3),
    temporal_encoding_modes=["hours"])]: six windows. *)
Definition ds10 : Obj :=
  snd (process (C := spec_collaborators) "date / time" ["load"] ["load"] "load" 3 2
         PNone (PDate (mkDate 2020 2 3)) (Some ["hours"]) PNone PNone true
         (DataSet (PFrame table10))).

(** An empty directory [cfg]. *)
Definition fs_empty : FS :=
  mkFS ∅ (fun p => String.prefix "cfg/" p).

(** [ds10.save_dataset_config("cfg")]. *)
Definition fs_saved : FS := snd (save_dataset_config ds10 "cfg" fs_empty).

(** The saved configuration without its [NaNHandler.pkl]. *)
Definition fs_without_nan_handler : FS :=
  mkFS (delete "cfg/NaNHandler.pkl" (fs_files fs_saved)) (fs_writable fs_saved).

(** A new [DataSet] on [table10] whose [df_processed] is the raw table. *)
Definition ds_new : Obj :=
  <["df_processed" := PFrame table10]> (DataSet (PFrame table10)).

(* ===================================================================== *)
(** * 11a. The remaining methods *)
(* ===================================================================== *)

Section Load_data.
(** [pd.read_excel(path)]: the table read, or the exception of the read. *)
Variable read_excel : string -> result PyVal.


End Load_data.

(** A column of the frame that [create_dataframe_with_predictions] builds:
    a column taken from the processed table, a list assigned to the frame,
    or a column in which every value is missing. *)
Inductive OutColumn :=
| OutSeries (c : Column)
| OutValues (l : list PyVal)
| OutMissing.

Record OutFrame := mkOut {
  out_index : list Z;
  out_columns : list (string * OutColumn)
}.

Fixpoint out_column (name : string) (cols : list (string * OutColumn)) : option OutColumn :=
  match cols with
  | [] => None
  | (n, c) :: r => if String.eqb name n then Some c else out_column name r
  end.

(** A column that exists is replaced where it is, a new one goes last. *)
Fixpoint out_set (name : string) (c : OutColumn) (cols : list (string * OutColumn))
  : list (string * OutColumn) :=
  match cols with
  | [] => [(name, c)]
  | (n, c') :: r => if String.eqb name n then (n, c) :: r else (n, c') :: out_set name c r
  end.

Definition length_mismatch (values index : nat) : string :=
  "Length of values (" +:+ NilZero.string_of_uint (Nat.to_uint values)
  +:+ ") does not match length of index ("
  +:+ NilZero.string_of_uint (Nat.to_uint index) +:+ ")".

(** [df[name] = values] for a list [values]: its length must be that of
    the index.  A frame without rows takes the index [0 .. len(values) - 1]
    of a list that is not empty, and the columns it had are filled with
    missing values. *)
Definition out_assign (df : OutFrame) (name : string) (values : list PyVal)
  : result OutFrame :=
  match out_index df, values with
  | [], _ :: _ =>
      Ok (mkOut (range (length values))
            (out_set name (OutValues values)
               (map (fun nc => (fst nc, OutMissing)) (out_columns df))))
  | index, _ =>
      if Nat.eqb (length values) (length index)
      then Ok (mkOut index (out_set name (OutValues values) (out_columns df)))
      else raise "ValueError" (length_mismatch (length values) (length index))
  end.

(** [df[key]] for a key held in an attribute. *)
Definition frame_getitem_key (df key : PyVal) : result Column :=
  match key with
  | PStr s => frame_getitem df s
  | _ =>
      match df with
      | PFrame _ => raise "KeyError" "key"
      | _ => raise "TypeError" "object is not subscriptable"
      end
  end.

(** [arr.tolist()]. *)
Definition py_tolist (v : PyVal) : result (list PyVal) :=
  match v with
  | PArray rows => Ok rows
  | _ => raise "AttributeError" "tolist"
  end.

(** [v - 1]. *)
Definition py_sub1 (v : PyVal) : result PyVal :=
  match v with
  | PInt z => Ok (PInt (z - 1))
  | PBool b => Ok (PInt ((if b then 1 else 0) - 1))
  | PFloat q => Ok (PFloat (q - 1))
  | _ => raise "TypeError" "unsupported operand type(s) for -"
  end.

(** [[[]] * n]: [n] empty lists, none when [n] is negative. *)
Definition empty_lists (n : PyVal) : result (list PyVal) :=
  match n with
  | PInt z => Ok (repeat (PList []) (Z.to_nat z))
  | PBool b => Ok (repeat (PList []) (if b then 1 else 0))
  | _ => raise "TypeError" "can't multiply sequence by non-int"
  end.

Section Predictions.
(** [scaler.inverse_transform(series.values.reshape(-1, 1)).reshape(-1)
    .tolist()] of scikit-learn, on a column. *)
Variable inverse_transform : PyVal -> Column -> result (list PyVal).

(** [DataSet.create_dataframe_with_predictions]. *)
Definition create_dataframe_with_predictions
    (self : Obj) (predictions : PyVal) (date_time_column : string) : result OutFrame :=
  df_processed ← attr self "df_processed";
  feature_target ← attr self "feature_target";
  truth_scaled ← frame_getitem_key df_processed feature_target;
  df_processed ← attr self "df_processed";
  c ← frame_getitem df_processed date_time_column;
  index ← frame_index df_processed;
  let df := mkOut index [(date_time_column, OutSeries c)] in
  (* inverse scale *)
  scaler_y ← attr self "scaler_y";
  truth ← inverse_transform scaler_y truth_scaled;
  df ← out_assign df "target" truth;
  predictions_list ← py_tolist predictions;
  input_seq_len ← attr self "input_seq_len";
  n ← py_sub1 input_seq_len;
  empty_front ← empty_lists n;
  output_seq_len ← attr self "output_seq_len";
  empty_end ← empty_lists output_seq_len;
  let predictions_list := empty_front ++ predictions_list ++ empty_end in
  out_assign df "predictions" predictions_list.

End Predictions.

(* ===================================================================== *)
(** * 11b. Further notions used in the statements *)
(* ===================================================================== *)

(** A method that leaves the attribute [name] as it is, whatever its
    outcome. *)
Definition preserves {A} (name : string) (m : M Obj A) : Prop :=
  forall s, snd (m s) !! name = s !! name.

(** A file operation that writes to the paths [paths] only, whatever its
    outcome. *)
Definition writes_only {A} (paths : list string) (m : M FS A) : Prop :=
  forall fs,
    fs_writable (snd (m fs)) = fs_writable fs
    /\ forall q, ~ In q paths -> fs_files (snd (m fs)) !! q = fs_files fs !! q.

(** The eleven attributes that [load_dataset_config] assigns. *)
Definition loaded_attrs : list string :=
  "temporal_encodings" :: config_attrs.

(** The names [process] adds to its local feature lists, one per mode:
    ["temporal_encoding_" + temp_enc]. *)
Definition temporal_names (modes : option (list string)) : list string :=
  map (fun temp_enc => "temporal_encoding_" +:+ temp_enc) (default [] modes).

(** The name [process_from_config] appends to the feature lists for a
    pair: ["temporal_encoding_" + temp_enc[0]]. *)
Definition temporal_name (temp_enc name : PyVal) : Prop :=
  exists mode, py_getitem temp_enc (PInt 0) = Ok (PStr mode)
               /\ name = PStr ("temporal_encoding_" +:+ mode).

(** The pair [process] appends for a mode: [(temp_enc, temporal_encoding)]. *)
Definition temporal_pair (temp_enc : string) (pair : PyVal) : Prop :=
  exists encoding, pair = PTuple [PStr temp_enc; encoding].

(** A raw table whose labels start at 100. *)
Definition table10_from_100 : DataFrame :=
  mkDF (map (fun i => 100 + i) (range 10)) (df_columns table10).

(** A scaler that leaves a float column as it is. *)
Definition plain_inverse_transform (scaler : PyVal) (c : Column) : result (list PyVal) :=
  match scaler, c with
  | PInst _ _, ColFloat xs => Ok (map PFloat xs)
  | PInst _ _, _ => raise "ValueError" "could not convert to float"
  | _, _ => raise "AttributeError" "inverse_transform"
  end.

(** An object as [process] leaves it on [table10], as far as
    [create_dataframe_with_predictions] reads it: window lengths 3 and 2. *)
Definition ds_scaled : Obj :=
  <["scaler_y" := PInst "StandardScaler" PNone]>
    (<["output_seq_len" := PInt 2]>
       (<["input_seq_len" := PInt 3]>
          (<["feature_target" := PStr "load"]> ds_new))).


(** Predictions for the six windows of [table10]. *)
Definition predictions6 : list PyVal :=
  map (fun i => PList [PInt i; PInt (i + 1)]) (range 6).

(** The rows of an array with the last one also in front: what
    [arr[[-1, 0, 1, ...]]] selects. *)
Definition last_in_front (rows : list PyVal) : list PyVal :=
  match last rows with
  | Some r => r :: rows
  | None => rows
  end.

(** An array of [n] rows [k, k + 1, ...]. *)
Definition rows_from (k : Z) (n : nat) : list PyVal :=
  map (fun i => PInt (k + i)) (range n).

(* ===================================================================== *)
(** * 12. Running the monads *)
(* ===================================================================== *)

Arguments os_path_join : simpl never.
Arguments json_load : simpl never.
Arguments pickle_load : simpl never.
Arguments py_getitem : simpl never.

Lemma bind_run_ok {S A B} (m : M S A) (f : A -> M S B) s a s1 :
  m s = (Ok a, s1) -> (m ≫= f) s = f a s1.
Proof. intros H. unfold mbind, M_bind. rewrite H. reflexivity. Qed.

Lemma bind_run_raise {S A B} (m : M S A) (f : A -> M S B) s e s1 :
  m s = (Raise e, s1) -> (m ≫= f) s = (Raise e, s1).
Proof. intros H. unfold mbind, M_bind. rewrite H. reflexivity. Qed.

Lemma bind_ok_inv {S A B} (m : M S A) (f : A -> M S B) s b s' :
  (m ≫= f) s = (Ok b, s') ->
  exists a s1, m s = (Ok a, s1) /\ f a s1 = (Ok b, s').
Proof.
  unfold mbind, M_bind. destruct (m s) as [[a | e] s1]; intros H.
  - exists a, s1. split; [reflexivity | exact H].
  - discriminate H.
Qed.

Lemma bind_raise_inv {S A B} (m : M S A) (f : A -> M S B) s e s' :
  (m ≫= f) s = (Raise e, s') ->
  m s = (Raise e, s') \/ exists a s1, m s = (Ok a, s1) /\ f a s1 = (Raise e, s').
Proof.
  unfold mbind, M_bind. destruct (m s) as [[a | e0] s1]; intros H.
  - right. exists a, s1. split; [reflexivity | exact H].
  - left. injection H as -> ->. reflexivity.
Qed.

Lemma lift_ok_inv {S A} (r : result A) (s : S) a s' :
  lift r s = (Ok a, s') -> r = Ok a /\ s' = s.
Proof. unfold lift. intros H. injection H as -> ->. split; reflexivity. Qed.

Lemma lift_raise_inv {S A} (r : result A) (s : S) e s' :
  lift r s = (Raise e, s') -> r = Raise e /\ s' = s.
Proof. unfold lift. intros H. injection H as -> ->. split; reflexivity. Qed.

(** One assignment [self.name = <expression>] of [load_dataset_config]. *)
Lemma assign_run_ok (r : result PyVal) name v (k : M Obj unit) self :
  r = Ok v ->
  (lift r ≫= (fun v => setattr name v ≫= (fun _ => k))) self = k (<[name := v]> self).
Proof. intros ->. reflexivity. Qed.

Lemma assign_run_raise (r : result PyVal) name e (k : M Obj unit) self :
  r = Raise e ->
  (lift r ≫= (fun v => setattr name v ≫= (fun _ => k))) self = (Raise e, self).
Proof. intros ->. reflexivity. Qed.

(* ===================================================================== *)
(** * 13. Loading a configuration that is incomplete *)
(* ===================================================================== *)

(** The exceptions of the readers are those of [open], [json] and [pickle]. *)
Lemma json_load_class fs p e :
  json_load fs p = Raise e -> exn_class e <> "ConfigLoadError".
Proof.
  unfold json_load. destruct (fs_files fs !! p) as [[ | | | ] | ]; intros H;
    try discriminate H; injection H as <-; simpl; discriminate.
Qed.

Lemma pickle_load_class fs p e :
  pickle_load fs p = Raise e -> exn_class e <> "ConfigLoadError".
Proof.
  unfold pickle_load. destruct (fs_files fs !! p) as [[ | | | ] | ]; intros H;
    try discriminate H; injection H as <-; simpl; discriminate.
Qed.

Lemma py_getitem_class c k e :
  py_getitem c k = Raise e -> exn_class e <> "ConfigLoadError".
Proof.
  unfold py_getitem. intros H.
  repeat match type of H with
         | context [match ?x with _ => _ end] => destruct x
         end;
    try discriminate H; injection H as <-; simpl; discriminate.
Qed.

Lemma assign_raise_class (r : result PyVal) name (k : M Obj unit) self e self' :
  (forall e0, r = Raise e0 -> exn_class e0 <> "ConfigLoadError") ->
  (forall s, k s = (Raise e, self') -> exn_class e <> "ConfigLoadError") ->
  (lift r ≫= (fun v => setattr name v ≫= (fun _ => k))) self = (Raise e, self') ->
  exn_class e <> "ConfigLoadError".
Proof.
  intros Hr Hk. destruct r as [v | e0].
  - rewrite (assign_run_ok _ _ v) by reflexivity. apply Hk.
  - rewrite (assign_run_raise _ _ e0) by reflexivity.
    intros H. injection H as <- <-. apply Hr. reflexivity.
Qed.

Lemma load_dataset_config_class fs path self e self' :
  load_dataset_config fs path self = (Raise e, self') ->
  exn_class e <> "ConfigLoadError".
Proof.
  unfold load_dataset_config. intros H.
  apply bind_raise_inv in H as [H | (d & s1 & Hd & H)].
  { apply lift_raise_inv in H as [H _]. eapply json_load_class, H. }
  clear Hd. revert s1 H.
  repeat (let s := fresh "s" in
          let H := fresh "H" in
          intros s H;
          refine (assign_raise_class _ _ _ _ _ _ _ _ H);
          [ intros e0; first [ apply py_getitem_class | apply pickle_load_class ]
          | clear s H ]).
  intros s1 H. discriminate H.
Qed.

(** C2, as the code has it.  [load_dataset_config] reads
    [dataset_config.json], then [NaNHandler.pkl], [OneHotEncoder.pkl],
    [scaler_X.pkl] and [scaler_y.pkl], and stops at the first read that
    fails, with the exception of that read: a [FileNotFoundError] that
    carries the path when the file is missing, and never a
    [ConfigLoadError].  The object is unchanged when the metadata document
    cannot be read; when a transformer cannot be read, the seven attributes
    of the metadata and the transformers read before it are already
    assigned. *)
Theorem load_dataset_config_failure (fs : FS) (load_path : string) (self : Obj) :
  let config := os_path_join load_path "dataset_config.json" in
  let nan_handler := os_path_join load_path "NaNHandler.pkl" in
  let ohe := os_path_join load_path "OneHotEncoder.pkl" in
  let scaler_X := os_path_join load_path "scaler_X.pkl" in
  let scaler_y := os_path_join load_path "scaler_y.pkl" in
  (forall e, json_load fs config = Raise e ->
     load_dataset_config fs load_path self = (Raise e, self))
  /\ (forall d fe fd ft te ar il ol,
        json_load fs config = Ok d ->
        py_getitem d (PStr "features_input_encoder") = Ok fe ->
        py_getitem d (PStr "features_input_decoder") = Ok fd ->
        py_getitem d (PStr "feature_target") = Ok ft ->
        py_getitem d (PStr "temporal_encoding") = Ok te ->
        py_getitem d (PStr "autoregressive") = Ok ar ->
        py_getitem d (PStr "input_seq_len") = Ok il ->
        py_getitem d (PStr "output_seq_len") = Ok ol ->
        let self7 := with_metadata fe fd ft te ar il ol self in
        (forall e, pickle_load fs nan_handler = Raise e ->
           load_dataset_config fs load_path self = (Raise e, self7))
        /\ (forall nh e,
              pickle_load fs nan_handler = Ok nh ->
              pickle_load fs ohe = Raise e ->
              load_dataset_config fs load_path self
              = (Raise e, <["nan_handler" := nh]> self7))
        /\ (forall nh oh e,
              pickle_load fs nan_handler = Ok nh ->
              pickle_load fs ohe = Ok oh ->
              pickle_load fs scaler_X = Raise e ->
              load_dataset_config fs load_path self
              = (Raise e, <["one_hot_encoder" := oh]> (<["nan_handler" := nh]> self7)))
        /\ (forall nh oh sx e,
              pickle_load fs nan_handler = Ok nh ->
              pickle_load fs ohe = Ok oh ->
              pickle_load fs scaler_X = Ok sx ->
              pickle_load fs scaler_y = Raise e ->
              load_dataset_config fs load_path self
              = (Raise e, <["scaler_X" := sx]>
                            (<["one_hot_encoder" := oh]> (<["nan_handler" := nh]> self7)))))
  /\ (forall e self',
        load_dataset_config fs load_path self = (Raise e, self') ->
        exn_class e <> "ConfigLoadError")
  /\ (forall p, fs_files fs !! p = None ->
        json_load fs p = raise "FileNotFoundError" p
        /\ pickle_load fs p = raise "FileNotFoundError" p).
Proof.
  intros config nan_handler ohe scaler_X scaler_y.
  split; [ | split; [ | split ] ].
  - intros e He. unfold load_dataset_config. apply bind_run_raise.
    fold config. unfold lift. rewrite He. reflexivity.
  - intros d fe fd ft te ar il ol Hd Hfe Hfd Hft Hte Har Hil Hol self7.
    assert (Hpre : forall k : M Obj unit,
               (lift (json_load fs config) ≫= (fun config_dict =>
                  lift (py_getitem config_dict (PStr "features_input_encoder")) ≫= (fun v =>
                  setattr "features_input_encoder" v ≫= (fun _ =>
                  lift (py_getitem config_dict (PStr "features_input_decoder")) ≫= (fun v =>
                  setattr "features_input_decoder" v ≫= (fun _ =>
                  lift (py_getitem config_dict (PStr "feature_target")) ≫= (fun v =>
                  setattr "feature_target" v ≫= (fun _ =>
                  lift (py_getitem config_dict (PStr "temporal_encoding")) ≫= (fun v =>
                  setattr "temporal_encodings" v ≫= (fun _ =>
                  lift (py_getitem config_dict (PStr "autoregressive")) ≫= (fun v =>
                  setattr "autoregressive" v ≫= (fun _ =>
                  lift (py_getitem config_dict (PStr "input_seq_len")) ≫= (fun v =>
                  setattr "input_seq_len" v ≫= (fun _ =>
                  lift (py_getitem config_dict (PStr "output_seq_len")) ≫= (fun v =>
                  setattr "output_seq_len" v ≫= (fun _ => k))))))))))))))))
                 self = k self7).
    { intros k. unfold mbind, M_bind, lift, setattr.
      rewrite Hd, Hfe, Hfd, Hft, Hte, Har, Hil, Hol. reflexivity. }
    unfold load_dataset_config. fold config nan_handler ohe scaler_X scaler_y.
    rewrite Hpre. clear Hpre.
    repeat split.
    + intros e He. unfold mbind, M_bind, lift. rewrite He. reflexivity.
    + intros nh e Hnh He. unfold mbind, M_bind, lift, setattr.
      rewrite Hnh, He. reflexivity.
    + intros nh oh e Hnh Hoh He. unfold mbind, M_bind, lift, setattr.
      rewrite Hnh, Hoh, He. reflexivity.
    + intros nh oh sx e Hnh Hoh Hsx He. unfold mbind, M_bind, lift, setattr.
      rewrite Hnh, Hoh, Hsx, He. reflexivity.
  - intros e self'. apply load_dataset_config_class.
  - intros p Hp. unfold json_load, pickle_load. rewrite Hp. split; reflexivity.
Qed.

(** C2 at a saved configuration whose [NaNHandler.pkl] was removed: the
    exception is the [FileNotFoundError] of [open], and the feature list of
    the metadata is assigned although the load failed. *)
Lemma load_dataset_config_failure_witness :
  load_dataset_config fs_without_nan_handler "cfg" ds_new
  = (raise "FileNotFoundError" "cfg/NaNHandler.pkl",
     with_metadata (PList [PStr "load"]) (PList [PStr "load"]) (PStr "load")
       (PList [PList [PStr "hours"; PDict []]]) (PBool true) (PInt 3) (PInt 2) ds_new).
Proof.
  refine (proj1 (proj1 (proj2 (load_dataset_config_failure
            fs_without_nan_handler "cfg" ds_new))
            (PDict [ (KStr "features_input_encoder", PList [PStr "load"]);
                     (KStr "features_input_decoder", PList [PStr "load"]);
                     (KStr "feature_target", PStr "load");
                     (KStr "temporal_encoding", PList [PList [PStr "hours"; PDict []]]);
                     (KStr "autoregressive", PBool true);
                     (KStr "input_seq_len", PInt 3);
                     (KStr "output_seq_len", PInt 2) ])
            _ _ _ _ _ _ _ _ _ _ _ _ _ _ _) _ _);
    vm_compute; reflexivity.
Defined.

(** C2 fails as stated: with [NaNHandler.pkl] missing the exception is not
    a [ConfigLoadError], and [features_input_encoder] has changed from
    [None] to the list of the metadata. *)
Lemma load_dataset_config_partial :
  fs_files fs_without_nan_handler !! "cfg/NaNHandler.pkl" = None
  /\ exists e self',
       load_dataset_config fs_without_nan_handler "cfg" ds_new = (Raise e, self')
       /\ exn_class e = "FileNotFoundError"
       /\ exn_class e <> "ConfigLoadError"
       /\ ds_new !! "features_input_encoder" = Some PNone
       /\ self' !! "features_input_encoder" = Some (PList [PStr "load"]).
Proof.
  split; [vm_compute; reflexivity | ].
  eexists. eexists.
  split; [vm_compute; reflexivity | ].
  split; [reflexivity | ].
  split; [simpl; discriminate | ].
  split; vm_compute; reflexivity.
Qed.

(* ===================================================================== *)
(** * 14. Loading a complete configuration *)
(* ===================================================================== *)

(** A load that succeeds assigns eleven values that depend on the files
    only. *)
Lemma load_dataset_config_ok fs path self self' :
  load_dataset_config fs path self = (Ok tt, self') ->
  exists fe fd ft te ar il ol nh oh sx sy,
    forall s0,
      load_dataset_config fs path s0
      = (Ok tt, with_transformers nh oh sx sy (with_metadata fe fd ft te ar il ol s0)).
Proof.
  unfold load_dataset_config, mbind, M_bind, lift, setattr.
  intros H.
  repeat match type of H with
         | context [match ?r with Ok _ => _ | Raise _ => _ end] =>
             destruct r; [ | discriminate H ]
         end.
  do 11 eexists. intros s0. reflexivity.
Qed.

Lemma load_dataset_config_run fs path self d fe fd ft te ar il ol nh oh sx sy :
  json_load fs (os_path_join path "dataset_config.json") = Ok d ->
  py_getitem d (PStr "features_input_encoder") = Ok fe ->
  py_getitem d (PStr "features_input_decoder") = Ok fd ->
  py_getitem d (PStr "feature_target") = Ok ft ->
  py_getitem d (PStr "temporal_encoding") = Ok te ->
  py_getitem d (PStr "autoregressive") = Ok ar ->
  py_getitem d (PStr "input_seq_len") = Ok il ->
  py_getitem d (PStr "output_seq_len") = Ok ol ->
  pickle_load fs (os_path_join path "NaNHandler.pkl") = Ok nh ->
  pickle_load fs (os_path_join path "OneHotEncoder.pkl") = Ok oh ->
  pickle_load fs (os_path_join path "scaler_X.pkl") = Ok sx ->
  pickle_load fs (os_path_join path "scaler_y.pkl") = Ok sy ->
  load_dataset_config fs path self
  = (Ok tt, with_transformers nh oh sx sy (with_metadata fe fd ft te ar il ol self)).
Proof.
  intros Hd Hfe Hfd Hft Hte Har Hil Hol Hnh Hoh Hsx Hsy.
  unfold load_dataset_config, mbind, M_bind, lift, setattr.
  rewrite Hd, Hfe, Hfd, Hft, Hte, Har, Hil, Hol, Hnh, Hoh, Hsx, Hsy.
  reflexivity.
Qed.

(** The window lengths assigned before the load are overwritten by it. *)
Lemma load_overwrites_lengths fe fd ft te ar il ol nh oh sx sy (a b : PyVal) (self : Obj) :
  let loaded s := with_transformers nh oh sx sy (with_metadata fe fd ft te ar il ol s) in
  loaded (<["input_seq_len" := a]> self) = loaded self
  /\ loaded (<["output_seq_len" := b]> self) = loaded self.
Proof.
  unfold with_transformers, with_metadata.
  split; apply map_eq; intros n; rewrite !lookup_insert;
    repeat case_decide; congruence.
Qed.

Section Replay.
Context {C : Collaborators}.

(** C3, what the code does.  Once the configuration loads,
    [process_from_config] runs its transform steps on the loaded object:
    the [input_seq_len] and [output_seq_len] passed to it were assigned
    before [load_dataset_config] and are overwritten by the stored lengths,
    so the extraction never sees them. *)
Theorem process_from_config_override_lost
    (fs : FS) (config_path : string) (input_seq_len output_seq_len : PyVal) (self : Obj) :
  fst (load_dataset_config fs config_path self) = Ok tt ->
  process_from_config fs config_path input_seq_len output_seq_len self
  = replay_transforms (snd (load_dataset_config fs config_path self)).
Proof.
  intros Hload.
  destruct (load_dataset_config fs config_path self) as [r self'] eqn:E.
  simpl in Hload. subst r.
  destruct (load_dataset_config_ok _ _ _ _ E)
    as (fe & fd & ft & te & ar & il & ol & nh & oh & sx & sy & Hall).
  rewrite Hall in E. injection E as <-.
  destruct (load_overwrites_lengths fe fd ft te ar il ol nh oh sx sy
              input_seq_len output_seq_len self) as [Hin _].
  unfold process_from_config.
  destruct (is_none input_seq_len), (is_none output_seq_len);
    unfold mbind, M_bind, mret, M_ret, setattr; rewrite Hall; simpl.
  - reflexivity.
  - f_equal.
    apply (load_overwrites_lengths fe fd ft te ar il ol nh oh sx sy
             input_seq_len output_seq_len self).
  - f_equal.
    apply (load_overwrites_lengths fe fd ft te ar il ol nh oh sx sy
             input_seq_len output_seq_len self).
  - f_equal.
    destruct (load_overwrites_lengths fe fd ft te ar il ol nh oh sx sy
                input_seq_len output_seq_len (<["input_seq_len" := input_seq_len]> self))
      as [_ ->].
    apply (load_overwrites_lengths fe fd ft te ar il ol nh oh sx sy
             input_seq_len output_seq_len self).
Qed.

End Replay.

(** C3 at the saved configuration (stored lengths 3 and 2) with the
    arguments [input_seq_len=2, output_seq_len=1]. *)
Lemma process_from_config_override_lost_witness :
  process_from_config (C := replay_collaborators) fs_saved "cfg" (PInt 2) (PInt 1) ds_new
  = replay_transforms (C := replay_collaborators)
      (snd (load_dataset_config fs_saved "cfg" ds_new)).
Proof.
  apply (process_from_config_override_lost (C := replay_collaborators)).
  vm_compute. reflexivity.
Defined.

(** The same call, evaluated: the lengths in use are the stored 3 and 2,
    and the ten rows give the six windows of those lengths, not the eight
    of the lengths asked for. *)
Example process_from_config_override_example :
  let r := process_from_config (C := replay_collaborators)
             fs_saved "cfg" (PInt 2) (PInt 1) ds_new in
  fst r = Ok tt
  /\ snd r !! "input_seq_len" = Some (PInt 3)
  /\ snd r !! "output_seq_len" = Some (PInt 2)
  /\ snd r !! "y" = Some (windows 10 3 2 (fun t => t + 3))
  /\ py_len (windows 10 3 2 (fun t => t + 3)) = Some 6%nat
  /\ py_len (windows 10 2 1 (fun t => t + 2)) = Some 8%nat.
Proof. vm_compute. repeat split. Qed.

(* ===================================================================== *)
(** * 15. The JSON round trip *)
(* ===================================================================== *)

Lemma json_encode_list_eq l :
  json_encode (PList l) = JArr <$> mapM json_encode l.
Proof. reflexivity. Qed.

Lemma json_encode_tuple_eq l :
  json_encode (PTuple l) = json_encode (PList l).
Proof. reflexivity. Qed.

Lemma json_encode_dict_eq kvs :
  json_encode (PDict kvs)
  = JObj <$> mapM (fun kv => j ← json_encode (snd kv); Some (key_repr (fst kv), j)) kvs.
Proof.
  simpl. f_equal. induction kvs as [ | [k x] r IH]; [reflexivity | ].
  rewrite IH. simpl. destruct (json_encode x); [ | reflexivity ].
  simpl.
  destruct (mapM (fun kv => j ← json_encode (snd kv); Some (key_repr (fst kv), j)) r);
    reflexivity.
Qed.

Lemma PyKey_eqb_sym k1 k2 : PyKey_eqb k1 k2 = PyKey_eqb k2 k1.
Proof.
  destruct k1, k2; simpl; try reflexivity.
  - apply String.eqb_sym.
  - apply Z.eqb_sym.
Qed.

Lemma dict_set_fresh k v acc :
  key_mem k acc = false -> dict_set k v acc = acc ++ [(k, v)].
Proof.
  induction acc as [ | [k' v'] r IH]; simpl; [reflexivity | ].
  intros H. apply orb_false_iff in H as [Hk Hr].
  rewrite Hk. f_equal. apply IH, Hr.
Qed.

Lemma key_mem_app k l1 l2 :
  key_mem k (l1 ++ l2) = key_mem k l1 || key_mem k l2.
Proof.
  induction l1 as [ | [k' v'] r IH]; simpl; [reflexivity | ].
  rewrite IH. apply orb_assoc.
Qed.

Lemma keys_distinct_middle acc k v r :
  keys_distinct (acc ++ (k, v) :: r) = true -> key_mem k acc = false.
Proof.
  induction acc as [ | [k' v'] acc IH]; simpl; [reflexivity | ].
  intros H. apply andb_true_iff in H as [Hk Hr].
  rewrite (IH Hr), orb_false_r.
  apply negb_true_iff in Hk. rewrite key_mem_app in Hk.
  apply orb_false_iff in Hk as [_ Hk]. simpl in Hk.
  apply orb_false_iff in Hk as [Hk _].
  rewrite PyKey_eqb_sym. exact Hk.
Qed.

(** Items under distinct keys are inserted one after the other. *)
Lemma fold_dict_set (items : list (string * PyVal)) acc :
  keys_distinct (acc ++ map tag_key items) = true ->
  fold_left (fun acc kv => dict_set (KStr (fst kv)) (snd kv) acc) items acc
  = acc ++ map tag_key items.
Proof.
  revert acc. induction items as [ | [s v] r IH]; intros acc H; simpl.
  - symmetry. apply app_nil_r.
  - simpl in H. rewrite (dict_set_fresh _ _ _ (keys_distinct_middle _ _ _ _ H)).
    rewrite IH; rewrite <- app_assoc; [reflexivity | exact H].
Qed.

(** A JSON value comes back from [json.loads(json.dumps(v))] as it was. *)
Lemma json_round_trip v :
  json_native v = true ->
  exists j, json_encode v = Some j /\ json_decode j = v.
Proof.
  induction v using PyVal_nested_ind; intros Hn; try discriminate Hn;
    try (eexists; split; reflexivity).
  - (* lists *)
    rewrite json_encode_list_eq.
    assert (exists js, mapM json_encode l = Some js /\ map json_decode js = l)
      as (js & -> & Hjs).
    { simpl in Hn. induction H as [ | x r Hx Hr IH]; [exists []; split; reflexivity | ].
      simpl in Hn. apply andb_true_iff in Hn as [Hnx Hnr].
      destruct (Hx Hnx) as (j & Hj & Hdj), (IH Hnr) as (js & Hjs & Hdjs).
      exists (j :: js). simpl. rewrite Hj. simpl. rewrite Hjs. simpl.
      split; [reflexivity | ]. rewrite Hdj, Hdjs. reflexivity. }
    exists (JArr js). split; [reflexivity | ]. simpl. rewrite Hjs. reflexivity.
  - (* dictionaries *)
    rewrite json_encode_dict_eq.
    simpl in Hn. apply andb_true_iff in Hn as [Hn Hd].
    assert (exists jkvs,
               mapM (fun kv => j ← json_encode (snd kv); Some (key_repr (fst kv), j)) kvs
               = Some jkvs
               /\ map tag_key (map (fun kv => (fst kv, json_decode (snd kv))) jkvs) = kvs)
      as (jkvs & -> & Hjs).
    { clear Hd. induction H as [ | [k x] r Hx Hr IH]; [exists []; split; reflexivity | ].
      simpl in Hn. destruct k as [s | z]; [ | discriminate Hn].
      apply andb_true_iff in Hn as [Hnx Hnr]. simpl in Hx.
      destruct (Hx Hnx) as (j & Hj & Hdj), (IH Hnr) as (js & Hjs & Hdjs).
      exists ((s, j) :: js). simpl. rewrite Hj. simpl. rewrite Hjs. simpl.
      split; [reflexivity | ]. unfold tag_key at 1. simpl. rewrite Hdj, Hdjs.
      reflexivity. }
    exists (JObj jkvs). split; [reflexivity | ]. simpl.
    rewrite fold_dict_set; simpl; rewrite Hjs; [reflexivity | exact Hd].
Qed.

(** A [(mode, encoding)] pair comes back as a list of two items. *)
Lemma pair_round_trip p :
  encoding_pair p = true ->
  exists j, json_encode p = Some j /\ json_decode j = pair_as_list p.
Proof.
  intros Hp.
  assert (exists m e, (p = PTuple [m; e] \/ p = PList [m; e])
                      /\ json_native m = true /\ json_native e = true)
    as (m & e & Hshape & Hm & He).
  { destruct p; try discriminate Hp;
      destruct l as [ | m [ | e [ | ? ? ] ] ]; try discriminate Hp;
      simpl in Hp; apply andb_true_iff in Hp as [Hm He];
      exists m, e; auto. }
  destruct (json_round_trip m Hm) as (jm & Hjm & Hdm).
  destruct (json_round_trip e He) as (je & Hje & Hde).
  exists (JArr [jm; je]).
  destruct Hshape as [-> | ->]; simpl; rewrite Hjm, Hje; simpl;
    rewrite Hdm, Hde; split; reflexivity.
Qed.

Lemma pairs_round_trip te :
  encoding_pairs te = true ->
  exists j, json_encode te = Some j /\ json_decode j = pairs_as_lists te.
Proof.
  destruct te; try discriminate. simpl. intros Hl.
  assert (exists js, mapM json_encode l = Some js
                     /\ map json_decode js = map pair_as_list l)
    as (js & Hjs & Hd).
  { induction l as [ | p r IH]; [exists []; split; reflexivity | ].
    simpl in Hl. apply andb_true_iff in Hl as [Hp Hr].
    destruct (pair_round_trip p Hp) as (j & Hj & Hdj), (IH Hr) as (js & Hjs & Hdjs).
    exists (j :: js). simpl. rewrite Hj. simpl. rewrite Hjs. simpl.
    split; [reflexivity | ]. rewrite Hdj, Hdjs. reflexivity. }
  exists (JArr js). split.
  - change (json_encode (PList l) = Some (JArr js)).
    rewrite json_encode_list_eq, Hjs. reflexivity.
  - simpl. rewrite Hd. reflexivity.
Qed.

(* ===================================================================== *)
(** * 16. Saving, then loading *)
(* ===================================================================== *)

Lemma os_path_join_inj p a b : os_path_join p a = os_path_join p b -> a = b.
Proof.
  unfold os_path_join. destruct (String.eqb p "" || ends_with_sep p); intros H.
  - exact (String.app_inj p _ _ H).
  - apply (String.app_inj p) in H. exact (String.app_inj "/" _ _ H).
Qed.

Lemma os_path_join_ne p a b : a <> b -> os_path_join p a <> os_path_join p b.
Proof. intros Hne H. apply Hne. exact (os_path_join_inj _ _ _ H). Qed.

Lemma attr_is_true P self name :
  attr_is P self name = true -> exists v, self !! name = Some v /\ P v = true.
Proof.
  unfold attr_is. destruct (self !! name) as [v | ]; [ | discriminate ].
  intros H. exists v. split; [reflexivity | exact H].
Qed.

Lemma lift_attr_run (self : Obj) name v (fs : FS) :
  self !! name = Some v -> lift (attr self name) fs = (Ok v, fs).
Proof. intros H. unfold lift, attr. rewrite H. reflexivity. Qed.

(** Opening a file for writing and pickling a value into it. *)
Lemma pickle_dump_run v p fs :
  fs_writable fs p = true ->
  exists fs0 fs',
    open_w p fs = (Ok tt, fs0)
    /\ pickle_dump v p fs0 = (Ok tt, fs')
    /\ dumped (FPickle v) p fs fs'.
Proof.
  intros Hw. unfold pickle_dump, open_w, fs_put. rewrite Hw.
  do 2 eexists. split; [reflexivity | ]. split; [reflexivity | ].
  unfold dumped. simpl.
  split; [reflexivity | ]. split.
  - apply lookup_insert_eq.
  - intros q Hq. rewrite !lookup_insert_ne by (intros E; apply Hq; symmetry; exact E).
    reflexivity.
Qed.

Lemma json_dump_run v j p fs :
  fs_writable fs p = true ->
  json_encode v = Some j ->
  exists fs', json_dump v p fs = (Ok tt, fs') /\ dumped (FJson j) p fs fs'.
Proof.
  intros Hw Hj. unfold json_dump, mbind, M_bind, open_w, fs_put. rewrite Hw, Hj.
  eexists. split; [reflexivity | ]. unfold dumped. simpl.
  split; [reflexivity | ]. split.
  - apply lookup_insert_eq.
  - intros q Hq. rewrite !lookup_insert_ne by (intros E; apply Hq; symmetry; exact E).
    reflexivity.
Qed.

Lemma dumped_writable f p fs fs' q :
  dumped f p fs fs' -> fs_writable fs q = true -> fs_writable fs' q = true.
Proof. intros [-> _] H. exact H. Qed.

Lemma dumped_keeps f p fs fs' g q :
  dumped f p fs fs' -> q <> p -> fs_files fs !! q = Some g -> fs_files fs' !! q = Some g.
Proof. intros (_ & _ & Hother) Hq Hg. rewrite (Hother q Hq). exact Hg. Qed.

(** The seven items of the metadata document. *)
Lemma config_dict_round_trip fe fd ft te ar il ol :
  json_native fe = true -> json_native fd = true -> json_native ft = true ->
  encoding_pairs te = true ->
  json_native ar = true -> json_native il = true -> json_native ol = true ->
  exists j,
    json_encode (PDict [ (KStr "features_input_encoder", fe);
                         (KStr "features_input_decoder", fd);
                         (KStr "feature_target", ft);
                         (KStr "temporal_encoding", te);
                         (KStr "autoregressive", ar);
                         (KStr "input_seq_len", il);
                         (KStr "output_seq_len", ol) ]) = Some j
    /\ json_decode j
       = PDict [ (KStr "features_input_encoder", fe);
                 (KStr "features_input_decoder", fd);
                 (KStr "feature_target", ft);
                 (KStr "temporal_encoding", pairs_as_lists te);
                 (KStr "autoregressive", ar);
                 (KStr "input_seq_len", il);
                 (KStr "output_seq_len", ol) ].
Proof.
  intros Hfe Hfd Hft Hte Har Hil Hol.
  destruct (json_round_trip fe Hfe) as (jfe & Efe & Dfe).
  destruct (json_round_trip fd Hfd) as (jfd & Efd & Dfd).
  destruct (json_round_trip ft Hft) as (jft & Eft & Dft).
  destruct (pairs_round_trip te Hte) as (jte & Ete & Dte).
  destruct (json_round_trip ar Har) as (jar & Ear & Dar).
  destruct (json_round_trip il Hil) as (jil & Eil & Dil).
  destruct (json_round_trip ol Hol) as (jol & Eol & Dol).
  eexists. split.
  - rewrite json_encode_dict_eq. simpl.
    rewrite Efe, Efd, Eft, Ete, Ear, Eil, Eol. reflexivity.
  - cbn. rewrite Dfe, Dfd, Dft, Dte, Dar, Dil, Dol. reflexivity.
Qed.

Lemma fitted_config_attrs self :
  fitted_config self = true ->
  exists fe fd ft te ar il ol nh oh sx sy,
    (self !! "features_input_encoder" = Some fe
     /\ self !! "features_input_decoder" = Some fd
     /\ self !! "feature_target" = Some ft
     /\ self !! "temporal_encodings" = Some te
     /\ self !! "autoregressive" = Some ar
     /\ self !! "input_seq_len" = Some il
     /\ self !! "output_seq_len" = Some ol
     /\ self !! "nan_handler" = Some nh
     /\ self !! "one_hot_encoder" = Some oh
     /\ self !! "scaler_X" = Some sx
     /\ self !! "scaler_y" = Some sy)
    /\ json_native fe = true /\ json_native fd = true /\ json_native ft = true
    /\ encoding_pairs te = true
    /\ json_native ar = true /\ json_native il = true /\ json_native ol = true.
Proof.
  unfold fitted_config. intros Hfit.
  repeat (apply andb_true_iff in Hfit as [Hfit ?]).
  repeat match goal with
         | H : attr_is _ _ _ = true |- _ =>
             apply attr_is_true in H as (? & ? & ?)
         end.
  do 11 eexists. repeat split; eassumption.
Qed.

(** Saving a fitted configuration succeeds wherever the five files can be
    written, and leaves files from which the eleven reads of
    [load_dataset_config] get the saved values back, the pairs of the
    temporal encodings as lists. *)
Lemma save_dataset_config_reads self path fs :
  fitted_config self = true ->
  forallb (fs_writable fs) (config_files path) = true ->
  exists fs' fe fd ft te ar il ol nh oh sx sy,
    save_dataset_config self path fs = (Ok tt, fs')
    /\ (self !! "features_input_encoder" = Some fe
        /\ self !! "features_input_decoder" = Some fd
        /\ self !! "feature_target" = Some ft
        /\ self !! "temporal_encodings" = Some te
        /\ self !! "autoregressive" = Some ar
        /\ self !! "input_seq_len" = Some il
        /\ self !! "output_seq_len" = Some ol
        /\ self !! "nan_handler" = Some nh
        /\ self !! "one_hot_encoder" = Some oh
        /\ self !! "scaler_X" = Some sx
        /\ self !! "scaler_y" = Some sy)
    /\ encoding_pairs te = true
    /\ forall s0,
         load_dataset_config fs' path s0
         = (Ok tt, with_transformers nh oh sx sy
                     (with_metadata fe fd ft (pairs_as_lists te) ar il ol s0)).
Proof.
  intros Hfit Hw.
  destruct (fitted_config_attrs self Hfit)
    as (fe & fd & ft & te & ar & il & ol & nh & oh & sx & sy & Hattrs
        & Nfe & Nfd & Nft & Nte & Nar & Nil & Nol).
  destruct (config_dict_round_trip fe fd ft te ar il ol Nfe Nfd Nft Nte Nar Nil Nol)
    as (j & Ej & Dj).
  simpl in Hw.
  apply andb_true_iff in Hw as [W0 Hw]. apply andb_true_iff in Hw as [W1 Hw].
  apply andb_true_iff in Hw as [W2 Hw]. apply andb_true_iff in Hw as [W3 Hw].
  apply andb_true_iff in Hw as [W4 _].
  destruct (json_dump_run _ j (os_path_join path "dataset_config.json") fs W0 Ej)
    as (fs1 & R1 & D1).
  destruct (pickle_dump_run nh (os_path_join path "NaNHandler.pkl") fs1)
    as (fs1' & fs2 & O2 & R2 & D2).
  { eapply dumped_writable; eassumption. }
  destruct (pickle_dump_run oh (os_path_join path "OneHotEncoder.pkl") fs2)
    as (fs2' & fs3 & O3 & R3 & D3).
  { do 2 (eapply dumped_writable; [eassumption | ]). assumption. }
  destruct (pickle_dump_run sx (os_path_join path "scaler_X.pkl") fs3)
    as (fs3' & fs4 & O4 & R4 & D4).
  { do 3 (eapply dumped_writable; [eassumption | ]). assumption. }
  destruct (pickle_dump_run sy (os_path_join path "scaler_y.pkl") fs4)
    as (fs4' & fs5 & O5 & R5 & D5).
  { do 4 (eapply dumped_writable; [eassumption | ]). assumption. }
  exists fs5, fe, fd, ft, te, ar, il, ol, nh, oh, sx, sy.
  split; [ | split; [exact Hattrs | split; [exact Nte | ] ] ].
  - destruct Hattrs as (Hfe & Hfd & Hft & Hte & Har & Hil & Hol & Hnh & Hoh & Hsx & Hsy).
    unfold save_dataset_config. cbv zeta.
    rewrite (bind_run_ok _ _ fs fe fs) by (apply lift_attr_run; exact Hfe).
    rewrite (bind_run_ok _ _ fs fd fs) by (apply lift_attr_run; exact Hfd).
    rewrite (bind_run_ok _ _ fs ft fs) by (apply lift_attr_run; exact Hft).
    rewrite (bind_run_ok _ _ fs te fs) by (apply lift_attr_run; exact Hte).
    rewrite (bind_run_ok _ _ fs ar fs) by (apply lift_attr_run; exact Har).
    rewrite (bind_run_ok _ _ fs il fs) by (apply lift_attr_run; exact Hil).
    rewrite (bind_run_ok _ _ fs ol fs) by (apply lift_attr_run; exact Hol).
    rewrite (bind_run_ok _ _ _ _ _ R1).
    rewrite (bind_run_ok _ _ _ _ _ O2).
    rewrite (bind_run_ok _ _ fs1' nh fs1') by (apply lift_attr_run; exact Hnh).
    rewrite (bind_run_ok _ _ _ _ _ R2).
    rewrite (bind_run_ok _ _ _ _ _ O3).
    rewrite (bind_run_ok _ _ fs2' oh fs2') by (apply lift_attr_run; exact Hoh).
    rewrite (bind_run_ok _ _ _ _ _ R3).
    rewrite (bind_run_ok _ _ _ _ _ O4).
    rewrite (bind_run_ok _ _ fs3' sx fs3') by (apply lift_attr_run; exact Hsx).
    rewrite (bind_run_ok _ _ _ _ _ R4).
    rewrite (bind_run_ok _ _ _ _ _ O5).
    rewrite (bind_run_ok _ _ fs4' sy fs4') by (apply lift_attr_run; exact Hsy).
    exact R5.
  - intros s0.
    assert (Hne : forall a b : string, a <> b ->
                    os_path_join path a <> os_path_join path b)
      by (intros a b; apply os_path_join_ne).
    assert (F1 : fs_files fs5 !! os_path_join path "dataset_config.json" = Some (FJson j)).
    { eapply dumped_keeps; [exact D5 | apply Hne; discriminate | ].
      eapply dumped_keeps; [exact D4 | apply Hne; discriminate | ].
      eapply dumped_keeps; [exact D3 | apply Hne; discriminate | ].
      eapply dumped_keeps; [exact D2 | apply Hne; discriminate | ].
      apply D1. }
    assert (F2 : fs_files fs5 !! os_path_join path "NaNHandler.pkl" = Some (FPickle nh)).
    { eapply dumped_keeps; [exact D5 | apply Hne; discriminate | ].
      eapply dumped_keeps; [exact D4 | apply Hne; discriminate | ].
      eapply dumped_keeps; [exact D3 | apply Hne; discriminate | ].
      apply D2. }
    assert (F3 : fs_files fs5 !! os_path_join path "OneHotEncoder.pkl" = Some (FPickle oh)).
    { eapply dumped_keeps; [exact D5 | apply Hne; discriminate | ].
      eapply dumped_keeps; [exact D4 | apply Hne; discriminate | ].
      apply D3. }
    assert (F4 : fs_files fs5 !! os_path_join path "scaler_X.pkl" = Some (FPickle sx)).
    { eapply dumped_keeps; [exact D5 | apply Hne; discriminate | ].
      apply D4. }
    assert (F5 : fs_files fs5 !! os_path_join path "scaler_y.pkl" = Some (FPickle sy))
      by apply D5.
    apply (load_dataset_config_run fs5 path s0 (json_decode j));
      try (rewrite Dj; reflexivity).
    + unfold json_load. rewrite F1. reflexivity.
    + unfold pickle_load. rewrite F2. reflexivity.
    + unfold pickle_load. rewrite F3. reflexivity.
    + unfold pickle_load. rewrite F4. reflexivity.
    + unfold pickle_load. rewrite F5. reflexivity.
Qed.

(* ===================================================================== *)
(** * 17. Methods that ignore an attribute *)
(* ===================================================================== *)

Lemma ignores_ret {A} name (a : A) : ignores name (mret a).
Proof. intros s1 s2 H. split; [reflexivity | exact H]. Qed.

Lemma ignores_lift {A} name (r : result A) : ignores name (lift r).
Proof. intros s1 s2 H. split; [reflexivity | exact H]. Qed.

Lemma ignores_getattr name n : n <> name -> ignores name (getattr n).
Proof.
  intros Hn s1 s2 H. unfold getattr, attr. simpl. rewrite (H n Hn).
  split; [reflexivity | exact H].
Qed.

Lemma ignores_setattr name n v : ignores name (setattr n v).
Proof.
  intros s1 s2 H. unfold setattr. simpl. split; [reflexivity | ].
  intros k Hk. rewrite !lookup_insert. case_decide; [reflexivity | apply H, Hk].
Qed.

Lemma related_bind {A B} name (m1 m2 : M Obj A) (f1 f2 : A -> M Obj B) :
  related name m1 m2 -> (forall a, related name (f1 a) (f2 a)) ->
  related name (m1 ≫= f1) (m2 ≫= f2).
Proof.
  intros Hm Hf s1 s2 H. unfold mbind, M_bind.
  destruct (Hm s1 s2 H) as [Hr Hs].
  destruct (m1 s1) as [[a1 | e1] t1], (m2 s2) as [[a2 | e2] t2]; simpl in *;
    try discriminate Hr.
  - injection Hr as <-. apply Hf, Hs.
  - injection Hr as <-. split; [reflexivity | exact Hs].
Qed.

Lemma ignores_bind {A B} name (m : M Obj A) (f : A -> M Obj B) :
  ignores name m -> (forall a, ignores name (f a)) -> ignores name (m ≫= f).
Proof. apply related_bind. Qed.

(** Assigning the attribute [name] itself, whatever the values. *)
Lemma related_setattr name v1 v2 : related name (setattr name v1) (setattr name v2).
Proof.
  intros s1 s2 H. unfold setattr. simpl. split; [reflexivity | ].
  intros k Hk. rewrite !lookup_insert_ne by congruence. apply H, Hk.
Qed.

Ltac ignores_step :=
  match goal with
  | |- ignores _ (_ ≫= _) => apply ignores_bind; [ | intros ]
  | |- ignores _ (lift _) => apply ignores_lift
  | |- ignores _ (getattr _) => apply ignores_getattr; discriminate
  | |- ignores _ (setattr _ _) => apply ignores_setattr
  | |- ignores _ (mret _) => apply ignores_ret
  | |- ignores _ (let '(_, _) := ?x in _) => destruct x
  | |- ignores _ (if ?b then _ else _) => destruct b
  end.

Section Replay_ignores.
Context {C : Collaborators}.


Lemma for_each_ignores {A} name (body : A -> M Obj unit) items :
  (forall x, ignores name (body x)) -> ignores name (for_each body items).
Proof.
  intros Hb. induction items as [ | x r IH]; simpl.
  - apply ignores_ret.
  - apply ignores_bind; [apply Hb | intros _; exact IH].
Qed.







End Replay_ignores.

(* ===================================================================== *)
(** * 18. The configuration round trip *)
(* ===================================================================== *)

Section Round_trip.
Context {C : Collaborators}.


End Round_trip.


(* ===================================================================== *)
(** * 19. The split index and the split ratio *)
(* ===================================================================== *)

Lemma mask_index_none mask idx :
  (forall (k : nat) b, mask !! k = Some b -> b = false) -> mask_index mask idx = [].
Proof.
  revert idx. induction mask as [ | b m IH]; intros idx H; [reflexivity | ].
  destruct idx as [ | i r]; [reflexivity | ]. simpl.
  rewrite (H 0%nat b eq_refl).
  apply IH. intros k b' Hk. exact (H (S k) b' Hk).
Qed.

Lemma last_cons_some {A} (x : A) l y : last l = Some y -> last (x :: l) = Some y.
Proof. destruct l; [discriminate | ]. intros H. exact H. Qed.

(** The last label of the selection is the label of the last selected row. *)
Lemma mask_index_last mask idx (k : nat) i :
  idx !! k = Some i ->
  mask !! k = Some true ->
  (forall (k' : nat) b, (k < k')%nat -> mask !! k' = Some b -> b = false) ->
  last (mask_index mask idx) = Some i.
Proof.
  revert idx k. induction mask as [ | b m IH]; intros idx k Hi Hk Hlater.
  - discriminate Hk.
  - destruct idx as [ | i0 r]; [discriminate Hi | ].
    destruct k as [ | k].
    + simpl in Hi, Hk. injection Hi as ->. injection Hk as ->. simpl.
      rewrite (mask_index_none m r); [reflexivity | ].
      intros k' b' Hb. apply (Hlater (S k') b'); [lia | exact Hb].
    + simpl in Hi, Hk.
      assert (Hrec : last (mask_index m r) = Some i).
      { apply (IH r k Hi Hk). intros k' b' Hlt Hb.
        apply (Hlater (S k') b'); [lia | exact Hb]. }
      simpl. destruct b; [apply last_cons_some | ]; exact Hrec.
Qed.

Lemma date_split_index_last f ts col d i :
  frame_column col (df_columns f) = Some (ColDatetime ts) ->
  last_preceding (df_index f) ts d i ->
  date_split_index (PFrame f) col (PDate d) = Ok i.
Proof.
  intros Hcol (k & t & Hi & Ht & Hlt & Hlater).
  unfold date_split_index, frame_getitem. rewrite Hcol. simpl.
  unfold index_last.
  rewrite (mask_index_last _ _ k i Hi); [reflexivity | | ].
  - rewrite list_lookup_fmap, Ht. simpl. rewrite Hlt. reflexivity.
  - intros k' b Hk' Hb. rewrite list_lookup_fmap in Hb.
    destruct (ts !! k') as [t' | ] eqn:Et; [ | discriminate Hb].
    simpl in Hb. injection Hb as <-. exact (Hlater k' t' Hk' Et).
Qed.

Lemma date_split_index_none f ts col d :
  frame_column col (df_columns f) = Some (ColDatetime ts) ->
  (forall t, In t ts -> date_ltb (ts_date t) d = false) ->
  date_split_index (PFrame f) col (PDate d)
  = raise "IndexError" "index -1 is out of bounds for axis 0 with size 0".
Proof.
  intros Hcol Hnone.
  unfold date_split_index, frame_getitem. rewrite Hcol. simpl.
  rewrite mask_index_none; [reflexivity | ].
  intros k b Hb. rewrite list_lookup_fmap in Hb.
  destruct (ts !! k) as [t | ] eqn:Et; [ | discriminate Hb].
  simpl in Hb. injection Hb as <-. apply Hnone.
  apply list_elem_of_In. eapply list_elem_of_lookup_2. exact Et.
Qed.

(** The ratio is the split index over the number of rows. *)
Lemma date_split_ratio_last f ts col d i :
  frame_column col (df_columns f) = Some (ColDatetime ts) ->
  last_preceding (df_index f) ts d i ->
  date_split_ratio (PFrame f) col (PDate d)
  = Ok (inject_Z i / inject_Z (Z.of_nat (length (df_index f))))%Q.
Proof.
  intros Hcol Hlast. unfold date_split_ratio.
  rewrite (date_split_index_last f ts col d i Hcol Hlast). simpl.
  unfold py_truediv.
  destruct Hlast as (k & _ & Hi & _).
  apply lookup_lt_Some in Hi.
  destruct (Z.eqb_spec (Z.of_nat (length (df_index f))) 0) as [E | _]; [lia | reflexivity].
Qed.

Lemma date_split_ratio_none f ts col d :
  frame_column col (df_columns f) = Some (ColDatetime ts) ->
  (forall t, In t ts -> date_ltb (ts_date t) d = false) ->
  date_split_ratio (PFrame f) col (PDate d)
  = raise "IndexError" "index -1 is out of bounds for axis 0 with size 0".
Proof.
  intros Hcol Hnone. unfold date_split_ratio.
  rewrite (date_split_index_none f ts col d Hcol Hnone). reflexivity.
Qed.

Lemma date_split_ratio_no_column f col d :
  frame_column col (df_columns f) = None ->
  date_split_ratio (PFrame f) col d = raise "KeyError" col.
Proof.
  intros Hcol. unfold date_split_ratio, date_split_index, frame_getitem.
  rewrite Hcol. reflexivity.
Qed.

Section Date_split.
Context {C : Collaborators}.

(** After its first assignments [process] works on a copy of the raw
    table. *)
Lemma process_init_run time_col fe fd ft il ol mo ar (self : Obj) f :
  self !! "df_raw" = Some (PFrame f) ->
  exists s, process_init time_col fe fd ft il ol mo ar self = (Ok tt, s)
            /\ s !! "df_processed" = Some (PFrame f).
Proof.
  intros Hraw. unfold process_init, mbind, M_bind, setattr, getattr, attr, lift.
  rewrite lookup_insert_ne by discriminate. rewrite Hraw. simpl.
  eexists. split; [reflexivity | ].
  rewrite !lookup_insert. repeat case_decide; congruence.
Qed.

Lemma process_split_ratio_run split_ratio split_date (s : Obj) f :
  is_none split_date = false ->
  s !! "df_processed" = Some (PFrame f) ->
  process_split_ratio split_ratio split_date s
  = match date_split_ratio (PFrame f) "date / time" split_date with
    | Ok q => (Ok (PFloat q), s)
    | Raise e => (Raise e, s)
    end.
Proof.
  intros Hd Hs. unfold process_split_ratio. rewrite Hd.
  unfold mbind, M_bind, getattr, attr, lift, mret, M_ret. rewrite Hs.
  destruct (date_split_ratio (PFrame f) "date / time" split_date); reflexivity.
Qed.

(** What [process] does when the split ratio comes from a date. *)
Lemma process_with_date time_col fe fd ft il ol sr sd modes mo mn ar (self : Obj) f :
  is_none sd = false ->
  self !! "df_raw" = Some (PFrame f) ->
  exists s,
    process_init time_col fe fd ft il ol mo ar self = (Ok tt, s)
    /\ process time_col fe fd ft il ol sr sd modes mo mn ar self
       = match date_split_ratio (PFrame f) "date / time" sd with
         | Ok q =>
             (process_transform fe fd ft il ol (PFloat q) modes mo mn
                ≫= (fun r => process_store r)) s
         | Raise e => (Raise e, s)
         end.
Proof.
  intros Hd Hraw.
  destruct (process_init_run time_col fe fd ft il ol mo ar self f Hraw) as (s & Hinit & Hs).
  exists s. split; [exact Hinit | ].
  unfold process. rewrite Hd, andb_false_r. cbv iota.
  unfold process_steps, mbind, M_bind.
  rewrite Hinit.
  rewrite (process_split_ratio_run sr sd s f Hd Hs).
  destruct (date_split_ratio (PFrame f) "date / time" sd); reflexivity.
Qed.

(** What [process] does when the split ratio is given. *)
Lemma process_with_ratio time_col fe fd ft il ol q modes mo mn ar (self s : Obj) :
  process_init time_col fe fd ft il ol mo ar self = (Ok tt, s) ->
  process time_col fe fd ft il ol (PFloat q) PNone modes mo mn ar self
  = (process_transform fe fd ft il ol (PFloat q) modes mo mn
       ≫= (fun r => process_store r)) s.
Proof.
  intros Hinit. unfold process.
  change (is_none (PFloat q) && is_none PNone) with false. cbv iota.
  unfold process_steps, process_split_ratio.
  change (is_none PNone) with true. cbv iota.
  unfold mbind, M_bind, mret, M_ret.
  rewrite Hinit. reflexivity.
Qed.

(** C4.  With [i] the label of the last row dated strictly before the
    split date and [n] the number of rows, [train_test_split_date] is the
    ratio split [train_test_split] at the ratio [i / n], followed by the
    month filter; and [process] with that split date is [process] with the
    split ratio [i / n]. *)
Theorem date_split_is_ratio_split
    (self : Obj) (f : DataFrame) (ts : list Timestamp) (d : date) (i : Z) :
  last_preceding (df_index f) ts d i ->
  let ratio := PFloat (inject_Z i / inject_Z (Z.of_nat (length (df_index f))))%Q in
  (forall date_col considered_months,
      self !! "df_processed" = Some (PFrame f) ->
      frame_column date_col (df_columns f) = Some (ColDatetime ts) ->
      train_test_split_date self date_col (PDate d) considered_months
      = (r ← train_test_split self ratio;
         '(X_train, y_train, X_test, y_test) ← unpack4 r;
         month_filter (PFrame f) date_col
           (default (map Z.of_nat (seq 1 12)) considered_months)
           X_train y_train X_test y_test))
  /\ (forall time_col fe fd ft il ol sr modes mo mn ar,
        self !! "df_raw" = Some (PFrame f) ->
        frame_column "date / time" (df_columns f) = Some (ColDatetime ts) ->
        process time_col fe fd ft il ol sr (PDate d) modes mo mn ar self
        = process time_col fe fd ft il ol ratio PNone modes mo mn ar self).
Proof.
  intros Hlast ratio. split.
  - intros date_col months Hdf Hcol.
    unfold train_test_split_date, train_test_split, attr. rewrite Hdf.
    unfold mbind at 1, result_bind at 1. unfold mbind at 1, result_bind at 1.
    rewrite (date_split_ratio_last f ts date_col d i Hcol Hlast).
    fold ratio.
    destruct (self !! "X") as [X | ]; [ | reflexivity].
    destruct (self !! "y") as [y | ]; [ | reflexivity].
    unfold mbind, result_bind.
    destruct (gen_train_test_split X y ratio) as [r | e]; [ | reflexivity].
    destruct (unpack4 r) as [[[[? ?] ?] ?] | e]; reflexivity.
  - intros time_col fe fd ft il ol sr modes mo mn ar Hraw Hcol.
    destruct (process_with_date time_col fe fd ft il ol sr (PDate d) modes mo mn ar
                self f eq_refl Hraw) as (s & Hinit & ->).
    rewrite (date_split_ratio_last f ts "date / time" d i Hcol Hlast).
    unfold ratio. rewrite (process_with_ratio _ _ _ _ _ _ _ _ _ _ _ _ _ Hinit).
    reflexivity.
Qed.

(** C8, as the code has it.  When no row is dated before the split date,
    the selection is empty and its [index[-1]] raises an [IndexError], in
    [train_test_split_date] and in [process] alike. *)
Theorem date_split_no_row_precedes
    (self : Obj) (f : DataFrame) (ts : list Timestamp) (d : date) :
  (forall t, In t ts -> date_ltb (ts_date t) d = false) ->
  (forall date_col considered_months,
      self !! "df_processed" = Some (PFrame f) ->
      frame_column date_col (df_columns f) = Some (ColDatetime ts) ->
      train_test_split_date self date_col (PDate d) considered_months
      = raise "IndexError" "index -1 is out of bounds for axis 0 with size 0")
  /\ (forall time_col fe fd ft il ol sr modes mo mn ar,
        self !! "df_raw" = Some (PFrame f) ->
        frame_column "date / time" (df_columns f) = Some (ColDatetime ts) ->
        fst (process time_col fe fd ft il ol sr (PDate d) modes mo mn ar self)
        = raise "IndexError" "index -1 is out of bounds for axis 0 with size 0").
Proof.
  intros Hnone. split.
  - intros date_col months Hdf Hcol.
    unfold train_test_split_date, attr. rewrite Hdf.
    unfold mbind at 1, result_bind at 1. unfold mbind at 1, result_bind at 1.
    rewrite (date_split_ratio_none f ts date_col d Hcol Hnone). reflexivity.
  - intros time_col fe fd ft il ol sr modes mo mn ar Hraw Hcol.
    destruct (process_with_date time_col fe fd ft il ol sr (PDate d) modes mo mn ar
                self f eq_refl Hraw) as (s & Hinit & ->).
    rewrite (date_split_ratio_none f ts "date / time" d Hcol Hnone). reflexivity.
Qed.

(** C10.  [process] with a split date looks the timestamps up in the
    column named ["date / time"], whatever [time_col] is: on a table
    without a column of that name it raises the [KeyError] of that lookup,
    so it cannot succeed there. *)
Theorem process_needs_date_time_column
    (self : Obj) (f : DataFrame) time_col fe fd ft il ol sr split_date modes mo mn ar :
  is_none split_date = false ->
  self !! "df_raw" = Some (PFrame f) ->
  frame_column "date / time" (df_columns f) = None ->
  fst (process time_col fe fd ft il ol sr split_date modes mo mn ar self)
  = raise "KeyError" "date / time"
  /\ fst (process time_col fe fd ft il ol sr split_date modes mo mn ar self) <> Ok tt.
Proof.
  intros Hd Hraw Hcol.
  destruct (process_with_date time_col fe fd ft il ol sr split_date modes mo mn ar
              self f Hd Hraw) as (s & Hinit & ->).
  rewrite (date_split_ratio_no_column f "date / time" split_date Hcol).
  split; [reflexivity | discriminate].
Qed.

End Date_split.

(** A way to establish [last_preceding] by computation. *)
Lemma last_preceding_intro idx ts d i (k : nat) t :
  idx !! k = Some i ->
  ts !! k = Some t ->
  date_ltb (ts_date t) d = true ->
  forallb (fun t' => negb (date_ltb (ts_date t') d)) (drop (S k) ts) = true ->
  last_preceding idx ts d i.
Proof.
  intros Hi Ht Hlt Hrest. exists k, t. repeat split; try assumption.
  intros k' t' Hk' Ht'.
  rewrite forallb_forall in Hrest.
  apply negb_true_iff, Hrest, list_elem_of_In.
  apply list_elem_of_lookup. exists (k' - S k)%nat.
  rewrite lookup_drop. replace (S k + (k' - S k))%nat with k' by lia. exact Ht'.
Qed.

Lemma none_precedes_intro ts d :
  forallb (fun t => negb (date_ltb (ts_date t) d)) ts = true ->
  forall t, In t ts -> date_ltb (ts_date t) d = false.
Proof.
  intros H t Ht. rewrite forallb_forall in H. apply negb_true_iff, H, Ht.
Qed.

(** C4 on the ten-row table split at 2020-02-03: the last row before that
    date is row 3, and the ratio is 3/10. *)
Lemma date_split_is_ratio_split_witness :
  let ratio := PFloat (inject_Z 3 / inject_Z (Z.of_nat (length (df_index table10))))%Q in
  train_test_split_date (C := spec_collaborators) ds10 "date / time"
    (PDate (mkDate 2020 2 3)) None
  = (r ← train_test_split (C := spec_collaborators) ds10 ratio;
     '(X_train, y_train, X_test, y_test) ← unpack4 r;
     month_filter (PFrame table10) "date / time" (map Z.of_nat (seq 1 12))
       X_train y_train X_test y_test)
  /\ process (C := spec_collaborators) "date / time" ["load"] ["load"] "load" 3 2
       PNone (PDate (mkDate 2020 2 3)) None PNone PNone false ds10
     = process (C := spec_collaborators) "date / time" ["load"] ["load"] "load" 3 2
         ratio PNone None PNone PNone false ds10.
Proof.
  assert (Hlast : last_preceding (df_index table10) dates10 (mkDate 2020 2 3) 3).
  { apply (last_preceding_intro _ _ _ _ 3%nat (midnight 2020 2 2)); reflexivity. }
  destruct (date_split_is_ratio_split (C := spec_collaborators)
              ds10 table10 dates10 (mkDate 2020 2 3) 3 Hlast) as [Hsplit Hprocess].
  split.
  - apply Hsplit; vm_compute; reflexivity.
  - apply Hprocess; vm_compute; reflexivity.
Defined.

(** C8 on the ten-row table, whose first row is dated 2020-01-30. *)
Lemma date_split_no_row_precedes_witness :
  train_test_split_date (C := spec_collaborators) ds10 "date / time"
    (PDate (mkDate 2020 1 30)) None
  = raise "IndexError" "index -1 is out of bounds for axis 0 with size 0"
  /\ fst (process (C := spec_collaborators) "date / time" ["load"] ["load"] "load" 3 2
            PNone (PDate (mkDate 2020 1 30)) None PNone PNone false ds10)
     = raise "IndexError" "index -1 is out of bounds for axis 0 with size 0".
Proof.
  destruct (date_split_no_row_precedes (C := spec_collaborators)
              ds10 table10 dates10 (mkDate 2020 1 30)
              (none_precedes_intro dates10 (mkDate 2020 1 30) eq_refl))
    as [Hsplit Hprocess].
  split.
  - apply Hsplit; vm_compute; reflexivity.
  - apply Hprocess; vm_compute; reflexivity.
Defined.

(** C8 fails as stated: no row of the ten-row table is dated before
    2020-01-30, and the split at that date raises an [IndexError], not a
    [DateNotFoundError]. *)
Lemma date_split_raises_index_error :
  forallb (fun t => negb (date_ltb (ts_date t) (mkDate 2020 1 30))) dates10 = true
  /\ exists e,
       train_test_split_date (C := spec_collaborators) ds10 "date / time"
         (PDate (mkDate 2020 1 30)) None = Raise e
       /\ exn_class e = "IndexError"
       /\ exn_class e <> "DateNotFoundError".
Proof.
  split; [reflexivity | ].
  eexists. split; [vm_compute; reflexivity | ].
  split; [reflexivity | simpl; discriminate].
Qed.

(** C10 on the ten-row table whose timestamps are in the column
    [timestamp]: [process] is given [time_col = "timestamp"] and still
    fails on the lookup of ["date / time"]. *)
Lemma process_needs_date_time_column_witness :
  frame_column "timestamp" (df_columns table10_timestamp) = Some (ColDatetime dates10)
  /\ fst (process (C := spec_collaborators) "timestamp" ["load"] ["load"] "load" 3 2
            PNone (PDate (mkDate 2020 2 3)) None PNone PNone false
            (DataSet (PFrame table10_timestamp)))
     = raise "KeyError" "date / time"
  /\ fst (process (C := spec_collaborators) "timestamp" ["load"] ["load"] "load" 3 2
            PNone (PDate (mkDate 2020 2 3)) None PNone PNone false
            (DataSet (PFrame table10_timestamp)))
     <> Ok tt.
Proof.
  split; [reflexivity | ].
  apply (process_needs_date_time_column (C := spec_collaborators)
           (DataSet (PFrame table10_timestamp)) table10_timestamp);
    vm_compute; reflexivity.
Defined.

(** C5, as the code has it.  In a table of 100 rows labelled 0 to 99 where
    row 49 is dated before row 50 and no later row is, the split at the
    date of row 50 has the index 49 (row 50 does not precede its own date)
    and the ratio 49/100 = 0.49, not 50/100. *)
Theorem date_split_ratio_row_50
    (f : DataFrame) (ts : list Timestamp) (col : string) (t49 t50 : Timestamp) :
  df_index f = range 100 ->
  frame_column col (df_columns f) = Some (ColDatetime ts) ->
  ts !! 49%nat = Some t49 ->
  ts !! 50%nat = Some t50 ->
  date_ltb (ts_date t49) (ts_date t50) = true ->
  (forall (k : nat) t, (49 < k)%nat -> ts !! k = Some t ->
                       date_ltb (ts_date t) (ts_date t50) = false) ->
  exists q,
    date_split_ratio (PFrame f) col (PDate (ts_date t50)) = Ok q
    /\ Qeq_bool q (49 # 100) = true
    /\ Qeq_bool q (50 # 100) = false.
Proof.
  intros Hidx Hcol H49 H50 Hlt Hlater.
  assert (Hlast : last_preceding (df_index f) ts (ts_date t50) 49).
  { exists 49%nat, t49. rewrite Hidx.
    split; [reflexivity | split; [exact H49 | split; [exact Hlt | exact Hlater]]]. }
  eexists. split.
  - apply (date_split_ratio_last f ts col _ 49 Hcol Hlast).
  - rewrite Hidx. split; vm_compute; reflexivity.
Qed.

(** C5 on the table of the first 100 days of 2020, split at the date of
    row 50, 2020-02-20. *)
Lemma date_split_ratio_row_50_witness :
  exists q,
    date_split_ratio (PFrame table100) "date / time" (PDate (mkDate 2020 2 20)) = Ok q
    /\ Qeq_bool q (49 # 100) = true
    /\ Qeq_bool q (50 # 100) = false.
Proof.
  apply (date_split_ratio_row_50 table100
           (days_of 2020 1 1 31 ++ days_of 2020 2 1 29
            ++ days_of 2020 3 1 31 ++ days_of 2020 4 1 9)
           "date / time" (midnight 2020 2 19) (midnight 2020 2 20));
    try reflexivity.
  intros k t Hk Ht.
  assert (Hin : In t (drop 50 (days_of 2020 1 1 31 ++ days_of 2020 2 1 29
                               ++ days_of 2020 3 1 31 ++ days_of 2020 4 1 9))).
  { apply list_elem_of_In, list_elem_of_lookup. exists (k - 50)%nat.
    rewrite lookup_drop. replace (50 + (k - 50))%nat with k by lia. exact Ht. }
  clear Ht. revert t Hin. apply none_precedes_intro. reflexivity.
Defined.

(** C5 fails as stated: row 50 of the 100-row table is dated 2020-02-20,
    and the split at that date computes a ratio that is not 50/100. *)
Lemma date_split_ratio_not_half :
  length (df_index table100) = 100%nat
  /\ frame_column "date / time" (df_columns table100)
     = Some (ColDatetime (days_of 2020 1 1 31 ++ days_of 2020 2 1 29
                          ++ days_of 2020 3 1 31 ++ days_of 2020 4 1 9))
  /\ (days_of 2020 1 1 31 ++ days_of 2020 2 1 29
      ++ days_of 2020 3 1 31 ++ days_of 2020 4 1 9) !! 50%nat
     = Some (midnight 2020 2 20)
  /\ exists q,
       date_split_ratio (PFrame table100) "date / time" (PDate (mkDate 2020 2 20)) = Ok q
       /\ Qeq_bool q (50 # 100) = false.
Proof.
  repeat split; try reflexivity.
  eexists. split; vm_compute; reflexivity.
Qed.

(* ===================================================================== *)
(** * 20. The month filter *)
(* ===================================================================== *)

(** Whenever a train window is selected, the test index array contains
    the last train index shifted by the train window count, which is
    negative: an index that [numpy] counts from the end of the test array. *)
Lemma test_indices_negative i_months n_train i_last :
  last (train_indices i_months n_train) = Some i_last ->
  In (i_last - n_train) (test_indices i_months i_last n_train)
  /\ i_last - n_train < 0.
Proof.
  intros Hlast.
  assert (Hin : In i_last (train_indices i_months n_train)).
  { apply list_elem_of_In. apply last_Some_elem_of. exact Hlast. }
  unfold train_indices in Hin. apply list_elem_of_In in Hin.
  apply list_elem_of_filter in Hin as [Hlt Hin].
  apply Is_true_true in Hlt. apply Z.ltb_lt in Hlt.
  split; [ | lia ].
  unfold test_indices. apply in_map_iff. exists i_last. split; [reflexivity | ].
  apply list_elem_of_In, list_elem_of_filter. split; [ | exact Hin].
  apply Is_true_true, Z.leb_le. lia.
Qed.

(** Without a selected train window the month filter fails on
    [i_train[-1]]. *)
Lemma month_filter_no_train_window
    df date_col months i_months (X_train y_train X_test y_test : PyVal) xs0 xt0 :
  month_index df date_col months = Ok i_months ->
  py_getitem X_train (PInt 0) = Ok (PArray xs0) ->
  py_getitem X_test (PInt 0) = Ok (PArray xt0) ->
  train_indices
    (filter (fun i => i <? Z.of_nat (length xs0) + Z.of_nat (length xt0)) i_months)
    (Z.of_nat (length xs0)) = [] ->
  month_filter df date_col months X_train y_train X_test y_test
  = raise "IndexError" "index -1 is out of bounds for axis 0 with size 0".
Proof.
  intros Hm Hx Ht Hempty. unfold month_filter.
  rewrite Hm, Hx, Ht. simpl. rewrite Hempty. reflexivity.
Qed.

(** What a month filter that returns has computed. *)
Lemma month_filter_ok_inv
    df date_col months (X_train y_train X_test y_test res : PyVal) :
  month_filter df date_col months X_train y_train X_test y_test = Ok res ->
  exists i_months n_train n_test i_last X_train_months y_train_months
         X_test_months y_test_months,
    month_index df date_col months = Ok i_months
    /\ (x ← py_getitem X_train (PInt 0); shape0 x) = Ok n_train
    /\ (x ← py_getitem X_test (PInt 0); shape0 x) = Ok n_test
    /\ last (train_indices (filter (fun i => i <? n_train + n_test) i_months) n_train)
       = Some i_last
    /\ take_rows y_train
         (train_indices (filter (fun i => i <? n_train + n_test) i_months) n_train)
       = Ok y_train_months
    /\ take_rows y_test
         (test_indices (filter (fun i => i <? n_train + n_test) i_months) i_last n_train)
       = Ok y_test_months
    /\ res = PTuple [PList X_train_months; y_train_months;
                     PList X_test_months; y_test_months].
Proof.
  unfold month_filter, mbind, result_bind. intros H.
  destruct (month_index df date_col months) as [i_months | ]; [ | discriminate H].
  destruct (py_getitem X_train (PInt 0)) as [x | ]; [ | discriminate H].
  destruct (shape0 x) as [n_train | ]; [ | discriminate H].
  destruct (py_getitem X_test (PInt 0)) as [x' | ]; [ | discriminate H].
  destruct (shape0 x') as [n_test | ]; [ | discriminate H].
  destruct (index_last _) as [i_last | ] eqn:El; [ | discriminate H].
  destruct (take_rows y_train _) as [ytm | ] eqn:Eytr; [ | discriminate H].
  destruct (take_rows y_test _) as [yem | ] eqn:Eyte; [ | discriminate H].
  destruct (py_iter X_train) as [xs | ]; [ | discriminate H].
  destruct (mapM _ xs) as [Xtm | ]; [ | discriminate H].
  destruct (py_iter X_test) as [xs' | ]; [ | discriminate H].
  destruct (mapM _ xs') as [Xem | ]; [ | discriminate H].
  injection H as <-.
  exists i_months, n_train, n_test, i_last, Xtm, ytm, Xem, yem.
  repeat split; try assumption; try reflexivity.
  unfold index_last in El.
  destruct (last _) as [i | ]; [ | discriminate El].
  injection El as ->. reflexivity.
Qed.

Lemma mapM_result_length {A B} (f : A -> result B) l out :
  mapM f l = Ok out -> length out = length l.
Proof.
  revert out. induction l as [ | x r IH]; intros out H.
  - injection H as <-. reflexivity.
  - cbn in H. destruct (f x); [ | discriminate H].
    destruct (mapM f r) as [out' | ]; [ | discriminate H].
    injection H as <-. simpl. f_equal. apply IH. reflexivity.
Qed.

Lemma take_rows_length arr idx out :
  take_rows arr idx = Ok (PArray out) -> length out = length idx.
Proof.
  unfold take_rows. destruct arr as [ | | | | | | | | | | src | ]; try discriminate.
  destruct (mapM _ idx) as [l | ] eqn:E; [ | discriminate].
  intros H. injection H as <-. exact (mapM_result_length _ _ _ E).
Qed.

Lemma train_indices_none l n m :
  (forall i, In i l -> n <= i) ->
  train_indices (filter (fun i => i <? n + m) l) n = [].
Proof.
  unfold train_indices. induction l as [ | i r IH]; intros Hall; [reflexivity | ].
  assert (Hi : n <= i) by (apply Hall; left; reflexivity).
  assert (Hr : forall j, In j r -> n <= j)
    by (intros j Hj; apply Hall; right; exact Hj).
  specialize (IH Hr).
  rewrite filter_cons. case_decide as Hkeep; [ | exact IH].
  rewrite filter_cons. case_decide as Htrain; [ | exact IH].
  apply Is_true_true, Z.ltb_lt in Htrain. lia.
Qed.

(** A selection that holds one more label is longer. *)
Lemma filter_length_lt (P Q : Z -> bool) (l : list Z) x :
  (forall i, P i = true -> Q i = true) ->
  In x l -> Q x = true -> P x = false ->
  (length (filter (fun i => P i) l) < length (filter (fun i => Q i) l))%nat.
Proof.
  intros HPQ Hin HQ HP.
  assert (Hle : forall l', (length (filter (fun i => P i) l')
                            <= length (filter (fun i => Q i) l'))%nat).
  { induction l' as [ | i r IH]; [reflexivity | ].
    rewrite !filter_cons.
    destruct (P i) eqn:EP.
    - rewrite (HPQ i EP). simpl. lia.
    - destruct (Q i); simpl; lia. }
  induction l as [ | i r IH]; [destruct Hin | ].
  rewrite !filter_cons. destruct Hin as [-> | Hin].
  - rewrite HP, HQ. simpl. specialize (Hle r). lia.
  - specialize (IH Hin). destruct (P i) eqn:EP.
    + rewrite (HPQ i EP). simpl. lia.
    + destruct (Q i); simpl; lia.
Qed.

Section Month_filter.
Context {C : Collaborators}.

(** C6, what the code does.  Whenever [train_test_split_date] returns, it
    has taken the test target from the test part of the ratio split with
    the index array [i_months[i_months >= i_train[-1]] - n_train] of line
    435, where [i_months] are the selected labels below the number of
    windows and [i_train[-1]] is the last selected train label.  That
    array contains the index [i_train[-1] - n_train], which is negative:
    the retained test indices are not all valid non-negative positions of
    the test subset, and the test target returned has more rows than
    there are selected test windows. *)
Theorem month_filter_test_index_negative
    (self : Obj) (date_col : string) (split_date : PyVal)
    (considered_months : option (list Z)) (res : PyVal) :
  train_test_split_date self date_col split_date considered_months = Ok res ->
  exists df q X_train y_train X_test y_test i_months n_train n_test i_last
         X_train_months y_train_months X_test_months rows,
    attr self "df_processed" = Ok df
    /\ date_split_ratio df date_col split_date = Ok q
    /\ (r ← train_test_split self (PFloat q); unpack4 r)
       = Ok (X_train, y_train, X_test, y_test)
    /\ month_index df date_col (default (map Z.of_nat (seq 1 12)) considered_months)
       = Ok i_months
    /\ (x ← py_getitem X_train (PInt 0); shape0 x) = Ok n_train
    /\ (x ← py_getitem X_test (PInt 0); shape0 x) = Ok n_test
    /\ last (train_indices (filter (fun i => i <? n_train + n_test) i_months) n_train)
       = Some i_last
    /\ take_rows y_train
         (train_indices (filter (fun i => i <? n_train + n_test) i_months) n_train)
       = Ok y_train_months
    /\ take_rows y_test
         (test_indices (filter (fun i => i <? n_train + n_test) i_months) i_last n_train)
       = Ok (PArray rows)
    /\ res = PTuple [PList X_train_months; y_train_months;
                     PList X_test_months; PArray rows]
    /\ In (i_last - n_train)
         (test_indices (filter (fun i => i <? n_train + n_test) i_months) i_last n_train)
    /\ i_last - n_train < 0
    /\ (length (filter (fun i => (n_train <=? i)%Z)
                  (filter (fun i => (i <? n_train + n_test)%Z) i_months))
        < length rows)%nat.
Proof.
  intros H. unfold train_test_split_date, mbind, result_bind in H.
  destruct (attr self "df_processed") as [df | ] eqn:Edf; [ | discriminate H].
  destruct (date_split_ratio df date_col split_date) as [q | ] eqn:Eq; [ | discriminate H].
  destruct (attr self "X") as [X | ] eqn:EX; [ | discriminate H].
  destruct (attr self "y") as [y | ] eqn:Ey; [ | discriminate H].
  destruct (gen_train_test_split X y (PFloat q)) as [r | ] eqn:Er; [ | discriminate H].
  destruct (unpack4 r) as [[[[X_train y_train] X_test] y_test] | ] eqn:Eu;
    [ | discriminate H].
  destruct (month_filter_ok_inv _ _ _ _ _ _ _ _ H)
    as (i_months & n_train & n_test & i_last & Xtm & ytm & Xem & yem
        & Hm & Hntr & Hnte & Hlast & Hytr & Hyte & ->).
  destruct (test_indices_negative _ _ _ Hlast) as [Hin Hneg].
  assert (exists rows, yem = PArray rows) as [rows ->].
  { unfold take_rows in Hyte. destruct y_test; try discriminate Hyte.
    destruct (mapM _ _) as [l | ]; [ | discriminate Hyte].
    injection Hyte as <-. eexists. reflexivity. }
  exists df, q, X_train, y_train, X_test, y_test, i_months, n_train, n_test, i_last,
    Xtm, ytm, Xem, rows.
  split; [reflexivity | ]. split; [exact Eq | ].
  split; [unfold train_test_split, mbind, result_bind; rewrite EX, Ey, Er; exact Eu | ].
  split; [exact Hm | ]. split; [exact Hntr | ]. split; [exact Hnte | ].
  split; [exact Hlast | ]. split; [exact Hytr | ]. split; [exact Hyte | ].
  split; [reflexivity | ]. split; [exact Hin | ]. split; [exact Hneg | ].
  rewrite (take_rows_length _ _ _ Hyte). unfold test_indices. rewrite length_map.
  assert (Hl : In i_last (filter (fun i => i <? n_train + n_test) i_months)).
  { assert (Hin' : In i_last
                     (train_indices (filter (fun i => i <? n_train + n_test) i_months)
                        n_train))
      by (apply list_elem_of_In, last_Some_elem_of; exact Hlast).
    unfold train_indices in Hin'. apply list_elem_of_In in Hin'.
    apply list_elem_of_filter in Hin' as [_ Hin']. apply list_elem_of_In. exact Hin'. }
  apply (filter_length_lt (fun i => n_train <=? i) (fun i => i_last <=? i) _ i_last).
  - intros i Hi. apply Z.leb_le in Hi. apply Z.leb_le. lia.
  - exact Hl.
  - apply Z.leb_le. lia.
  - apply Z.leb_gt. lia.
Qed.

End Month_filter.

(** C7, what the code does.  When the labels the month filter selects
    leave no train window, [i_train[-1]] raises an [IndexError]; and
    whenever the filter returns, the test target it returns has at least
    one row, also when no test window is selected. *)
Theorem month_filter_never_empty :
  (forall df date_col months i_months (X_train y_train X_test y_test : PyVal) xs0 xt0,
      month_index df date_col months = Ok i_months ->
      py_getitem X_train (PInt 0) = Ok (PArray xs0) ->
      py_getitem X_test (PInt 0) = Ok (PArray xt0) ->
      (forall i, In i i_months -> Z.of_nat (length xs0) <= i) ->
      month_filter df date_col months X_train y_train X_test y_test
      = raise "IndexError" "index -1 is out of bounds for axis 0 with size 0")
  /\ (forall df date_col months (X_train y_train X_test y_test res : PyVal),
        month_filter df date_col months X_train y_train X_test y_test = Ok res ->
        exists X_train_months y_train_months X_test_months rows,
          res = PTuple [PList X_train_months; y_train_months;
                        PList X_test_months; PArray rows]
          /\ (0 < length rows)%nat).
Proof.
  split.
  - intros df date_col months i_months X_train y_train X_test y_test xs0 xt0
      Hm Hx Ht Hall.
    apply (month_filter_no_train_window _ _ _ i_months _ _ _ _ xs0 xt0 Hm Hx Ht).
    apply train_indices_none, Hall.
  - intros df date_col months X_train y_train X_test y_test res H.
    destruct (month_filter_ok_inv _ _ _ _ _ _ _ _ H)
      as (i_months & n_train & n_test & i_last & Xtm & ytm & Xem & yem
          & _ & _ & _ & Hlast & _ & Hyte & ->).
    destruct (test_indices_negative _ _ _ Hlast) as [Hin _].
    assert (exists rows, yem = PArray rows) as [rows ->].
    { unfold take_rows in Hyte. destruct y_test; try discriminate Hyte.
      destruct (mapM _ _) as [l | ]; [ | discriminate Hyte].
      injection Hyte as <-. eexists. reflexivity. }
    exists Xtm, ytm, Xem, rows. split; [reflexivity | ].
    rewrite (take_rows_length _ _ _ Hyte).
    destruct (test_indices _ _ _); [destruct Hin | simpl; lia].
Qed.

(** C6 on the ten-row table, split at 2020-02-03 with every month
    allowed: two train windows and four test windows; the last selected
    train label is 1, the test index array is [-1, 0, 1, 2, 3] and the
    test target returned has five rows. *)
Lemma month_filter_test_index_negative_witness :
  exists df q X_train y_train X_test y_test i_months n_train n_test i_last
         X_train_months y_train_months X_test_months rows,
    attr ds10 "df_processed" = Ok df
    /\ date_split_ratio df "date / time" (PDate (mkDate 2020 2 3)) = Ok q
    /\ (r ← train_test_split (C := spec_collaborators) ds10 (PFloat q); unpack4 r)
       = Ok (X_train, y_train, X_test, y_test)
    /\ month_index df "date / time" (default (map Z.of_nat (seq 1 12)) None)
       = Ok i_months
    /\ (x ← py_getitem X_train (PInt 0); shape0 x) = Ok n_train
    /\ (x ← py_getitem X_test (PInt 0); shape0 x) = Ok n_test
    /\ last (train_indices (filter (fun i => i <? n_train + n_test) i_months) n_train)
       = Some i_last
    /\ take_rows y_train
         (train_indices (filter (fun i => i <? n_train + n_test) i_months) n_train)
       = Ok y_train_months
    /\ take_rows y_test
         (test_indices (filter (fun i => i <? n_train + n_test) i_months) i_last n_train)
       = Ok (PArray rows)
    /\ PTuple [ PList [ PArray [PInt 0; PInt 1]; PArray [PInt 3; PInt 4];
                        PArray [PInt 2; PInt 3]; PArray [PInt 2; PInt 3] ];
                PArray [PInt 3; PInt 4];
                PList [ PArray [PInt 5; PInt 2; PInt 3; PInt 4; PInt 5];
                        PArray [PInt 8; PInt 5; PInt 6; PInt 7; PInt 8];
                        PArray [PInt 7; PInt 4; PInt 5; PInt 6; PInt 7];
                        PArray [PInt 7; PInt 4; PInt 5; PInt 6; PInt 7] ];
                PArray [PInt 8; PInt 5; PInt 6; PInt 7; PInt 8] ]
       = PTuple [PList X_train_months; y_train_months;
                 PList X_test_months; PArray rows]
    /\ In (i_last - n_train)
         (test_indices (filter (fun i => i <? n_train + n_test) i_months) i_last n_train)
    /\ i_last - n_train < 0
    /\ (length (filter (fun i => (n_train <=? i)%Z)
                  (filter (fun i => (i <? n_train + n_test)%Z) i_months))
        < length rows)%nat.
Proof.
  apply (month_filter_test_index_negative (C := spec_collaborators)
           ds10 "date / time" (PDate (mkDate 2020 2 3)) None).
  vm_compute. reflexivity.
Defined.

(** C7 on the parts of the ratio split of the ten-row table: the summer
    months select no row. *)
Lemma month_filter_never_empty_witness :
  month_filter (PFrame table10) "date / time" [6; 7; 8]
    (PList [PArray [PInt 0; PInt 1]]) (PArray [PInt 3; PInt 4])
    (PList [PArray [PInt 2; PInt 3; PInt 4; PInt 5]])
    (PArray [PInt 5; PInt 6; PInt 7; PInt 8])
  = raise "IndexError" "index -1 is out of bounds for axis 0 with size 0".
Proof.
  apply (proj1 month_filter_never_empty (PFrame table10) "date / time" [6; 7; 8] []
           (PList [PArray [PInt 0; PInt 1]]) (PArray [PInt 3; PInt 4])
           (PList [PArray [PInt 2; PInt 3; PInt 4; PInt 5]])
           (PArray [PInt 5; PInt 6; PInt 7; PInt 8])
           [PInt 0; PInt 1] [PInt 2; PInt 3; PInt 4; PInt 5]);
    try reflexivity.
  intros i [].
Defined.

(** The same call, evaluated (six windows, split at 2020-02-03, every
    month allowed).  The ratio split gives two train windows and the four test
    windows 5, 6, 7, 8; the index arrays of the filter are [0, 1] and
    [-1, 0, 1, 2, 3]; the test target returned has five entries, the first
    of which is the last test window, taken by the index -1. *)
Example month_filter_negative_test_index :
  month_index (PFrame table10) "date / time" (map Z.of_nat (seq 1 12)) = Ok (range 10)
  /\ train_indices (filter (fun i => i <? 2 + 4) (range 10)) 2 = [0; 1]
  /\ test_indices (filter (fun i => i <? 2 + 4) (range 10)) 1 2 = [-1; 0; 1; 2; 3]
  /\ train_test_split (C := spec_collaborators) ds10 (PFloat (3 # 10))
     = Ok (PTuple [ PList [ PArray [PInt 0; PInt 1]; PArray [PInt 3; PInt 4];
                            PArray [PInt 2; PInt 3]; PArray [PInt 2; PInt 3] ];
                    PArray [PInt 3; PInt 4];
                    PList [ PArray [PInt 2; PInt 3; PInt 4; PInt 5];
                            PArray [PInt 5; PInt 6; PInt 7; PInt 8];
                            PArray [PInt 4; PInt 5; PInt 6; PInt 7];
                            PArray [PInt 4; PInt 5; PInt 6; PInt 7] ];
                    PArray [PInt 5; PInt 6; PInt 7; PInt 8] ])
  /\ train_test_split_date (C := spec_collaborators) ds10 "date / time"
       (PDate (mkDate 2020 2 3)) None
     = Ok (PTuple [ PList [ PArray [PInt 0; PInt 1]; PArray [PInt 3; PInt 4];
                            PArray [PInt 2; PInt 3]; PArray [PInt 2; PInt 3] ];
                    PArray [PInt 3; PInt 4];
                    PList [ PArray [PInt 5; PInt 2; PInt 3; PInt 4; PInt 5];
                            PArray [PInt 8; PInt 5; PInt 6; PInt 7; PInt 8];
                            PArray [PInt 7; PInt 4; PInt 5; PInt 6; PInt 7];
                            PArray [PInt 7; PInt 4; PInt 5; PInt 6; PInt 7] ];
                    PArray [PInt 8; PInt 5; PInt 6; PInt 7; PInt 8] ]).
Proof. repeat split; vm_compute; reflexivity. Qed.

(** The month filter on the same table, evaluated.  With the months 6, 7 and 8 no row is selected
    and the call raises an [IndexError] instead of returning empty arrays.
    With the month 1 the two train windows are selected and no test window
    is (no selected label is 2 or more), yet the test target returned is
    not empty: it holds the last test window, taken by the index -1. *)
Example month_filter_empty_subset :
  month_index (PFrame table10) "date / time" [6; 7; 8] = Ok []
  /\ train_test_split_date (C := spec_collaborators) ds10 "date / time"
       (PDate (mkDate 2020 2 3)) (Some [6; 7; 8])
     = raise "IndexError" "index -1 is out of bounds for axis 0 with size 0"
  /\ month_index (PFrame table10) "date / time" [1] = Ok [0; 1]
  /\ filter (fun i => 2 <=? i) [0; 1] = []
  /\ test_indices [0; 1] 1 2 = [-1]
  /\ train_test_split_date (C := spec_collaborators) ds10 "date / time"
       (PDate (mkDate 2020 2 3)) (Some [1])
     = Ok (PTuple [ PList [ PArray [PInt 0; PInt 1]; PArray [PInt 3; PInt 4];
                            PArray [PInt 2; PInt 3]; PArray [PInt 2; PInt 3] ];
                    PArray [PInt 3; PInt 4];
                    PList [ PArray [PInt 5]; PArray [PInt 8];
                            PArray [PInt 7]; PArray [PInt 7] ];
                    PArray [PInt 8] ]).
Proof. repeat split; vm_compute; reflexivity. Qed.

(* ===================================================================== *)
(** * 21. What is stored in [self.X] *)
(* ===================================================================== *)

Lemma process_store_ok r (s s' : Obj) :
  process_store r s = (Ok tt, s') ->
  exists X_encoder X_decoder y y_shifted y_last,
    unpack5 r = Ok (X_encoder, X_decoder, y, y_shifted, y_last)
    /\ s' !! "X" = Some (PList [X_encoder; X_decoder; y_shifted; y_last])
    /\ s' !! "y" = Some y.
Proof.
  unfold process_store, mbind, M_bind, lift, setattr.
  destruct (unpack5 r) as [[[[[Xe Xd] y] ysh] yl] | ]; [ | discriminate].
  intros H. injection H as <-.
  exists Xe, Xd, y, ysh, yl. split; [reflexivity | ].
  split; rewrite !lookup_insert; repeat case_decide; congruence.
Qed.

Lemma replay_store_ok r (s s' : Obj) :
  replay_store r s = (Ok tt, s') ->
  exists X_encoder X_decoder y y_last flag b,
    unpack4 r = Ok (X_encoder, X_decoder, y, y_last)
    /\ s' !! "autoregressive" = Some flag
    /\ py_truth flag = Ok b
    /\ s' !! "X" = Some (if b then PList [X_encoder; X_decoder; y_last]
                         else PList [X_encoder; X_decoder])
    /\ s' !! "y" = Some y.
Proof.
  unfold replay_store, mbind, M_bind, lift, setattr, getattr, attr.
  destruct (unpack4 r) as [[[[Xe Xd] y] yl] | ]; [ | discriminate].
  destruct (s !! "autoregressive") as [flag | ] eqn:Ef; [ | discriminate].
  destruct (py_truth flag) as [b | ] eqn:Eb; [ | discriminate].
  intros H. exists Xe, Xd, y, yl, flag, b.
  destruct b; injection H as <-;
    (split; [reflexivity | ]);
    (split; [rewrite !lookup_insert; repeat case_decide; congruence | ]);
    (split; [exact Eb | ]);
    split; rewrite !lookup_insert; repeat case_decide; congruence.
Qed.

Section Flag.
Context {C : Collaborators}.

Lemma process_temporal_ignores modes split_ratio ft fe fd :
  ignores "autoregressive" (process_temporal modes split_ratio ft fe fd).
Proof.
  revert fe fd. induction modes as [ | m rest IH]; intros fe fd; simpl.
  - apply ignores_ret.
  - repeat first [ apply IH | ignores_step ].
Qed.

Lemma process_transform_ignores fe fd ft il ol split_ratio modes mo mn :
  ignores "autoregressive" (process_transform fe fd ft il ol split_ratio modes mo mn).
Proof.
  unfold process_transform.
  apply ignores_bind; [apply process_temporal_ignores | intros [fe' fd'] ].
  repeat ignores_step.
Qed.

Lemma process_split_ratio_ignores split_ratio split_date :
  ignores "autoregressive" (process_split_ratio split_ratio split_date).
Proof. unfold process_split_ratio. repeat ignores_step. Qed.

Lemma process_store_ignores r : ignores "autoregressive" (process_store r).
Proof. unfold process_store. repeat ignores_step. Qed.

(** The flag is stored by [process] and never read by it. *)
Lemma process_flag time_col fe fd ft il ol sr sd modes mo mn (a1 a2 : bool) :
  related "autoregressive"
    (process time_col fe fd ft il ol sr sd modes mo mn a1)
    (process time_col fe fd ft il ol sr sd modes mo mn a2).
Proof.
  unfold process.
  destruct (is_none sr && is_none sd); [apply ignores_lift | ].
  apply related_bind; [ | intros r; apply process_store_ignores].
  unfold process_steps.
  apply related_bind.
  - unfold process_init.
    repeat first [ apply related_setattr
                 | apply related_bind; [ | intros ]
                 | apply ignores_setattr
                 | apply ignores_getattr; discriminate
                 | apply ignores_lift ].
  - intros _. apply ignores_bind; [apply process_split_ratio_ignores | intros q].
    apply process_transform_ignores.
Qed.

End Flag.

Lemma attr_ok_inv (s : Obj) name v : attr s name = Ok v -> s !! name = Some v.
Proof.
  unfold attr. destruct (s !! name); [ | discriminate]. intros H. injection H as ->.
  reflexivity.
Qed.

(** Inversion of a sequence of steps that returned. *)
Ltac steps_inv H :=
  repeat first
    [ apply bind_ok_inv in H as (? & ? & ? & H)
    | match type of H with
      | context [let '(_, _) := ?x in _] => destruct x
      end ].

Section Extracted.
Context {C : Collaborators}.

(** The loop over the modes returns the two lists with one name per mode
    added. *)
Lemma process_temporal_names modes split_ratio ft fe fd (s s' : Obj) fe' fd' :
  process_temporal modes split_ratio ft fe fd s = (Ok (fe', fd'), s') ->
  fe' = fe ++ temporal_names (Some modes) /\ fd' = fd ++ temporal_names (Some modes).
Proof.
  unfold temporal_names. simpl.
  revert fe fd s. induction modes as [ | m rest IH]; intros fe fd s H.
  - simpl in H. injection H as <- <- _. rewrite !app_nil_r. split; reflexivity.
  - simpl in H. steps_inv H.
    apply IH in H as [-> ->]. rewrite <- !app_assoc. split; reflexivity.
Qed.

(** What [process] hands to the extractor: the processed table it leaves
    in [df_processed] and the feature lists with the names of the temporal
    encodings. *)
Lemma process_transform_extracts fe fd ft il ol q modes mo mn (s s' : Obj) r :
  process_transform fe fd ft il ol q modes mo mn s = (Ok r, s') ->
  exists df,
    s' !! "df_processed" = Some df
    /\ extract_sequences_encoder_decoder df
         (py_strs (fe ++ temporal_names modes)) (py_strs (fd ++ temporal_names modes))
         (PStr ft) (PInt il) (PInt ol) (PInt 1) (PInt 1) = Ok r.
Proof.
  intros H. unfold process_transform in H. cbv zeta in H.
  apply bind_ok_inv in H as ([fe' fd'] & s1 & Hnames & H).
  apply process_temporal_names in Hnames as [-> ->].
  replace (temporal_names (Some (default [] modes))) with (temporal_names modes) in H
    by (destruct modes; reflexivity).
  steps_inv H.
  unfold getattr, setattr, lift in *. simplify_eq.
  repeat match goal with
         | E : attr _ _ = Ok _ |- _ => apply attr_ok_inv in E
         end.
  eexists. split; eassumption.
Qed.

Lemma process_store_keeps r (s s' : Obj) n :
  process_store r s = (Ok tt, s') ->
  ~ In n ["X"; "X_encoder"; "X_decoder"; "y_last"; "y_shifted"; "y"] ->
  s' !! n = s !! n.
Proof.
  unfold process_store, mbind, M_bind, lift, setattr.
  destruct (unpack5 r) as [[[[[Xe Xd] y] ysh] yl] | ]; [ | discriminate].
  intros H Hn. injection H as <-. simpl in Hn.
  rewrite !lookup_insert_ne by (intros <-; apply Hn; tauto). reflexivity.
Qed.

(** What [process_from_config] hands to the extractor: the attributes as
    it leaves them. *)
Lemma replay_scale_extract_extracts (s s' : Obj) r :
  replay_scale_extract s = (Ok r, s') ->
  exists df fe fd target input_seq_len output_seq_len,
    s' !! "df_processed" = Some df
    /\ s' !! "features_input_encoder" = Some fe
    /\ s' !! "features_input_decoder" = Some fd
    /\ s' !! "feature_target" = Some target
    /\ s' !! "input_seq_len" = Some input_seq_len
    /\ s' !! "output_seq_len" = Some output_seq_len
    /\ extract_sequences_encoder_decoder df fe fd target input_seq_len output_seq_len
         (PInt 1) (PInt 1) = Ok r.
Proof.
  intros H. unfold replay_scale_extract in H.
  steps_inv H.
  unfold getattr, setattr, lift in *. simplify_eq.
  repeat match goal with
         | E : attr _ _ = Ok _ |- _ => apply attr_ok_inv in E
         end.
  do 6 eexists. repeat (split; [eassumption | ]). eassumption.
Qed.

Lemma replay_store_keeps r (s s' : Obj) n :
  replay_store r s = (Ok tt, s') -> n <> "X" -> n <> "y" -> s' !! n = s !! n.
Proof.
  unfold replay_store, mbind, M_bind, lift, setattr, getattr, attr.
  destruct (unpack4 r) as [[[[Xe Xd] y] yl] | ]; [ | discriminate].
  destruct (s !! "autoregressive") as [flag | ]; [ | discriminate].
  destruct (py_truth flag) as [b | ]; [ | discriminate].
  intros H HX Hy. destruct b; injection H as <-;
    rewrite !lookup_insert_ne by congruence; reflexivity.
Qed.

(** When [process] returns, the five arrays it unpacked are the result of
    the extractor on the processed table it leaves, and [X] holds four of
    them in the order [X_encoder, X_decoder, y_shifted, y_last]. *)
Lemma process_stores_extracted
    time_col fe fd ft il ol sr sd modes mo mn (ar : bool) (self self' : Obj) :
  process time_col fe fd ft il ol sr sd modes mo mn ar self = (Ok tt, self') ->
  exists df r X_encoder X_decoder y y_shifted y_last,
    self' !! "df_processed" = Some df
    /\ extract_sequences_encoder_decoder df
         (py_strs (fe ++ temporal_names modes)) (py_strs (fd ++ temporal_names modes))
         (PStr ft) (PInt il) (PInt ol) (PInt 1) (PInt 1) = Ok r
    /\ unpack5 r = Ok (X_encoder, X_decoder, y, y_shifted, y_last)
    /\ self' !! "X" = Some (PList [X_encoder; X_decoder; y_shifted; y_last])
    /\ self' !! "y" = Some y.
Proof.
  intros H. unfold process in H.
  destruct (is_none sr && is_none sd); [discriminate H | ].
  apply bind_ok_inv in H as (r & s & Hsteps & Hstore).
  unfold process_steps in Hsteps.
  apply bind_ok_inv in Hsteps as (? & s0 & _ & Hsteps).
  apply bind_ok_inv in Hsteps as (q & s1 & _ & Htrans).
  destruct (process_transform_extracts _ _ _ _ _ _ _ _ _ _ _ _ Htrans) as (df & Hdf & Hr).
  destruct (process_store_ok r s self' Hstore) as (Xe & Xd & y & ysh & yl & Hu & HX & Hy).
  exists df, r, Xe, Xd, y, ysh, yl.
  split; [ | repeat split; assumption].
  rewrite (process_store_keeps r s self' "df_processed" Hstore); [exact Hdf | ].
  simpl. intuition discriminate.
Qed.

(** When [process_from_config] returns, the four arrays it unpacked are
    the result of the extractor on the attributes it leaves, and [X]
    holds [X_encoder, X_decoder, y_last] or [X_encoder, X_decoder]. *)
Lemma process_from_config_stores_extracted fs path a b (self self' : Obj) :
  process_from_config fs path a b self = (Ok tt, self') ->
  exists df fe fd target input_seq_len output_seq_len r
         X_encoder X_decoder y y_last flag (t : bool),
    self' !! "df_processed" = Some df
    /\ self' !! "features_input_encoder" = Some fe
    /\ self' !! "features_input_decoder" = Some fd
    /\ self' !! "feature_target" = Some target
    /\ self' !! "input_seq_len" = Some input_seq_len
    /\ self' !! "output_seq_len" = Some output_seq_len
    /\ extract_sequences_encoder_decoder df fe fd target input_seq_len output_seq_len
         (PInt 1) (PInt 1) = Ok r
    /\ unpack4 r = Ok (X_encoder, X_decoder, y, y_last)
    /\ self' !! "autoregressive" = Some flag
    /\ py_truth flag = Ok t
    /\ self' !! "X" = Some (if t then PList [X_encoder; X_decoder; y_last]
                            else PList [X_encoder; X_decoder])
    /\ self' !! "y" = Some y.
Proof.
  intros H. unfold process_from_config in H.
  apply bind_ok_inv in H as (? & s1 & _ & H).
  apply bind_ok_inv in H as (? & s2 & _ & H).
  apply bind_ok_inv in H as (? & s3 & _ & H).
  unfold replay_transforms in H.
  apply bind_ok_inv in H as (? & s4 & _ & H).
  apply bind_ok_inv in H as (? & s5 & _ & H).
  apply bind_ok_inv in H as (? & s6 & _ & H).
  apply bind_ok_inv in H as (r & s7 & Hex & H).
  destruct (replay_scale_extract_extracts _ _ _ Hex)
    as (df & fe & fd & target & il & ol & Hdf & Hfe & Hfd & Hft & Hil & Hol & Hr).
  destruct (replay_store_ok r s7 self' H)
    as (Xe & Xd & y & yl & flag & t & Hu & Hflag & Ht & HX & Hy).
  exists df, fe, fd, target, il, ol, r, Xe, Xd, y, yl, flag, t.
  repeat (split;
          [ first [ assumption
                  | rewrite (replay_store_keeps r s7 self' _ H) by discriminate;
                    assumption ] | ]).
  exact Hy.
Qed.

End Extracted.

(** C9.  Whatever the collaborators are: when [process] returns, [self.X]
    is the list [X_encoder, X_decoder, y_shifted, y_last] of four of the
    five arrays that the extractor returned for the processed table,
    for either value of the flag; when [process_from_config] returns,
    [self.X] is [X_encoder, X_decoder, y_last] of the four arrays of the
    extractor if the loaded flag is true and [X_encoder, X_decoder] if it
    is not; so the two lists never have the same number of elements.  The
    flag passed to [process] changes nothing but the attribute
    [autoregressive] itself. *)
Theorem stored_X_shapes (C1 C2 : Collaborators) :
  (forall time_col fe fd ft il ol sr sd modes mo mn (ar : bool) (self self' : Obj),
      process (C := C1) time_col fe fd ft il ol sr sd modes mo mn ar self = (Ok tt, self') ->
      exists df r X_encoder X_decoder y y_shifted y_last,
        self' !! "df_processed" = Some df
        /\ @extract_sequences_encoder_decoder C1 df
             (py_strs (fe ++ temporal_names modes)) (py_strs (fd ++ temporal_names modes))
             (PStr ft) (PInt il) (PInt ol) (PInt 1) (PInt 1) = Ok r
        /\ unpack5 r = Ok (X_encoder, X_decoder, y, y_shifted, y_last)
        /\ self' !! "X" = Some (PList [X_encoder; X_decoder; y_shifted; y_last])
        /\ self' !! "y" = Some y)
  /\ (forall fs path a b (self self' : Obj),
        process_from_config (C := C2) fs path a b self = (Ok tt, self') ->
        exists df fe fd target input_seq_len output_seq_len r
               X_encoder X_decoder y y_last flag (t : bool),
          self' !! "df_processed" = Some df
          /\ self' !! "features_input_encoder" = Some fe
          /\ self' !! "features_input_decoder" = Some fd
          /\ self' !! "feature_target" = Some target
          /\ self' !! "input_seq_len" = Some input_seq_len
          /\ self' !! "output_seq_len" = Some output_seq_len
          /\ @extract_sequences_encoder_decoder C2 df fe fd target
               input_seq_len output_seq_len (PInt 1) (PInt 1) = Ok r
          /\ unpack4 r = Ok (X_encoder, X_decoder, y, y_last)
          /\ self' !! "autoregressive" = Some flag
          /\ py_truth flag = Ok t
          /\ self' !! "X" = Some (if t then PList [X_encoder; X_decoder; y_last]
                                  else PList [X_encoder; X_decoder])
          /\ self' !! "y" = Some y)
  /\ (forall time_col fe fd ft il ol sr sd modes mo mn (ar : bool) (self1 self1' : Obj)
             fs path a b (self2 self2' : Obj) X1 X2,
        process (C := C1) time_col fe fd ft il ol sr sd modes mo mn ar self1
        = (Ok tt, self1') ->
        process_from_config (C := C2) fs path a b self2 = (Ok tt, self2') ->
        self1' !! "X" = Some X1 ->
        self2' !! "X" = Some X2 ->
        py_len X1 = Some 4%nat
        /\ (py_len X2 = Some 3%nat \/ py_len X2 = Some 2%nat)
        /\ py_len X1 <> py_len X2)
  /\ (forall time_col fe fd ft il ol sr sd modes mo mn (self : Obj),
        agree_up_to "autoregressive"
          (process (C := C1) time_col fe fd ft il ol sr sd modes mo mn true self)
          (process (C := C1) time_col fe fd ft il ol sr sd modes mo mn false self)).
Proof.
  split; [exact (@process_stores_extracted C1) | ].
  split; [exact (@process_from_config_stores_extracted C2) | ].
  split;
    [ | intros time_col fe fd ft il ol sr sd modes mo mn self;
        apply (process_flag (C := C1)); intros n _; reflexivity ].
  intros time_col fe fd ft il ol sr sd modes mo mn ar self1 self1'
    fs path a b self2 self2' X1 X2 H1 H2 HX1 HX2.
  destruct (process_stores_extracted (C := C1) _ _ _ _ _ _ _ _ _ _ _ _ _ _ H1)
    as (df & r1 & Xe & Xd & y & ysh & yl & _ & _ & _ & E1 & _).
  destruct (process_from_config_stores_extracted (C := C2) _ _ _ _ _ _ H2)
    as (df' & fe' & fd' & ft' & il' & ol' & r2 & Xe' & Xd' & y' & yl' & flag & t
        & _ & _ & _ & _ & _ & _ & _ & _ & _ & _ & E2 & _).
  rewrite E1 in HX1. injection HX1 as <-.
  rewrite E2 in HX2. injection HX2 as <-.
  split; [reflexivity | ].
  destruct t; simpl; (split; [auto | discriminate]).
Qed.

(** C9 on the ten-row table: [process] with the extractor of five arrays,
    [process_from_config] on the saved configuration (flag true) with the
    extractor of four. *)
Lemma stored_X_shapes_witness :
  exists X1 X2,
    snd (process (C := spec_collaborators) "date / time" ["load"] ["load"] "load" 3 2
           PNone (PDate (mkDate 2020 2 3)) (Some ["hours"]) PNone PNone true
           (DataSet (PFrame table10))) !! "X" = Some X1
    /\ snd (process_from_config (C := replay_collaborators) fs_saved "cfg" PNone PNone
              ds_new) !! "X" = Some X2
    /\ py_len X1 = Some 4%nat
    /\ (py_len X2 = Some 3%nat \/ py_len X2 = Some 2%nat)
    /\ py_len X1 <> py_len X2.
Proof.
  do 2 eexists.
  split; [vm_compute; reflexivity | ].
  split; [vm_compute; reflexivity | ].
  apply (proj1 (proj2 (proj2 (stored_X_shapes spec_collaborators replay_collaborators)))
           "date / time" ["load"] ["load"] "load" 3 2
           PNone (PDate (mkDate 2020 2 3)) (Some ["hours"]) PNone PNone true
           (DataSet (PFrame table10))
           (snd (process (C := spec_collaborators) "date / time" ["load"] ["load"] "load"
                   3 2 PNone (PDate (mkDate 2020 2 3)) (Some ["hours"]) PNone PNone true
                   (DataSet (PFrame table10))))
           fs_saved "cfg" PNone PNone ds_new
           (snd (process_from_config (C := replay_collaborators) fs_saved "cfg"
                   PNone PNone ds_new)));
    vm_compute; reflexivity.
Defined.

(* ===================================================================== *)
(** * 22. What the configuration store leaves alone *)
(* ===================================================================== *)

Lemma preserves_ret {A} name (a : A) : preserves name (mret a).
Proof. intros s. reflexivity. Qed.

Lemma preserves_lift {A} name (r : result A) : preserves name (lift r).
Proof. intros s. reflexivity. Qed.

Lemma preserves_getattr name n : preserves name (getattr n).
Proof. intros s. reflexivity. Qed.

Lemma preserves_setattr name n v : n <> name -> preserves name (setattr n v).
Proof. intros Hn s. unfold setattr. simpl. apply lookup_insert_ne, Hn. Qed.

Lemma preserves_bind {A B} name (m : M Obj A) (f : A -> M Obj B) :
  preserves name m -> (forall a, preserves name (f a)) -> preserves name (m ≫= f).
Proof.
  intros Hm Hf s. unfold mbind, M_bind. specialize (Hm s).
  destruct (m s) as [[a | e] s1]; simpl in *.
  - rewrite Hf. exact Hm.
  - exact Hm.
Qed.

Ltac preserves_step :=
  match goal with
  | |- preserves _ (_ ≫= _) => apply preserves_bind; [ | intros ]
  | |- preserves _ (lift _) => apply preserves_lift
  | |- preserves _ (getattr _) => apply preserves_getattr
  | |- preserves _ (setattr _ _) => apply preserves_setattr; congruence
  | |- preserves _ (mret _) => apply preserves_ret
  | |- preserves _ (let '(_, _) := ?x in _) => destruct x
  | |- preserves _ (if ?b then _ else _) => destruct b
  end.

Lemma writes_only_lift {A} paths (r : result A) : writes_only paths (lift r).
Proof. intros fs. split; [reflexivity | intros q _; reflexivity]. Qed.

Lemma writes_only_put paths p f : In p paths -> writes_only paths (fs_put p f).
Proof.
  intros Hp fs. unfold fs_put. simpl. split; [reflexivity | ].
  intros q Hq. apply lookup_insert_ne. intros ->. exact (Hq Hp).
Qed.

Lemma writes_only_bind {A B} paths (m : M FS A) (f : A -> M FS B) :
  writes_only paths m -> (forall a, writes_only paths (f a)) ->
  writes_only paths (m ≫= f).
Proof.
  intros Hm Hf fs. unfold mbind, M_bind. destruct (Hm fs) as [Hw Hq].
  destruct (m fs) as [[a | e] fs1]; simpl in *.
  - destruct (Hf a fs1) as [Hw' Hq']. split.
    + rewrite Hw'. exact Hw.
    + intros q Hn. rewrite (Hq' q Hn). apply Hq, Hn.
  - split; assumption.
Qed.

Lemma writes_only_open paths p : In p paths -> writes_only paths (open_w p).
Proof.
  intros Hp fs. unfold open_w. destruct (fs_writable fs p).
  - apply writes_only_put, Hp.
  - split; [reflexivity | intros q _; reflexivity].
Qed.

Lemma writes_only_json_dump paths v p : In p paths -> writes_only paths (json_dump v p).
Proof.
  intros Hp. unfold json_dump.
  apply writes_only_bind; [apply writes_only_open, Hp | intros _].
  destruct (json_encode v); [apply writes_only_put, Hp | ].
  apply writes_only_bind; [apply writes_only_put, Hp | intros _; apply writes_only_lift].
Qed.

Lemma writes_only_pickle_dump paths v p :
  In p paths -> writes_only paths (pickle_dump v p).
Proof.
  intros Hp. unfold pickle_dump. apply writes_only_put, Hp.
Qed.

Lemma save_dataset_config_writes self save_path :
  writes_only (config_files save_path) (save_dataset_config self save_path).
Proof.
  unfold save_dataset_config, config_files.
  repeat first
    [ apply writes_only_lift
    | apply writes_only_json_dump; simpl; tauto
    | apply writes_only_pickle_dump; simpl; tauto
    | apply writes_only_open; simpl; tauto
    | apply writes_only_bind; [ | intros ] ].
Qed.

(** X1.  Whatever its outcome, [save_dataset_config] writes to its five
    files only: every other file of the file system is as it was, and so
    is what can be written. *)
Theorem save_dataset_config_writes_only (self : Obj) (save_path : string) (fs : FS) :
  fs_writable (snd (save_dataset_config self save_path fs)) = fs_writable fs
  /\ forall q, ~ In q (config_files save_path) ->
       fs_files (snd (save_dataset_config self save_path fs)) !! q = fs_files fs !! q.
Proof. exact (save_dataset_config_writes self save_path fs). Qed.

(** X1 on a file system that holds one more file, with a [DataSet] that
    was never processed. *)
Lemma save_dataset_config_writes_only_witness :
  fs_files (snd (save_dataset_config (DataSet PNone) "cfg"
                   (mkFS (<["cfg/notes.txt" := FGarbage]> ∅) (fs_writable fs_empty))))
    !! "cfg/notes.txt" = Some FGarbage.
Proof.
  rewrite (proj2 (save_dataset_config_writes_only (DataSet PNone) "cfg"
                    (mkFS (<["cfg/notes.txt" := FGarbage]> ∅) (fs_writable fs_empty)))
             "cfg/notes.txt").
  - reflexivity.
  - vm_compute. intuition discriminate.
Defined.

Lemma load_dataset_config_preserves fs path n :
  ~ In n loaded_attrs -> preserves n (load_dataset_config fs path).
Proof.
  intros Hn. unfold load_dataset_config.
  repeat first
    [ apply preserves_lift
    | apply preserves_setattr; intros <-; apply Hn; simpl; tauto
    | apply preserves_bind; [ | intros ] ].
Qed.

(** X2.  Whatever its outcome, [load_dataset_config] assigns nothing but
    the eleven configuration attributes ([df_raw], [df_processed], [X] and
    [y] among the others are as they were), and whether it succeeds does
    not depend on the object it loads into. *)
Theorem load_dataset_config_frame (fs : FS) (load_path : string) (self other : Obj) :
  (forall n, ~ In n loaded_attrs ->
     snd (load_dataset_config fs load_path self) !! n = self !! n)
  /\ fst (load_dataset_config fs load_path self)
     = fst (load_dataset_config fs load_path other).
Proof.
  split.
  - intros n Hn. apply (load_dataset_config_preserves fs load_path n Hn).
  - unfold load_dataset_config, mbind, M_bind, lift, setattr.
    repeat match goal with
           | |- context [match ?r with Ok _ => _ | Raise _ => _ end] => destruct r
           end; reflexivity.
Qed.

(** X2 on the saved configuration without its [NaNHandler.pkl]: the load
    fails, and the tables of the object are untouched. *)
Lemma load_dataset_config_frame_witness :
  snd (load_dataset_config fs_without_nan_handler "cfg" ds_new) !! "df_processed"
  = Some (PFrame table10)
  /\ snd (load_dataset_config fs_saved "cfg" ds10) !! "X" = ds10 !! "X".
Proof.
  split.
  - rewrite (proj1 (load_dataset_config_frame fs_without_nan_handler "cfg" ds_new ds_new)
               "df_processed").
    + reflexivity.
    + vm_compute. intuition discriminate.
  - apply (proj1 (load_dataset_config_frame fs_saved "cfg" ds10 ds10) "X").
    vm_compute. intuition discriminate.
Defined.

(* ===================================================================== *)
(** * 23. More round trips *)
(* ===================================================================== *)

Lemma encoding_pair_as_list p : encoding_pair (pair_as_list p) = encoding_pair p.
Proof. destruct p; reflexivity. Qed.

Lemma encoding_pairs_as_lists te :
  encoding_pairs te = true -> encoding_pairs (pairs_as_lists te) = true.
Proof.
  destruct te; try discriminate. simpl.
  induction l as [ | p r IH]; simpl; [reflexivity | ].
  intros H. apply andb_true_iff in H as [Hp Hr].
  rewrite encoding_pair_as_list, Hp. simpl. apply IH, Hr.
Qed.

Lemma pairs_as_lists_idem te :
  encoding_pairs te = true -> pairs_as_lists (pairs_as_lists te) = pairs_as_lists te.
Proof.
  destruct te; try discriminate. simpl. intros H. f_equal.
  induction l as [ | p r IH]; simpl; [reflexivity | ].
  simpl in H. apply andb_true_iff in H as [Hp Hr].
  rewrite (IH Hr). f_equal.
  destruct p; try discriminate Hp; reflexivity.
Qed.

(** The eleven attributes of a loaded object. *)
Lemma loaded_lookups fe fd ft te ar il ol nh oh sx sy (s0 : Obj) :
  let s := with_transformers nh oh sx sy (with_metadata fe fd ft te ar il ol s0) in
  s !! "features_input_encoder" = Some fe
  /\ s !! "features_input_decoder" = Some fd
  /\ s !! "feature_target" = Some ft
  /\ s !! "temporal_encodings" = Some te
  /\ s !! "autoregressive" = Some ar
  /\ s !! "input_seq_len" = Some il
  /\ s !! "output_seq_len" = Some ol
  /\ s !! "nan_handler" = Some nh
  /\ s !! "one_hot_encoder" = Some oh
  /\ s !! "scaler_X" = Some sx
  /\ s !! "scaler_y" = Some sy.
Proof.
  unfold with_transformers, with_metadata.
  repeat split; rewrite !lookup_insert; repeat case_decide; congruence.
Qed.

Lemma fitted_config_lookup (s : Obj) fe fd ft te ar il ol nh oh sx sy :
  s !! "features_input_encoder" = Some fe
  /\ s !! "features_input_decoder" = Some fd
  /\ s !! "feature_target" = Some ft
  /\ s !! "temporal_encodings" = Some te
  /\ s !! "autoregressive" = Some ar
  /\ s !! "input_seq_len" = Some il
  /\ s !! "output_seq_len" = Some ol
  /\ s !! "nan_handler" = Some nh
  /\ s !! "one_hot_encoder" = Some oh
  /\ s !! "scaler_X" = Some sx
  /\ s !! "scaler_y" = Some sy ->
  fitted_config s
  = json_native fe && json_native fd && json_native ft && encoding_pairs te
    && json_native ar && json_native il && json_native ol.
Proof.
  intros (H1 & H2 & H3 & H4 & H5 & H6 & H7 & H8 & H9 & H10 & H11).
  unfold fitted_config, attr_is.
  rewrite H1, H2, H3, H4, H5, H6, H7, H8, H9, H10, H11.
  rewrite !andb_true_r. reflexivity.
Qed.

(** X3.  A configuration that went through one save and load is a fixed
    point of the round trip: saving the loaded object again and loading
    that gives the same object (the pairs of the temporal encodings are
    lists from the first load on). *)
Theorem save_load_idempotent (self other : Obj) (fs : FS) (path : string) :
  fitted_config self = true ->
  forallb (fs_writable fs) (config_files path) = true ->
  exists fs1 s1 fs2,
    save_dataset_config self path fs = (Ok tt, fs1)
    /\ load_dataset_config fs1 path other = (Ok tt, s1)
    /\ save_dataset_config s1 path fs1 = (Ok tt, fs2)
    /\ load_dataset_config fs2 path other = (Ok tt, s1).
Proof.
  intros Hfit Hw.
  destruct (save_dataset_config_reads self path fs Hfit Hw)
    as (fs1 & fe & fd & ft & te & ar & il & ol & nh & oh & sx & sy
        & Hsave & Hattrs & Hte & Hload).
  pose (s1 := with_transformers nh oh sx sy
                (with_metadata fe fd ft (pairs_as_lists te) ar il ol other)).
  pose proof (loaded_lookups fe fd ft (pairs_as_lists te) ar il ol nh oh sx sy other)
    as Hs1.
  cbv zeta in Hs1. fold s1 in Hs1.
  assert (Hfit1 : fitted_config s1 = true).
  { rewrite (fitted_config_lookup _ _ _ _ _ _ _ _ _ _ _ _ Hs1).
    rewrite (fitted_config_lookup _ _ _ _ _ _ _ _ _ _ _ _ Hattrs) in Hfit.
    rewrite (encoding_pairs_as_lists te Hte). rewrite Hte in Hfit. exact Hfit. }
  assert (Hw1 : forallb (fs_writable fs1) (config_files path) = true).
  { pose proof (proj1 (save_dataset_config_writes self path fs)) as Hwr.
    rewrite Hsave in Hwr. simpl in Hwr. rewrite Hwr. exact Hw. }
  destruct (save_dataset_config_reads s1 path fs1 Hfit1 Hw1)
    as (fs2 & fe2 & fd2 & ft2 & te2 & ar2 & il2 & ol2 & nh2 & oh2 & sx2 & sy2
        & Hsave2 & Hattrs2 & _ & Hload2).
  destruct Hs1 as (L1 & L2 & L3 & L4 & L5 & L6 & L7 & L8 & L9 & L10 & L11).
  destruct Hattrs2 as (A1 & A2 & A3 & A4 & A5 & A6 & A7 & A8 & A9 & A10 & A11).
  rewrite L1 in A1. rewrite L2 in A2. rewrite L3 in A3. rewrite L4 in A4.
  rewrite L5 in A5. rewrite L6 in A6. rewrite L7 in A7. rewrite L8 in A8.
  rewrite L9 in A9. rewrite L10 in A10. rewrite L11 in A11.
  injection A1 as <-. injection A2 as <-. injection A3 as <-. injection A4 as <-.
  injection A5 as <-. injection A6 as <-. injection A7 as <-. injection A8 as <-.
  injection A9 as <-. injection A10 as <-. injection A11 as <-.
  exists fs1, s1, fs2.
  split; [exact Hsave | ]. split; [apply Hload | ]. split; [exact Hsave2 | ].
  rewrite Hload2, (pairs_as_lists_idem te Hte). reflexivity.
Qed.

(** X3 on the configuration fitted on the ten-row table. *)
Lemma save_load_idempotent_witness :
  exists fs1 s1 fs2,
    save_dataset_config ds10 "cfg" fs_empty = (Ok tt, fs1)
    /\ load_dataset_config fs1 "cfg" ds_new = (Ok tt, s1)
    /\ save_dataset_config s1 "cfg" fs1 = (Ok tt, fs2)
    /\ load_dataset_config fs2 "cfg" ds_new = (Ok tt, s1).
Proof.
  apply (save_load_idempotent ds10 ds_new fs_empty "cfg"); vm_compute; reflexivity.
Defined.

(** X4.  A [DataSet] that was never processed can be saved wherever the
    five files can be written, and loading what it saved into a new
    [DataSet] changes nothing: no feature list, no window length, no
    transformer. *)
Theorem new_dataset_round_trip (df df' : PyVal) (fs : FS) (path : string) :
  forallb (fs_writable fs) (config_files path) = true ->
  exists fs',
    save_dataset_config (DataSet df) path fs = (Ok tt, fs')
    /\ load_dataset_config fs' path (DataSet df') = (Ok tt, DataSet df').
Proof.
  intros Hw.
  destruct (save_dataset_config_reads (DataSet df) path fs eq_refl Hw)
    as (fs' & fe & fd & ft & te & ar & il & ol & nh & oh & sx & sy
        & Hsave & Hattrs & _ & Hload).
  destruct Hattrs as (A1 & A2 & A3 & A4 & A5 & A6 & A7 & A8 & A9 & A10 & A11).
  vm_compute in A1, A2, A3, A4, A5, A6, A7, A8, A9, A10, A11.
  injection A1 as <-. injection A2 as <-. injection A3 as <-. injection A4 as <-.
  injection A5 as <-. injection A6 as <-. injection A7 as <-. injection A8 as <-.
  injection A9 as <-. injection A10 as <-. injection A11 as <-.
  exists fs'. split; [exact Hsave | ]. rewrite Hload. reflexivity.
Qed.

(** X4 in the empty directory [cfg]. *)
Lemma new_dataset_round_trip_witness :
  exists fs',
    save_dataset_config (DataSet (PFrame table10)) "cfg" fs_empty = (Ok tt, fs')
    /\ load_dataset_config fs' "cfg" (DataSet (PFrame table100))
       = (Ok tt, DataSet (PFrame table100)).
Proof.
  apply (new_dataset_round_trip (PFrame table10) (PFrame table100) fs_empty "cfg").
  reflexivity.
Defined.

(* ===================================================================== *)
(** * 24. More on the split index and the split ratio *)
(* ===================================================================== *)

Lemma mask_index_nil_inv mask idx :
  mask_index mask idx = [] ->
  (length mask <= length idx)%nat ->
  forall (k : nat) b, mask !! k = Some b -> b = false.
Proof.
  revert idx. induction mask as [ | b m IH]; intros idx Hnil Hlen k b' Hk.
  - discriminate Hk.
  - destruct idx as [ | i r]; [simpl in Hlen; lia | ].
    simpl in Hnil. destruct b; [discriminate Hnil | ].
    destruct k as [ | k]; simpl in Hk.
    + injection Hk as <-. reflexivity.
    + apply (IH r Hnil) with (k := k); [simpl in Hlen; lia | exact Hk].
Qed.

Lemma mask_index_last_inv mask idx i :
  last (mask_index mask idx) = Some i ->
  (length mask <= length idx)%nat ->
  exists k : nat,
    idx !! k = Some i /\ mask !! k = Some true
    /\ forall (k' : nat) b, (k < k')%nat -> mask !! k' = Some b -> b = false.
Proof.
  revert idx. induction mask as [ | b m IH]; intros idx Hlast Hlen.
  - discriminate Hlast.
  - destruct idx as [ | i0 r]; [discriminate Hlast | ].
    simpl in Hlen. simpl in Hlast.
    destruct (mask_index m r) as [ | x xs] eqn:Ex.
    + destruct b; [ | discriminate Hlast].
      simpl in Hlast. injection Hlast as ->.
      exists 0%nat. split; [reflexivity | split; [reflexivity | ] ].
      intros k' b' Hk' Hb'. destruct k' as [ | k']; [lia | ].
      apply (mask_index_nil_inv m r Ex) with (k := k'); [lia | exact Hb'].
    + assert (Hrec : last (x :: xs) = Some i).
      { destruct b; [ | exact Hlast].
        change (last (i0 :: x :: xs)) with (last (x :: xs)) in Hlast. exact Hlast. }
      destruct (IH r) as (k & Hi & Hk & Hlater); [rewrite Ex; exact Hrec | lia | ].
      exists (S k). split; [exact Hi | split; [exact Hk | ] ].
      intros k' b' Hk' Hb'. destruct k' as [ | k']; [lia | ].
      apply (Hlater k' b'); [lia | exact Hb'].
Qed.

Lemma date_split_index_inv f ts col d i :
  frame_column col (df_columns f) = Some (ColDatetime ts) ->
  length ts = length (df_index f) ->
  date_split_index (PFrame f) col (PDate d) = Ok i ->
  last_preceding (df_index f) ts d i.
Proof.
  intros Hcol Hlen. unfold date_split_index, frame_getitem. rewrite Hcol. simpl.
  unfold index_last.
  destruct (last _) as [j | ] eqn:El; [ | discriminate].
  intros H. injection H as ->.
  apply mask_index_last_inv in El as (k & Hi & Hk & Hlater);
    [ | rewrite length_map, Hlen; lia ].
  rewrite list_lookup_fmap in Hk.
  destruct (ts !! k) as [t | ] eqn:Et; [ | discriminate Hk].
  simpl in Hk. injection Hk as Hk.
  exists k, t. split; [exact Hi | split; [exact Et | split; [exact Hk | ] ] ].
  intros k' t' Hk' Ht'. apply (Hlater k'); [exact Hk' | ].
  rewrite list_lookup_fmap, Ht'. reflexivity.
Qed.

(** X5.  On a table whose column [col] holds timestamps, the split index
    is [i] exactly when [i] is the label of the last row dated strictly
    before the split date, and the lookup fails, with an [IndexError],
    exactly when no row is dated before it. *)
Theorem date_split_index_spec
    (f : DataFrame) (ts : list Timestamp) (col : string) (d : date) :
  frame_column col (df_columns f) = Some (ColDatetime ts) ->
  length ts = length (df_index f) ->
  (forall i, date_split_index (PFrame f) col (PDate d) = Ok i
             <-> last_preceding (df_index f) ts d i)
  /\ (date_split_index (PFrame f) col (PDate d)
      = raise "IndexError" "index -1 is out of bounds for axis 0 with size 0"
      <-> forall t, In t ts -> date_ltb (ts_date t) d = false).
Proof.
  intros Hcol Hlen. split.
  - intros i. split.
    + apply (date_split_index_inv f ts col d i Hcol Hlen).
    + apply (date_split_index_last f ts col d i Hcol).
  - split.
    + unfold date_split_index, frame_getitem. rewrite Hcol. simpl.
      unfold index_last.
      destruct (mask_index _ _) as [ | x xs] eqn:Em.
      * intros _ t Ht.
        apply list_elem_of_In, list_elem_of_lookup in Ht as [k Hk].
        apply (mask_index_nil_inv _ _ Em) with (k := k).
        -- rewrite length_map, Hlen. lia.
        -- rewrite list_lookup_fmap, Hk. reflexivity.
      * destruct (last (x :: xs)) eqn:El; [discriminate | ].
        apply last_None in El. discriminate El.
    + apply (date_split_index_none f ts col d Hcol).
Qed.

(** X5 on the ten-row table: the split at 2020-02-03 has the index 3, and
    the split at 2020-01-30 fails. *)
Lemma date_split_index_spec_witness :
  last_preceding (df_index table10) dates10 (mkDate 2020 2 3) 3
  /\ forall t, In t dates10 -> date_ltb (ts_date t) (mkDate 2020 1 30) = false.
Proof.
  split.
  - apply (proj1 (date_split_index_spec table10 dates10 "date / time" (mkDate 2020 2 3)
                    eq_refl eq_refl) 3).
    reflexivity.
  - apply (proj2 (date_split_index_spec table10 dates10 "date / time" (mkDate 2020 1 30)
                    eq_refl eq_refl)).
    reflexivity.
Defined.

Lemma range_lookup n (k : nat) i : range n !! k = Some i -> i = Z.of_nat k /\ (k < n)%nat.
Proof.
  unfold range. rewrite list_lookup_fmap.
  destruct (seq 0 n !! k) as [j | ] eqn:E; [ | discriminate].
  apply lookup_seq in E as [-> Hk]. simpl. intros H. injection H as <-.
  split; [reflexivity | exact Hk].
Qed.

(** X6.  The split ratio is the split label over the number of rows: on a
    table of [n] rows labelled [c, c + 1, ...] it lies between [c / n]
    (included) and [(c + n) / n] (excluded).  After [reset_index] ([c = 0],
    the table [train_test_split_date] works on) it is in [0, 1); on a raw
    table whose labels start at [n] or more, as [process] may be given, it
    is 1 or more. *)
Theorem date_split_ratio_bounds
    (f : DataFrame) (ts : list Timestamp) (col : string) (d : date) (c : Z) (q : Q) :
  frame_column col (df_columns f) = Some (ColDatetime ts) ->
  df_index f = map (fun i => c + i) (range (length ts)) ->
  date_split_ratio (PFrame f) col (PDate d) = Ok q ->
  (inject_Z c / inject_Z (Z.of_nat (length ts)) <= q)%Q
  /\ (q < inject_Z (c + Z.of_nat (length ts)) / inject_Z (Z.of_nat (length ts)))%Q
  /\ (c = 0 -> (0 <= q)%Q /\ (q < 1)%Q)
  /\ (Z.of_nat (length ts) <= c -> (1 <= q)%Q).
Proof.
  intros Hcol Hidx Hq.
  assert (Hlen : length ts = length (df_index f)).
  { rewrite Hidx, length_map. unfold range. rewrite length_map, length_seq. reflexivity. }
  unfold date_split_ratio in Hq.
  destruct (date_split_index (PFrame f) col (PDate d)) as [i | ] eqn:Ei;
    [ | discriminate Hq].
  apply (date_split_index_inv f ts col d i Hcol Hlen) in Ei as (k & t & Hi & _).
  rewrite Hidx, list_lookup_fmap in Hi.
  destruct (range (length ts) !! k) as [j | ] eqn:Ej; [ | discriminate Hi].
  apply range_lookup in Ej as [-> Hk]. simpl in Hi. injection Hi as <-.
  simpl in Hq. unfold py_truediv in Hq. rewrite <- Hlen in Hq.
  destruct (Z.eqb_spec (Z.of_nat (length ts)) 0) as [E | _]; [lia | ].
  injection Hq as <-.
  set (n := Z.of_nat (length ts)) in *.
  assert (Hn : (0 < inject_Z n)%Q) by (unfold Qlt, n; simpl; lia).
  assert (Hinv : (0 < / inject_Z n)%Q) by (apply Qinv_lt_0_compat, Hn).
  assert (Hlow : (inject_Z c / inject_Z n <= inject_Z (c + Z.of_nat k) / inject_Z n)%Q).
  { apply Qmult_le_compat_r; [ | apply Qlt_le_weak, Hinv].
    unfold Qle. simpl. lia. }
  assert (Hhigh : (inject_Z (c + Z.of_nat k) / inject_Z n
                   < inject_Z (c + n) / inject_Z n)%Q).
  { apply Qmult_lt_compat_r; [exact Hinv | ].
    unfold Qlt, n. simpl. lia. }
  split; [exact Hlow | split; [exact Hhigh | split ] ].
  - intros ->. split.
    + apply Qle_shift_div_l; [exact Hn | ]. rewrite Qmult_0_l.
      unfold Qle. simpl. lia.
    + apply Qlt_shift_div_r; [exact Hn | ]. rewrite Qmult_1_l.
      unfold Qlt, n. simpl. lia.
  - intros Hc. apply Qle_shift_div_l; [exact Hn | ]. rewrite Qmult_1_l.
    unfold Qle, n in *. simpl. lia.
Qed.

(** X6 on the ten-row table with labels 0 to 9 (ratio 3/10) and with
    labels 100 to 109 (ratio 103/10). *)
Lemma date_split_ratio_bounds_witness :
  date_split_ratio (PFrame table10) "date / time" (PDate (mkDate 2020 2 3))
  = Ok (inject_Z 3 / inject_Z 10)%Q
  /\ ((0 <= inject_Z 3 / inject_Z 10)%Q /\ (inject_Z 3 / inject_Z 10 < 1)%Q)
  /\ date_split_ratio (PFrame table10_from_100) "date / time" (PDate (mkDate 2020 2 3))
     = Ok (inject_Z 103 / inject_Z 10)%Q
  /\ (1 <= inject_Z 103 / inject_Z 10)%Q.
Proof.
  split; [reflexivity | ]. split.
  - apply (proj1 (proj2 (proj2 (date_split_ratio_bounds table10 dates10 "date / time"
                                  (mkDate 2020 2 3) 0 (inject_Z 3 / inject_Z 10)%Q
                                  eq_refl eq_refl eq_refl)))).
    reflexivity.
  - split; [reflexivity | ].
    apply (proj2 (proj2 (proj2 (date_split_ratio_bounds table10_from_100 dates10
                                  "date / time" (mkDate 2020 2 3) 100
                                  (inject_Z 103 / inject_Z 10)%Q
                                  eq_refl eq_refl eq_refl)))).
    vm_compute. discriminate.
Defined.

Section Ratio_argument.
Context {C : Collaborators}.

(** X7.  When a split date is passed to [process], the [split_ratio]
    argument has no effect: it is overwritten by the ratio computed from
    the date before anything reads it. *)
Theorem process_split_ratio_unused
    time_col fe fd ft il ol (split_ratio split_ratio' split_date : PyVal)
    modes mo mn ar (self : Obj) :
  is_none split_date = false ->
  process time_col fe fd ft il ol split_ratio split_date modes mo mn ar self
  = process time_col fe fd ft il ol split_ratio' split_date modes mo mn ar self.
Proof.
  intros Hd. unfold process, process_steps, process_split_ratio.
  rewrite Hd, !andb_false_r. reflexivity.
Qed.

End Ratio_argument.

(** X7 on the ten-row table, with the ratios 0.9 and [None]. *)
Lemma process_split_ratio_unused_witness :
  process (C := spec_collaborators) "date / time" ["load"] ["load"] "load" 3 2
    (PFloat (9 # 10)) (PDate (mkDate 2020 2 3)) None PNone PNone false
    (DataSet (PFrame table10))
  = process (C := spec_collaborators) "date / time" ["load"] ["load"] "load" 3 2
      PNone (PDate (mkDate 2020 2 3)) None PNone PNone false
      (DataSet (PFrame table10)).
Proof.
  apply (process_split_ratio_unused (C := spec_collaborators)). reflexivity.
Defined.

(* ===================================================================== *)
(** * 25. What [process] and [process_from_config] store *)
(* ===================================================================== *)

(** The attributes [process] assigns after its first assignments. *)
Ltac preserves_steps Hn :=
  repeat first
    [ apply preserves_lift
    | apply preserves_getattr
    | apply preserves_ret
    | apply preserves_setattr; intros <-; apply Hn; simpl; tauto
    | apply preserves_bind; [ | intros ]
    | match goal with
      | |- preserves _ (let '(_, _) := ?x in _) => destruct x
      | |- preserves _ (if ?b then _ else _) => destruct b
      end ].

Section Stored.
Context {C : Collaborators}.

Lemma process_temporal_preserves name modes split_ratio ft fe fd :
  ~ In name ["df_processed"; "temporal_encodings"] ->
  preserves name (process_temporal modes split_ratio ft fe fd).
Proof.
  intros Hn. revert fe fd. induction modes as [ | m rest IH]; intros fe fd; simpl.
  - apply preserves_ret.
  - repeat first
      [ apply IH
      | apply preserves_lift
      | apply preserves_getattr
      | apply preserves_setattr; intros <-; apply Hn; simpl; tauto
      | apply preserves_bind; [ | intros ]
      | match goal with
        | |- preserves _ (let '(_, _) := ?x in _) => destruct x
        end ].
Qed.

Lemma process_transform_preserves name fe fd ft il ol split_ratio modes mo mn :
  ~ In name ["df_processed"; "temporal_encodings"; "nan_handler"; "one_hot_encoder";
             "scaler_X"; "scaler_y"] ->
  preserves name (process_transform fe fd ft il ol split_ratio modes mo mn).
Proof.
  intros Hn. unfold process_transform.
  apply preserves_bind.
  - apply process_temporal_preserves. simpl in *. tauto.
  - intros [fe' fd']. preserves_steps Hn.
Qed.

Lemma process_split_ratio_preserves name split_ratio split_date :
  preserves name (process_split_ratio split_ratio split_date).
Proof.
  unfold process_split_ratio. destruct (is_none split_date).
  - apply preserves_ret.
  - repeat first [ apply preserves_lift | apply preserves_getattr | apply preserves_ret
                 | apply preserves_bind; [ | intros ] ].
Qed.

Lemma process_store_preserves name r :
  ~ In name ["X"; "X_encoder"; "X_decoder"; "y_last"; "y_shifted"; "y"] ->
  preserves name (process_store r).
Proof. intros Hn. unfold process_store. preserves_steps Hn. Qed.

(** The temporal encodings after the loop over the modes: one pair per
    mode, appended to those the object held. *)
Lemma process_temporal_appends modes split_ratio ft fe fd (s s' : Obj) r old :
  process_temporal modes split_ratio ft fe fd s = (Ok r, s') ->
  s !! "temporal_encodings" = Some (PList old) ->
  exists new, s' !! "temporal_encodings" = Some (PList (old ++ new))
              /\ Forall2 temporal_pair modes new.
Proof.
  revert fe fd s old. induction modes as [ | m rest IH]; intros fe fd s old H Hold.
  - simpl in H. injection H as <- <-. exists []. rewrite app_nil_r.
    split; [exact Hold | constructor].
  - simpl in H.
    apply bind_ok_inv in H as (df & s1 & H1 & H).
    apply bind_ok_inv in H as (tc & s2 & H2 & H).
    apply bind_ok_inv in H as (res & s3 & H3 & H).
    apply bind_ok_inv in H as ([df' enc] & s4 & H4 & H).
    apply bind_ok_inv in H as (? & s5 & H5 & H).
    apply bind_ok_inv in H as (encodings & s6 & H6 & H).
    apply bind_ok_inv in H as (append & s7 & H7 & H).
    apply bind_ok_inv in H as (? & s8 & H8 & H).
    unfold getattr in H1, H2, H6. unfold setattr in H5, H8. unfold lift in H3, H4, H7.
    simplify_eq.
    match goal with
    | He : attr _ "temporal_encodings" = Ok _ |- _ =>
        unfold attr in He; rewrite lookup_insert_ne in He by discriminate;
        rewrite Hold in He; injection He as <-
    end.
    match goal with
    | Ha : py_append _ = Ok _ |- _ => simpl in Ha; injection Ha as <-
    end.
    destruct (IH _ _ _ (old ++ [PTuple [PStr m; enc]]) H) as (new & Hnew & Hpairs).
    { apply lookup_insert_eq. }
    exists (PTuple [PStr m; enc] :: new).
    rewrite <- app_assoc in Hnew. split; [exact Hnew | ].
    constructor; [exists enc; reflexivity | exact Hpairs].
Qed.

Lemma process_transform_appends fe fd ft il ol q modes mo mn (s s' : Obj) r old :
  process_transform fe fd ft il ol q modes mo mn s = (Ok r, s') ->
  s !! "temporal_encodings" = Some (PList old) ->
  exists new, s' !! "temporal_encodings" = Some (PList (old ++ new))
              /\ Forall2 temporal_pair (default [] modes) new.
Proof.
  intros H Hold. unfold process_transform in H.
  apply bind_ok_inv in H as ([fe' fd'] & s2 & Htemp & Hrest).
  destruct (process_temporal_appends _ _ _ _ _ s s2 _ old Htemp Hold)
    as (new & Hnew & Hpairs).
  exists new. split; [ | exact Hpairs].
  rewrite <- Hnew.
  match type of Hrest with
  | ?k s2 = _ =>
      assert (P : preserves "temporal_encodings" k)
        by (repeat first
              [ apply preserves_lift
              | apply preserves_getattr
              | apply preserves_setattr; discriminate
              | apply preserves_bind; [ | intros ]
              | match goal with
                | |- preserves _ (let '(_, _) := ?x in _) => destruct x
                end ])
  end.
  specialize (P s2). rewrite Hrest in P. exact P.
Qed.

Lemma process_init_ok time_col fe fd ft il ol mo ar (self s : Obj) :
  process_init time_col fe fd ft il ol mo ar self = (Ok tt, s) ->
  s !! "time_col" = Some (PStr time_col)
  /\ s !! "autoregressive" = Some (PBool ar)
  /\ s !! "features_input_encoder" = Some (py_strs fe)
  /\ s !! "features_input_decoder" = Some (py_strs fd)
  /\ s !! "feature_target" = Some (PStr ft)
  /\ s !! "input_seq_len" = Some (PInt il)
  /\ s !! "output_seq_len" = Some (PInt ol)
  /\ s !! "min_rel_occurrence" = Some mo
  /\ s !! "temporal_encodings" = self !! "temporal_encodings".
Proof.
  unfold process_init, mbind, M_bind, setattr, getattr, attr, lift.
  destruct (<["time_col":=PStr time_col]> self !! "df_raw") as [raw | ]; [ | discriminate].
  destruct (py_copy raw) as [df | ]; [ | discriminate].
  intros H. injection H as <-.
  repeat split; rewrite !lookup_insert; repeat case_decide; congruence.
Qed.

(** X8.  When [process] returns, the object holds the arguments as they
    were passed: in particular the two feature lists without the names of
    the temporal encodings (those are added to the local lists handed to
    the scalers and to the extractor only).  The temporal encodings are
    never reset: one [(mode, encoding)] tuple per mode is appended to the
    list the object held before the call. *)
Theorem process_stores_arguments
    time_col fe fd ft il ol sr sd modes mo mn ar (self self' : Obj) old :
  process time_col fe fd ft il ol sr sd modes mo mn ar self = (Ok tt, self') ->
  self !! "temporal_encodings" = Some (PList old) ->
  self' !! "time_col" = Some (PStr time_col)
  /\ self' !! "autoregressive" = Some (PBool ar)
  /\ self' !! "features_input_encoder" = Some (py_strs fe)
  /\ self' !! "features_input_decoder" = Some (py_strs fd)
  /\ self' !! "feature_target" = Some (PStr ft)
  /\ self' !! "input_seq_len" = Some (PInt il)
  /\ self' !! "output_seq_len" = Some (PInt ol)
  /\ self' !! "min_rel_occurrence" = Some mo
  /\ exists new,
       self' !! "temporal_encodings" = Some (PList (old ++ new))
       /\ Forall2 temporal_pair (default [] modes) new.
Proof.
  intros H Hold. unfold process in H.
  destruct (is_none sr && is_none sd); [discriminate H | ].
  apply bind_ok_inv in H as (r & s3 & Hsteps & Hstore).
  unfold process_steps in Hsteps.
  apply bind_ok_inv in Hsteps as ([] & s0 & Hinit & Hsteps).
  apply bind_ok_inv in Hsteps as (q & s1 & Hratio & Htrans).
  destruct (process_init_ok _ _ _ _ _ _ _ _ _ _ Hinit)
    as (I1 & I2 & I3 & I4 & I5 & I6 & I7 & I8 & I9).
  assert (Hkeep : forall name,
             ~ In name ["df_processed"; "temporal_encodings"; "nan_handler";
                        "one_hot_encoder"; "scaler_X"; "scaler_y";
                        "X"; "X_encoder"; "X_decoder"; "y_last"; "y_shifted"; "y"] ->
             self' !! name = s0 !! name).
  { intros name Hn.
    pose proof (process_split_ratio_preserves name sr sd s0) as P1.
    rewrite Hratio in P1. simpl in P1.
    assert (P2 : preserves name (process_transform fe fd ft il ol q modes mo mn))
      by (apply process_transform_preserves; simpl in *; tauto).
    specialize (P2 s1). rewrite Htrans in P2. simpl in P2.
    assert (P3 : preserves name (process_store r))
      by (apply process_store_preserves; simpl in *; tauto).
    specialize (P3 s3). rewrite Hstore in P3. simpl in P3.
    congruence. }
  repeat (split; [rewrite Hkeep by (simpl; intuition discriminate); assumption | ]).
  destruct (process_transform_appends _ _ _ _ _ _ _ _ _ s1 s3 r old Htrans)
    as (new & Hnew & Hpairs).
  { pose proof (process_split_ratio_preserves "temporal_encodings" sr sd s0) as P1.
    rewrite Hratio in P1. simpl in P1. congruence. }
  exists new. split; [ | exact Hpairs].
  assert (P3 : preserves "temporal_encodings" (process_store r))
    by (apply process_store_preserves; simpl; intuition discriminate).
  specialize (P3 s3). rewrite Hstore in P3. simpl in P3. congruence.
Qed.

End Stored.

(** X8 on a second call of [process] on the ten-row table: the object
    already holds the pair of the first call. *)
Lemma process_stores_arguments_witness :
  exists self' new,
    process (C := spec_collaborators) "date / time" ["load"] ["load"] "load" 3 2
      PNone (PDate (mkDate 2020 2 3)) (Some ["hours"]) PNone PNone true ds10
    = (Ok tt, self')
    /\ self' !! "features_input_encoder" = Some (py_strs ["load"])
    /\ self' !! "temporal_encodings"
       = Some (PList ([PTuple [PStr "hours"; PDict []]] ++ new))
    /\ Forall2 temporal_pair ["hours"] new.
Proof.
  assert (H : process (C := spec_collaborators) "date / time" ["load"] ["load"]
                "load" 3 2 PNone (PDate (mkDate 2020 2 3)) (Some ["hours"])
                PNone PNone true ds10
              = (Ok tt,
                 snd (process (C := spec_collaborators) "date / time" ["load"]
                        ["load"] "load" 3 2 PNone (PDate (mkDate 2020 2 3))
                        (Some ["hours"]) PNone PNone true ds10)))
    by (vm_compute; reflexivity).
  destruct (process_stores_arguments (C := spec_collaborators)
              "date / time" ["load"] ["load"] "load" 3 2
              PNone (PDate (mkDate 2020 2 3)) (Some ["hours"]) PNone PNone true ds10
              _ [PTuple [PStr "hours"; PDict []]] H)
    as (_ & _ & Hfe & _ & _ & _ & _ & _ & new & Hnew & Hpairs).
  - vm_compute. reflexivity.
  - eexists. exists new.
    split; [exact H | split; [exact Hfe | split; [exact Hnew | exact Hpairs] ] ].
Defined.

Section Replayed.
Context {C : Collaborators}.

Lemma replay_temporal_ignores_raw p : ignores "df_raw" (replay_temporal p).
Proof. unfold replay_temporal. repeat ignores_step. Qed.

Lemma process_from_config_ignores_raw fs path a b :
  ignores "df_raw" (process_from_config fs path a b).
Proof.
  unfold process_from_config, load_dataset_config, replay_transforms,
    replay_scale_extract, replay_store.
  cbv zeta.
  repeat first [ apply for_each_ignores, replay_temporal_ignores_raw | ignores_step ].
Qed.

(** X9.  [process_from_config] never reads the raw table: with any other
    [df_raw] its result or exception and every attribute it leaves
    ([df_processed], [X], [y] and the rest) are the same.  What it
    transforms is the table the object holds in [df_processed]. *)
Theorem process_from_config_raw_unused
    (fs : FS) (config_path : string) (input_seq_len output_seq_len raw : PyVal)
    (self : Obj) :
  agree_up_to "df_raw"
    (process_from_config fs config_path input_seq_len output_seq_len self)
    (process_from_config fs config_path input_seq_len output_seq_len
       (<["df_raw" := raw]> self)).
Proof.
  apply process_from_config_ignores_raw.
  intros n Hn. symmetry. apply lookup_insert_ne. congruence.
Qed.

(** One turn of the loop of [process_from_config] appends one name to
    each of the two feature lists. *)
Lemma replay_temporal_appends p (s s' : Obj) l1 l2 :
  replay_temporal p s = (Ok tt, s') ->
  s !! "features_input_encoder" = Some (PList l1) ->
  s !! "features_input_decoder" = Some (PList l2) ->
  exists name,
    temporal_name p name
    /\ s' !! "features_input_encoder" = Some (PList (l1 ++ [name]))
    /\ s' !! "features_input_decoder" = Some (PList (l2 ++ [name])).
Proof.
  intros H H1 H2. unfold replay_temporal in H.
  apply bind_ok_inv in H as (df & t1 & E1 & H).
  apply bind_ok_inv in H as (mode & t2 & E2 & H).
  apply bind_ok_inv in H as (encoding & t3 & E3 & H).
  apply bind_ok_inv in H as (r & t4 & E4 & H).
  apply bind_ok_inv in H as ([df' ?] & t5 & E5 & H).
  apply bind_ok_inv in H as (? & t6 & E6 & H).
  apply bind_ok_inv in H as (features & t7 & E7 & H).
  apply bind_ok_inv in H as (append & t8 & E8 & H).
  apply bind_ok_inv in H as (mode' & t9 & E9 & H).
  apply bind_ok_inv in H as (name & t10 & E10 & H).
  apply bind_ok_inv in H as (? & t11 & E11 & H).
  apply bind_ok_inv in H as (features2 & t12 & E12 & H).
  apply bind_ok_inv in H as (append2 & t13 & E13 & H).
  apply bind_ok_inv in H as (mode'' & t14 & E14 & H).
  apply bind_ok_inv in H as (name' & t15 & E15 & H).
  unfold getattr in E1, E7, E12. unfold setattr in E6, E11, H.
  unfold lift in E2, E3, E4, E5, E8, E9, E10, E13, E14, E15.
  simplify_eq.
  assert (mode' = mode) by congruence. assert (mode'' = mode) by congruence.
  subst mode' mode''. assert (name' = name) by congruence. subst name'.
  match goal with
  | E : attr (<["df_processed" := _]> _) "features_input_encoder" = Ok _ |- _ =>
      unfold attr in E; rewrite lookup_insert_ne in E by discriminate;
      rewrite H1 in E; injection E as <-
  end.
  match goal with
  | E : attr _ "features_input_decoder" = Ok _ |- _ =>
      unfold attr in E; rewrite !lookup_insert_ne in E by discriminate;
      rewrite H2 in E; injection E as <-
  end.
  repeat match goal with
         | E : py_append (PList _) = Ok _ |- _ => simpl in E; injection E as <-
         end.
  exists name.
  split; [ | split ].
  - destruct mode; try discriminate.
    match goal with
    | E : py_str_add _ (PStr _) = Ok _ |- _ => simpl in E; injection E as <-
    end.
    eexists. split; [eassumption | reflexivity].
  - rewrite lookup_insert_ne by discriminate. apply lookup_insert_eq.
  - apply lookup_insert_eq.
Qed.

Lemma replay_loop_appends items (s s' : Obj) l1 l2 :
  for_each replay_temporal items s = (Ok tt, s') ->
  s !! "features_input_encoder" = Some (PList l1) ->
  s !! "features_input_decoder" = Some (PList l2) ->
  exists names,
    Forall2 temporal_name items names
    /\ s' !! "features_input_encoder" = Some (PList (l1 ++ names))
    /\ s' !! "features_input_decoder" = Some (PList (l2 ++ names)).
Proof.
  revert s l1 l2. induction items as [ | p rest IH]; intros s l1 l2 H H1 H2.
  - simpl in H. injection H as <-. exists []. rewrite !app_nil_r.
    split; [constructor | split; assumption].
  - simpl in H. apply bind_ok_inv in H as ([] & s1 & Hp & H).
    destruct (replay_temporal_appends p s s1 l1 l2 Hp H1 H2) as (name & Hname & F1 & F2).
    destruct (IH s1 _ _ H F1 F2) as (names & Hnames & G1 & G2).
    exists (name :: names). rewrite <- !app_assoc in G1, G2.
    split; [constructor; assumption | split; assumption].
Qed.

Lemma replay_tail_preserves name r :
  In name ["features_input_encoder"; "features_input_decoder"] ->
  preserves name replay_scale_extract /\ preserves name (replay_store r).
Proof.
  intros Hn. split.
  - unfold replay_scale_extract.
    repeat first
      [ apply preserves_lift
      | apply preserves_getattr
      | apply preserves_setattr; simpl in Hn; intuition congruence
      | apply preserves_bind; [ | intros ]
      | match goal with
        | |- preserves _ (let '(_, _) := ?x in _) => destruct x
        end ].
  - unfold replay_store.
    repeat first
      [ apply preserves_lift
      | apply preserves_getattr
      | apply preserves_setattr; simpl in Hn; intuition congruence
      | apply preserves_bind; [ | intros ]
      | match goal with
        | |- preserves _ (let '(_, _) := ?x in _) => destruct x
        | |- preserves _ (if ?b then _ else _) => destruct b
        end ].
Qed.

(** X10.  When [process_from_config] returns on a configuration whose
    feature lists are lists, each of the two lists it leaves is the list of
    the metadata document followed by one name ["temporal_encoding_" +
    mode] per stored pair of temporal encodings, in their order: the names
    that [process] kept out of the stored lists. *)
Theorem process_from_config_feature_lists
    (fs : FS) (config_path : string) (a b : PyVal) (self self' : Obj) fe fd :
  process_from_config fs config_path a b self = (Ok tt, self') ->
  snd (load_dataset_config fs config_path self) !! "features_input_encoder"
  = Some (PList fe) ->
  snd (load_dataset_config fs config_path self) !! "features_input_decoder"
  = Some (PList fd) ->
  exists encodings items names,
    snd (load_dataset_config fs config_path self) !! "temporal_encodings" = Some encodings
    /\ py_iter encodings = Ok items
    /\ Forall2 temporal_name items names
    /\ self' !! "features_input_encoder" = Some (PList (fe ++ names))
    /\ self' !! "features_input_decoder" = Some (PList (fd ++ names)).
Proof.
  intros H Hfe Hfd. unfold process_from_config in H.
  apply bind_ok_inv in H as (? & s1 & _ & H).
  apply bind_ok_inv in H as (? & s2 & _ & H).
  apply bind_ok_inv in H as ([] & s3 & Hload & H).
  destruct (load_dataset_config_ok _ _ _ _ Hload)
    as (vfe & vfd & vft & vte & var & vil & vol & vnh & voh & vsx & vsy & Hall).
  rewrite Hall in Hload. injection Hload as <-.
  rewrite Hall in Hfe, Hfd. cbn [snd] in Hfe, Hfd.
  pose proof (loaded_lookups vfe vfd vft vte var vil vol vnh voh vsx vsy s2) as L2.
  pose proof (loaded_lookups vfe vfd vft vte var vil vol vnh voh vsx vsy self) as L.
  cbv zeta in L, L2.
  destruct L as (Lfe & Lfd & _ & Lte & _).
  destruct L2 as (Lfe2 & Lfd2 & _ & Lte2 & _).
  rewrite Lfe in Hfe. rewrite Lfd in Hfd. injection Hfe as ->. injection Hfd as ->.
  unfold replay_transforms in H.
  apply bind_ok_inv in H as (encodings & s4 & E1 & H).
  apply bind_ok_inv in H as (items & s5 & E2 & H).
  apply bind_ok_inv in H as ([] & s6 & Hloop & H).
  apply bind_ok_inv in H as (r & s7 & Hscale & Hstore).
  unfold getattr, attr in E1. rewrite Lte2 in E1. unfold lift in E2. simplify_eq.
  destruct (replay_loop_appends items _ s6 fe fd Hloop Lfe2 Lfd2)
    as (names & Hnames & F1 & F2).
  exists encodings, items, names.
  rewrite Hall. cbn [snd].
  split; [exact Lte | ]. split; [assumption | ]. split; [exact Hnames | ].
  assert (Hkeep : forall name,
             In name ["features_input_encoder"; "features_input_decoder"] ->
             self' !! name = s6 !! name).
  { intros name Hn. destruct (replay_tail_preserves name r Hn) as [P1 P2].
    specialize (P1 s6). rewrite Hscale in P1. simpl in P1.
    specialize (P2 s7). rewrite Hstore in P2. simpl in P2. congruence. }
  split.
  - rewrite Hkeep by (simpl; tauto). exact F1.
  - rewrite Hkeep by (simpl; tauto). exact F2.
Qed.

End Replayed.

(** X10 on the saved configuration of the ten-row table, whose one pair
    has the mode [hours]. *)
Lemma process_from_config_feature_lists_witness :
  exists encodings items names,
    snd (load_dataset_config fs_saved "cfg" ds_new) !! "temporal_encodings" = Some encodings
    /\ py_iter encodings = Ok items
    /\ Forall2 temporal_name items names
    /\ snd (process_from_config (C := replay_collaborators) fs_saved "cfg" PNone PNone
              ds_new) !! "features_input_encoder"
       = Some (PList ([PStr "load"] ++ names))
    /\ snd (process_from_config (C := replay_collaborators) fs_saved "cfg" PNone PNone
              ds_new) !! "features_input_decoder"
       = Some (PList ([PStr "load"] ++ names)).
Proof.
  apply (process_from_config_feature_lists (C := replay_collaborators)
           fs_saved "cfg" PNone PNone ds_new
           (snd (process_from_config (C := replay_collaborators) fs_saved "cfg"
                   PNone PNone ds_new)));
    vm_compute; reflexivity.
Defined.
(* ===================================================================== *)
(** * 26. The table of predictions *)
(* ===================================================================== *)

Lemma out_column_out_set name c cols :
  out_column name (out_set name c cols) = Some c.
Proof.
  induction cols as [ | [n c'] r IH]; simpl.
  - rewrite String.eqb_refl. reflexivity.
  - destruct (String.eqb name n) eqn:E; simpl; rewrite E; [reflexivity | exact IH].
Qed.

(** Assigning a list to a frame that has rows. *)
Lemma out_assign_rows df name values :
  out_index df <> [] ->
  out_assign df name values
  = if Nat.eqb (length values) (length (out_index df))
    then Ok (mkOut (out_index df) (out_set name (OutValues values) (out_columns df)))
    else raise "ValueError" (length_mismatch (length values) (length (out_index df))).
Proof.
  unfold out_assign. destruct (out_index df); [congruence | reflexivity].
Qed.

Section Predictions_facts.
Variable inverse_transform : PyVal -> Column -> result (list PyVal).

(** X11.  When [create_dataframe_with_predictions] returns on a processed
    table that has rows, the frame has the row labels of that table and
    the number of predictions is the number of rows less the
    [input_seq_len - 1] placeholders in front and the [output_seq_len]
    placeholders at the end; the column [predictions] holds the
    placeholders [[]], the predictions in their order, and the
    placeholders again: prediction [k] is on row [input_seq_len - 1 + k]. *)
Theorem predictions_aligned
    (self : Obj) (preds : list PyVal) (date_time_column : string)
    (df : DataFrame) (Li Lo : Z) (out : OutFrame) :
  create_dataframe_with_predictions inverse_transform self (PArray preds)
    date_time_column = Ok out ->
  self !! "df_processed" = Some (PFrame df) ->
  df_index df <> [] ->
  self !! "input_seq_len" = Some (PInt Li) ->
  self !! "output_seq_len" = Some (PInt Lo) ->
  out_index out = df_index df
  /\ (Z.to_nat (Li - 1) + length preds + Z.to_nat Lo = length (df_index df))%nat
  /\ (exists column,
        out_column "predictions" (out_columns out) = Some (OutValues column)
        /\ column = repeat (PList []) (Z.to_nat (Li - 1)) ++ preds
                    ++ repeat (PList []) (Z.to_nat Lo)
        /\ forall k p, preds !! k = Some p ->
                       column !! (Z.to_nat (Li - 1) + k)%nat = Some p).
Proof.
  intros H Hdf Hrows HLi HLo.
  unfold create_dataframe_with_predictions, mbind, result_bind, attr in H.
  rewrite Hdf, HLi, HLo in H.
  destruct (self !! "feature_target") as [ft | ]; [ | discriminate H].
  destruct (frame_getitem_key (PFrame df) ft) as [truth_scaled | ]; [ | discriminate H].
  destruct (frame_getitem (PFrame df) date_time_column) as [c | ]; [ | discriminate H].
  cbn [frame_index] in H.
  destruct (self !! "scaler_y") as [sy | ]; [ | discriminate H].
  destruct (inverse_transform sy truth_scaled) as [truth | ]; [ | discriminate H].
  rewrite out_assign_rows in H by exact Hrows.
  cbn [out_index out_columns] in H.
  destruct (Nat.eqb (length truth) (length (df_index df))); [ | discriminate H].
  cbn [py_tolist py_sub1 empty_lists] in H.
  rewrite out_assign_rows in H by exact Hrows.
  cbn [out_index out_columns] in H.
  destruct (Nat.eqb _ (length (df_index df))) eqn:Elen; [ | discriminate H].
  injection H as <-. cbn [out_index out_columns].
  apply Nat.eqb_eq in Elen. rewrite !length_app, !repeat_length in Elen.
  split; [reflexivity | ]. split; [lia | ].
  eexists. split; [apply out_column_out_set | ]. split; [reflexivity | ].
  intros k p Hk.
  rewrite lookup_app_r by (rewrite repeat_length; lia).
  rewrite repeat_length.
  replace (Z.to_nat (Li - 1) + k - Z.to_nat (Li - 1))%nat with k by lia.
  rewrite lookup_app_l by (apply lookup_lt_Some in Hk; exact Hk).
  exact Hk.
Qed.

(** X12.  With any other number of predictions the assignment of the
    column [predictions] fails: a [ValueError] that gives the two lengths.
    The table has rows and the scaler returns one value per row. *)
Theorem predictions_wrong_count
    (self : Obj) (preds : list PyVal) (date_time_column feature_target : string)
    (df : DataFrame) (target dates : Column) (scaler_y : PyVal)
    (truth : list PyVal) (Li Lo : Z) :
  self !! "df_processed" = Some (PFrame df) ->
  self !! "feature_target" = Some (PStr feature_target) ->
  self !! "scaler_y" = Some scaler_y ->
  self !! "input_seq_len" = Some (PInt Li) ->
  self !! "output_seq_len" = Some (PInt Lo) ->
  frame_column feature_target (df_columns df) = Some target ->
  frame_column date_time_column (df_columns df) = Some dates ->
  inverse_transform scaler_y target = Ok truth ->
  length truth = length (df_index df) ->
  df_index df <> [] ->
  (Z.to_nat (Li - 1) + length preds + Z.to_nat Lo)%nat <> length (df_index df) ->
  create_dataframe_with_predictions inverse_transform self (PArray preds)
    date_time_column
  = raise "ValueError"
      (length_mismatch (Z.to_nat (Li - 1) + length preds + Z.to_nat Lo)
         (length (df_index df))).
Proof.
  intros Hdf Hft Hsy HLi HLo Htarget Hdates Htruth Hlen Hrows Hcount.
  unfold create_dataframe_with_predictions, mbind, result_bind, attr.
  rewrite Hdf, Hft, Hsy, HLi, HLo.
  cbn [frame_getitem_key frame_getitem frame_index]. rewrite Htarget, Hdates, Htruth.
  rewrite out_assign_rows by exact Hrows. cbn [out_index out_columns].
  rewrite Hlen, Nat.eqb_refl.
  cbn [py_tolist py_sub1 empty_lists].
  rewrite out_assign_rows by exact Hrows. cbn [out_index out_columns].
  rewrite !length_app, !repeat_length.
  replace (Z.to_nat (Li - 1) + (length preds + Z.to_nat Lo))%nat
    with (Z.to_nat (Li - 1) + length preds + Z.to_nat Lo)%nat by lia.
  destruct (Nat.eqb _ (length (df_index df))) eqn:E; [ | reflexivity].
  apply Nat.eqb_eq in E. contradiction.
Qed.

End Predictions_facts.

(** X11 on [table10] with window lengths 3 and 2 and six predictions: two
    placeholders, the six predictions, two placeholders. *)
Lemma predictions_aligned_witness :
  exists out,
    create_dataframe_with_predictions plain_inverse_transform ds_scaled
      (PArray predictions6) "date / time" = Ok out
    /\ out_index out = df_index table10
    /\ (Z.to_nat (3 - 1) + length predictions6 + Z.to_nat 2
        = length (df_index table10))%nat
    /\ (exists column,
          out_column "predictions" (out_columns out) = Some (OutValues column)
          /\ column = repeat (PList []) (Z.to_nat (3 - 1)) ++ predictions6
                      ++ repeat (PList []) (Z.to_nat 2)
          /\ forall k p, predictions6 !! k = Some p ->
                         column !! (Z.to_nat (3 - 1) + k)%nat = Some p).
Proof.
  eexists. split; [vm_compute; reflexivity | ].
  apply (predictions_aligned plain_inverse_transform ds_scaled predictions6
           "date / time" table10 3 2).
  - vm_compute. reflexivity.
  - vm_compute. reflexivity.
  - discriminate.
  - vm_compute. reflexivity.
  - vm_compute. reflexivity.
Defined.

(** X12 on the same table with five predictions. *)
Lemma predictions_wrong_count_witness :
  create_dataframe_with_predictions plain_inverse_transform ds_scaled
    (PArray (firstn 5 predictions6)) "date / time"
  = raise "ValueError" "Length of values (9) does not match length of index (10)".
Proof.
  apply (predictions_wrong_count plain_inverse_transform ds_scaled
           (firstn 5 predictions6) "date / time" "load" table10
           (ColFloat (map (fun i => inject_Z i) (range 10))) (ColDatetime dates10)
           (PInst "StandardScaler" PNone)
           (map PFloat (map (fun i => inject_Z i) (range 10))) 3 2);
    try (vm_compute; reflexivity).
  - discriminate.
  - vm_compute. lia.
Defined.
(* ===================================================================== *)
(** * 27. The month filter on consecutive labels *)
(* ===================================================================== *)

Lemma mask_index_all mask idx :
  length mask = length idx ->
  (forall b, In b mask -> b = true) ->
  mask_index mask idx = idx.
Proof.
  revert idx. induction mask as [ | b m IH]; intros [ | i r] Hlen Hall;
    try discriminate Hlen; [reflexivity | ].
  simpl. rewrite (Hall b) by (left; reflexivity).
  f_equal. apply IH; [simpl in Hlen; lia | ].
  intros b' Hb'. apply Hall. right. exact Hb'.
Qed.

Lemma filter_all_of (P : Z -> bool) l :
  (forall x, In x l -> P x = true) -> filter (fun i => P i) l = l.
Proof.
  induction l as [ | x r IH]; intros H; [reflexivity | ].
  rewrite filter_cons, (H x) by (left; reflexivity). simpl.
  f_equal. apply IH. intros y Hy. apply H. right. exact Hy.
Qed.

Lemma filter_none_of (P : Z -> bool) l :
  (forall x, In x l -> P x = false) -> filter (fun i => P i) l = [].
Proof.
  induction l as [ | x r IH]; intros H; [reflexivity | ].
  rewrite filter_cons, (H x) by (left; reflexivity). simpl.
  apply IH. intros y Hy. apply H. right. exact Hy.
Qed.

Lemma range_app a b : range (a + b) = range a ++ map Z.of_nat (seq a b).
Proof. unfold range. rewrite seq_app, map_app. reflexivity. Qed.

Lemma in_range i n : In i (range n) -> 0 <= i < Z.of_nat n.
Proof.
  unfold range. intros H. apply in_map_iff in H as (k & <- & Hk).
  apply in_seq in Hk. lia.
Qed.

Lemma in_seq_Z i a b : In i (map Z.of_nat (seq a b)) -> Z.of_nat a <= i < Z.of_nat (a + b).
Proof.
  intros H. apply in_map_iff in H as (k & <- & Hk). apply in_seq in Hk. lia.
Qed.

(** The labels [0 .. a + b - 1] below [a] are [0 .. a - 1]. *)
Lemma train_indices_range (a b : nat) :
  train_indices (range (a + b)) (Z.of_nat a) = range a.
Proof.
  unfold train_indices. rewrite range_app, filter_app.
  rewrite (filter_all_of (fun i => i <? Z.of_nat a))
    by (intros x Hx; apply in_range in Hx; apply Z.ltb_lt; lia).
  rewrite (filter_none_of (fun i => i <? Z.of_nat a))
    by (intros x Hx; apply in_seq_Z in Hx; apply Z.ltb_ge; lia).
  apply app_nil_r.
Qed.

Lemma index_last_range (n : nat) :
  (0 < n)%nat -> index_last (range n) = Ok (Z.of_nat n - 1).
Proof.
  intros Hn. destruct n as [ | a]; [lia | ].
  unfold index_last, range. rewrite seq_S, map_app. simpl. rewrite last_snoc.
  f_equal. lia.
Qed.

Lemma result_bind_ok {A B} (a : A) (f : A -> result B) : (Ok a ≫= f) = f a.
Proof. reflexivity. Qed.

Lemma map_sub_seq (a b c : nat) :
  map (fun i => i - Z.of_nat a) (map Z.of_nat (seq (a + c) b)) = map Z.of_nat (seq c b).
Proof.
  revert c. induction b as [ | b IH]; intros c; [reflexivity | ].
  simpl. f_equal; [lia | ].
  replace (S (a + c)) with (a + S c)%nat by lia. apply IH.
Qed.

(** Line 435 on the labels [0 .. n + b - 1] with the last train label
    [n - 1]: the index [-1] and then [0 .. b - 1]. *)
Lemma test_indices_range (n b : nat) :
  (0 < n)%nat ->
  test_indices (range (n + b)) (Z.of_nat n - 1) (Z.of_nat n) = -1 :: range b.
Proof.
  intros Hn. destruct n as [ | a]; [lia | ].
  unfold test_indices.
  replace (S a + b)%nat with (a + S b)%nat by lia.
  rewrite range_app, filter_app.
  rewrite (filter_none_of (fun i => Z.of_nat (S a) - 1 <=? i))
    by (intros x Hx; apply in_range in Hx; apply Z.leb_gt; lia).
  rewrite (filter_all_of (fun i => Z.of_nat (S a) - 1 <=? i))
    by (intros x Hx; apply in_seq_Z in Hx; apply Z.leb_le; lia).
  cbn [seq map app]. f_equal; [lia | ].
  pose proof (map_sub_seq (S a) b 0) as E.
  replace (S a + 0)%nat with (S a) in E by lia. exact E.
Qed.

Lemma seq_index_nat {A} (l : list A) (k : nat) x :
  l !! k = Some x -> seq_index l (Z.of_nat k) = Some x.
Proof.
  intros H. pose proof (lookup_lt_Some _ _ _ H) as Hk. unfold seq_index.
  destruct (Z.leb_spec 0 (Z.of_nat k)); [ | lia].
  destruct (Z.ltb_spec (Z.of_nat k) (Z.of_nat (length l))); [ | lia].
  simpl. rewrite Nat2Z.id. exact H.
Qed.

Lemma seq_index_last {A} (l : list A) x :
  last l = Some x -> seq_index l (-1) = Some x.
Proof.
  intros H. rewrite last_lookup in H.
  pose proof (lookup_lt_Some _ _ _ H) as Hk. unfold seq_index.
  destruct (Z.leb_spec 0 (-1)); [lia | ].
  destruct (Z.leb_spec (- Z.of_nat (length l)) (-1)); [ | lia].
  simpl.
  replace (Z.to_nat (Z.of_nat (length l) + -1)) with (pred (length l)) by lia.
  exact H.
Qed.

Lemma mapM_cons_ok {A B} (f : A -> result B) x l y out :
  f x = Ok y -> mapM f l = Ok out -> mapM f (x :: l) = Ok (y :: out).
Proof. intros Hx Hl. cbn. rewrite Hx. cbn. rewrite Hl. reflexivity. Qed.

Lemma mapM_rows_seq (rows : list PyVal) (a k : nat) :
  (a + k <= length rows)%nat ->
  mapM (fun i => match seq_index rows i with
                 | Some r => Ok r
                 | None => raise "IndexError" "index is out of bounds for axis 0"
                 end) (map Z.of_nat (seq a k))
  = Ok (take k (drop a rows)).
Proof.
  revert a. induction k as [ | k IH]; intros a Hle; [reflexivity | ].
  destruct (lookup_lt_is_Some_2 rows a) as [x Hx]; [lia | ].
  rewrite (drop_S _ _ _ Hx). cbn [firstn seq map].
  apply mapM_cons_ok.
  - rewrite (seq_index_nat _ _ _ Hx). reflexivity.
  - apply IH. lia.
Qed.

(** Taking every row in order gives the array back. *)
Lemma take_rows_range (rows : list PyVal) :
  take_rows (PArray rows) (range (length rows)) = Ok (PArray rows).
Proof.
  unfold take_rows, range. rewrite (mapM_rows_seq rows 0 (length rows)) by lia.
  rewrite drop_0, firstn_all. reflexivity.
Qed.

(** Taking the index [-1] and then every row gives the array with its
    last row also in front. *)
Lemma take_rows_last_range (rows : list PyVal) :
  rows <> [] ->
  take_rows (PArray rows) (-1 :: range (length rows))
  = Ok (PArray (last_in_front rows)).
Proof.
  intros Hne. unfold take_rows, last_in_front.
  destruct (last rows) as [r | ] eqn:El;
    [ | apply last_None in El; contradiction ].
  unfold range.
  rewrite (mapM_cons_ok _ (-1) _ r (take (length rows) (drop 0 rows))).
  - rewrite drop_0, firstn_all. reflexivity.
  - rewrite (seq_index_last _ _ El). reflexivity.
  - apply mapM_rows_seq. lia.
Qed.

Lemma mapM_arrays (g : list PyVal -> list PyVal) idx (n : nat) (xs : list (list PyVal)) :
  (forall x, length x = n -> take_rows (PArray x) idx = Ok (PArray (g x))) ->
  Forall (fun x => length x = n) xs ->
  mapM (fun x => take_rows x idx) (map PArray xs) = Ok (map (fun x => PArray (g x)) xs).
Proof.
  intros Hg Hall. induction Hall as [ | x r Hx Hr IH]; [reflexivity | ].
  cbn [map]. apply mapM_cons_ok; [apply Hg, Hx | exact IH].
Qed.

(** X13.  On a table labelled [0, 1, ...] whose rows all fall in the
    allowed months (as with [considered_months=None]), the month filter
    returns the train part as it is, and each array of the test part with
    its last row also in front: one row more than the test part has.
    The arrays of the train part have the length of [y_train], those of
    the test part the length of [y_test], and neither part is empty. *)
Theorem month_filter_every_row
    (f : DataFrame) (date_col : string) (months : list Z) (ts : list Timestamp)
    (X_train X_test : list (list PyVal)) (y_train y_test : list PyVal) :
  frame_column date_col (df_columns f) = Some (ColDatetime ts) ->
  df_index f = range (length ts) ->
  (forall t, In t ts -> existsb (Z.eqb (month (ts_date t))) months = true) ->
  X_train <> [] -> X_test <> [] ->
  Forall (fun x => length x = length y_train) X_train ->
  Forall (fun x => length x = length y_test) X_test ->
  y_train <> [] -> y_test <> [] ->
  (length y_train + length y_test <= length ts)%nat ->
  month_filter (PFrame f) date_col months
    (PList (map PArray X_train)) (PArray y_train)
    (PList (map PArray X_test)) (PArray y_test)
  = Ok (PTuple [ PList (map PArray X_train); PArray y_train;
                 PList (map (fun x => PArray (last_in_front x)) X_test);
                 PArray (last_in_front y_test) ]).
Proof.
  intros Hcol Hidx Hmonths HXtr HXte Htr Hte Hytr Hyte Hle.
  destruct X_train as [ | x0 X_train']; [contradiction | ].
  destruct X_test as [ | t0 X_test']; [contradiction | ].
  pose proof (Forall_inv Htr) as Hx0. pose proof (Forall_inv Hte) as Ht0.
  assert (Ha : (0 < length y_train)%nat)
    by (destruct y_train; [contradiction | simpl; lia]).
  assert (Hm : month_index (PFrame f) date_col months = Ok (range (length ts))).
  { unfold month_index, frame_getitem. rewrite Hcol. simpl. rewrite Hidx.
    rewrite mask_index_all; [reflexivity | | ].
    - unfold range. rewrite !length_map, length_seq. reflexivity.
    - intros b Hb. apply in_map_iff in Hb as (t & <- & Ht). apply Hmonths, Ht. }
  assert (Hkept : filter (fun i => i <? Z.of_nat (length y_train)
                                       + Z.of_nat (length y_test)) (range (length ts))
                  = range (length y_train + length y_test)).
  { replace (length ts)
      with (length y_train + length y_test
            + (length ts - (length y_train + length y_test)))%nat by lia.
    rewrite range_app, filter_app.
    rewrite (filter_all_of (fun i => i <? Z.of_nat (length y_train)
                                          + Z.of_nat (length y_test)))
      by (intros x Hx; apply in_range in Hx; apply Z.ltb_lt; lia).
    rewrite (filter_none_of (fun i => i <? Z.of_nat (length y_train)
                                           + Z.of_nat (length y_test)))
      by (intros x Hx; apply in_seq_Z in Hx; apply Z.ltb_ge; lia).
    apply app_nil_r. }
  unfold month_filter. rewrite Hm.
  change (py_getitem (PList (map PArray (x0 :: X_train'))) (PInt 0)) with (Ok (PArray x0)).
  change (py_getitem (PList (map PArray (t0 :: X_test'))) (PInt 0)) with (Ok (PArray t0)).
  cbn [mbind result_bind shape0 py_iter]. rewrite Hx0, Ht0, Hkept.
  rewrite train_indices_range, (index_last_range _ Ha), result_bind_ok.
  rewrite (test_indices_range _ _ Ha).
  rewrite (take_rows_range y_train), result_bind_ok.
  rewrite (take_rows_last_range y_test Hyte), result_bind_ok.
  rewrite (mapM_arrays (fun x => x) (range (length y_train)) (length y_train))
    by (first [ exact Htr | intros x Hx; rewrite <- Hx; apply take_rows_range ]).
  rewrite result_bind_ok.
  rewrite (mapM_arrays last_in_front (-1 :: range (length y_test)) (length y_test))
    by (first [ exact Hte
              | intros x Hx; rewrite <- Hx; apply take_rows_last_range;
                intros ->; destruct y_test; [contradiction | discriminate Hx] ]).
  rewrite result_bind_ok.
  replace (map (fun x => PArray x) (x0 :: X_train')) with (map PArray (x0 :: X_train'))
    by reflexivity.
  reflexivity.
Qed.

Lemma take_rows_out_of_bounds rows idx i :
  In i idx -> seq_index rows i = None ->
  take_rows (PArray rows) idx = raise "IndexError" "index is out of bounds for axis 0".
Proof.
  intros Hin Hi. unfold take_rows.
  induction idx as [ | j r IH]; [destruct Hin | ].
  cbn. destruct (seq_index rows j) as [x | ] eqn:Ej.
  - destruct Hin as [-> | Hin]; [congruence | ].
    cbn. specialize (IH Hin). cbn in IH.
    destruct (mapM _ r) as [out | e]; [discriminate IH | ].
    cbn in IH. injection IH as ->. reflexivity.
  - reflexivity.
Qed.

Lemma take_rows_in_bounds rows idx :
  (forall i, In i idx -> 0 <= i < Z.of_nat (length rows)) ->
  exists out, take_rows (PArray rows) idx = Ok (PArray out).
Proof.
  intros Hall. unfold take_rows.
  induction idx as [ | j r IH]; [exists []; reflexivity | ].
  destruct IH as [out IH]; [intros i Hi; apply Hall; right; exact Hi | ].
  destruct (lookup_lt_is_Some_2 rows (Z.to_nat j)) as [x Hx];
    [specialize (Hall j (or_introl eq_refl)); lia | ].
  exists (x :: out).
  destruct (mapM _ r) as [out' | ] eqn:E; [ | discriminate IH].
  cbn in IH. injection IH as <-.
  rewrite (mapM_cons_ok _ j r x out'); [reflexivity | | exact E].
  specialize (Hall j (or_introl eq_refl)).
  rewrite <- (Z2Nat.id j) by lia. rewrite (seq_index_nat _ _ _ Hx). reflexivity.
Qed.

(** X14.  When the last selected train label lies more than the number
    of test windows before the train/test boundary, the negative index
    that line 435 computes from it is out of the bounds of the test
    arrays, and the month filter fails with an [IndexError].  (The
    selected labels are not negative.) *)
Theorem month_filter_out_of_bounds
    (df : PyVal) (date_col : string) (months i_months : list Z)
    (X_train X_test : PyVal) (x0 t0 y_train y_test : list PyVal) (i_last : Z) :
  month_index df date_col months = Ok i_months ->
  py_getitem X_train (PInt 0) = Ok (PArray x0) ->
  py_getitem X_test (PInt 0) = Ok (PArray t0) ->
  length y_train = length x0 ->
  length y_test = length t0 ->
  (forall i, In i i_months -> 0 <= i) ->
  last (train_indices
          (filter (fun i => i <? Z.of_nat (length x0) + Z.of_nat (length t0)) i_months)
          (Z.of_nat (length x0))) = Some i_last ->
  i_last + Z.of_nat (length t0) < Z.of_nat (length x0) ->
  month_filter df date_col months X_train (PArray y_train) X_test (PArray y_test)
  = raise "IndexError" "index is out of bounds for axis 0".
Proof.
  intros Hm Hx Ht Hytr Hyte Hpos Hlast Hfar.
  destruct (test_indices_negative _ _ _ Hlast) as [Hin _].
  destruct (take_rows_in_bounds y_train
              (train_indices
                 (filter (fun i => i <? Z.of_nat (length x0) + Z.of_nat (length t0))
                    i_months) (Z.of_nat (length x0)))) as [out Hout].
  { intros i Hi. unfold train_indices in Hi.
    apply list_elem_of_In, list_elem_of_filter in Hi as [Hlt Hi].
    apply list_elem_of_filter in Hi as [_ Hi]. apply list_elem_of_In in Hi.
    apply Is_true_true, Z.ltb_lt in Hlt. specialize (Hpos i Hi). lia. }
  unfold month_filter. rewrite Hm, Hx, Ht.
  cbn [mbind result_bind shape0]. unfold index_last. rewrite Hlast.
  cbn [mbind result_bind]. rewrite Hout. cbn [mbind result_bind].
  rewrite (take_rows_out_of_bounds y_test _ _ Hin); [reflexivity | ].
  unfold seq_index. rewrite Hyte.
  assert (Hneg : i_last - Z.of_nat (length x0) < - Z.of_nat (length t0)) by lia.
  destruct (Z.leb_spec 0 (i_last - Z.of_nat (length x0))); [lia | ].
  destruct (Z.leb_spec (- Z.of_nat (length t0)) (i_last - Z.of_nat (length x0)));
    [lia | ].
  reflexivity.
Qed.

(** X13 on the ten-row table with every month allowed: two train and
    four test windows. *)
Lemma month_filter_every_row_witness :
  month_filter (PFrame table10) "date / time" (map Z.of_nat (seq 1 12))
    (PList (map PArray [rows_from 0 2; rows_from 10 2])) (PArray (rows_from 20 2))
    (PList (map PArray [rows_from 30 4])) (PArray (rows_from 40 4))
  = Ok (PTuple [ PList (map PArray [rows_from 0 2; rows_from 10 2]);
                 PArray (rows_from 20 2);
                 PList (map (fun x => PArray (last_in_front x)) [rows_from 30 4]);
                 PArray (last_in_front (rows_from 40 4)) ]).
Proof.
  apply (month_filter_every_row table10 "date / time" (map Z.of_nat (seq 1 12)) dates10
           [rows_from 0 2; rows_from 10 2] [rows_from 30 4]
           (rows_from 20 2) (rows_from 40 4));
    try reflexivity; try discriminate.
  - intros t Ht. vm_compute in Ht.
    repeat (destruct Ht as [<- | Ht]; [reflexivity | ]). destruct Ht.
  - repeat constructor.
  - repeat constructor.
  - vm_compute. lia.
Defined.

(** X14 on the ten-row table with the month of January only (the labels
    0 and 1), five train windows and two test windows. *)
Lemma month_filter_out_of_bounds_witness :
  month_filter (PFrame table10) "date / time" [1]
    (PList [PArray (rows_from 0 5)]) (PArray (rows_from 20 5))
    (PList [PArray (rows_from 30 2)]) (PArray (rows_from 40 2))
  = raise "IndexError" "index is out of bounds for axis 0".
Proof.
  apply (month_filter_out_of_bounds (PFrame table10) "date / time" [1] [0; 1]
           (PList [PArray (rows_from 0 5)]) (PList [PArray (rows_from 30 2)])
           (rows_from 0 5) (rows_from 30 2) (rows_from 20 5) (rows_from 40 2) 1);
    try reflexivity.
  intros i Hi. simpl in Hi. destruct Hi as [<- | [<- | []]]; lia.
Defined.

(* ===================================================================== *)
(** * 28. Loading the raw table *)
(* ===================================================================== *)

Section Load_data_facts.
Variable read_excel : string -> result PyVal.


End Load_data_facts.
